(** * MouseControl: input hook, HID++ protocol client and dispatch engine

    A shallow embedding of the parts of the program that decide how mouse
    events are classified, how the HID++ request/response and notification
    reports are decoded, and how the engine wires configuration to the
    hook.  Python integers are [Z], bytes of a report are [Z] values in
    [0, 255], strings are [string], dicts whose iteration order matters
    are association lists, and the hook's binding table is a [gmap] with a
    [gset] of blocked event types.  Effects on the outside world (posted
    window messages, synthesized input, handler invocations, device
    writes) are recorded in an explicit trace. *)

From Stdlib Require Import ZArith String Ascii List Bool Lia.
From stdpp Require Import base option list gmap strings.

Local Open Scope string_scope.
Local Open Scope list_scope.
Local Open Scope Z_scope.

(* ===================================================================== *)
(** * Python exceptions and call results *)
(* ===================================================================== *)

(** What a Python call can raise.  [except Exception] catches the first
    kind only: [KeyboardInterrupt], [SystemExit] and [GeneratorExit]
    derive from [BaseException] directly. *)
Inductive PyExc :=
| PyException (msg : string)
| PyBaseException (name : string).

Definition isinstance_Exception (e : PyExc) : bool :=
  match e with
  | PyException _ => true
  | PyBaseException _ => false
  end.

Inductive CallResult :=
| Returned
| Raised (e : PyExc).

(* ===================================================================== *)
(** * core/mouse_hook.py *)
(* ===================================================================== *)

Module MouseHook.

  (** ** Windows constants *)
Definition WM_XBUTTONDOWN : Z := 0x020B.
Definition WM_XBUTTONUP : Z := 0x020C.
Definition WM_MBUTTONDOWN : Z := 0x0207.
Definition WM_MBUTTONUP : Z := 0x0208.
Definition WM_MOUSEHWHEEL : Z := 0x020E.
Definition WM_MOUSEWHEEL : Z := 0x020A.
Definition WM_MOUSEMOVE : Z := 0x0200.
Definition HC_ACTION : Z := 0.
Definition XBUTTON1 : Z := 0x0001.
Definition XBUTTON2 : Z := 0x0002.
Definition INJECTED_FLAG : Z := 0x00000001.
Definition WM_INPUT : Z := 0x00FF.
Definition STANDARD_BUTTON_MASK : Z := 0x1F.
Definition WM_APP : Z := 0x8000.
Definition WM_APP_INJECT_VSCROLL : Z := WM_APP + 1.
Definition WM_APP_INJECT_HSCROLL : Z := WM_APP + 2.
  (** From key_simulator.py. *)
Definition MOUSEEVENTF_WHEEL : Z := 0x0800.
Definition MOUSEEVENTF_HWHEEL : Z := 0x01000.

  (** ** [hiword] *)
Definition hiword (dword : Z) : Z :=
    let val := Z.land (Z.shiftr dword 16) 0xFFFF in
    if val >=? 0x8000 then val - 0x10000 else val.

  (** ** [MouseEvent]: the event-type strings and the event object
      (the creation timestamp is wall-clock time and is left out). *)
Definition XBUTTON1_DOWN := "xbutton1_down".
Definition XBUTTON1_UP := "xbutton1_up".
Definition XBUTTON2_DOWN := "xbutton2_down".
Definition XBUTTON2_UP := "xbutton2_up".
Definition MIDDLE_DOWN := "middle_down".
Definition MIDDLE_UP := "middle_up".
Definition GESTURE_DOWN := "gesture_down".
Definition GESTURE_UP := "gesture_up".
Definition HSCROLL_LEFT := "hscroll_left".
Definition HSCROLL_RIGHT := "hscroll_right".

Record MouseEvent := mkMouseEvent {
    event_type : string;
    raw_data : option Z
  }.

  (** ** Callbacks.  The closures the engine registers are kept as data
      ([Engine._make_handler] and [Engine._make_hscroll_handler] with the
      captured action id); any other callable is a function from the
      event to its outcome. *)
Inductive Callback :=
  | Handler (action_id : string)
  | HscrollHandler (action_id : string)
  | Callable (f : MouseEvent -> CallResult).

  (** ** Observable effects of the hook thread, in program order. *)
Inductive Effect :=
  | PostMessageW (msg : Z)                      (* posted to [_ri_hwnd] *)
  | InjectScroll (flags delta : Z)              (* [_inject_scroll_impl(flags, delta)] *)
  | ExecuteAction (action_id : string)          (* key_simulator.execute_action *)
  | DebugCallback (wParam mouse_data flags : Z) (* [_debug_callback(info)] *)
  | Dispatch (ev : MouseEvent)                  (* entry of [_dispatch] *)
  | Call (cb : Callback) (ev : MouseEvent)      (* [cb(event)] *)
  | Print (msg : string).

  (** ** The hook object.  [_ri_hwnd] is [None] until the hidden window
      exists; [_debug_callback] records whether a debug callback is set. *)
Record State := mkState {
    _callbacks : gmap string (list Callback);
    _blocked_events : gset string;
    _debug_callback : bool;
    debug_mode : bool;
    invert_vscroll : bool;
    invert_hscroll : bool;
    _pending_vscroll : Z;
    _pending_hscroll : Z;
    _vscroll_posted : bool;
    _hscroll_posted : bool;
    _ri_hwnd : option Z;
    _gesture_active : bool;
    _prev_raw_buttons : gmap Z Z
  }.

Definition __init__ : State :=
    {| _callbacks := ∅; _blocked_events := ∅;
       _debug_callback := false; debug_mode := false;
       invert_vscroll := false; invert_hscroll := false;
       _pending_vscroll := 0; _pending_hscroll := 0;
       _vscroll_posted := false; _hscroll_posted := false;
       _ri_hwnd := None; _gesture_active := false;
       _prev_raw_buttons := ∅ |}.

  (** Field updates, one per group of attributes assigned together. *)
Definition with_bindings (cbs : gmap string (list Callback))
      (blk : gset string) (self : State) : State :=
    {| _callbacks := cbs; _blocked_events := blk;
       _debug_callback := _debug_callback self; debug_mode := debug_mode self;
       invert_vscroll := invert_vscroll self; invert_hscroll := invert_hscroll self;
       _pending_vscroll := _pending_vscroll self;
       _pending_hscroll := _pending_hscroll self;
       _vscroll_posted := _vscroll_posted self;
       _hscroll_posted := _hscroll_posted self;
       _ri_hwnd := _ri_hwnd self; _gesture_active := _gesture_active self;
       _prev_raw_buttons := _prev_raw_buttons self |}.

Definition with_invert (v h : bool) (self : State) : State :=
    {| _callbacks := _callbacks self; _blocked_events := _blocked_events self;
       _debug_callback := _debug_callback self; debug_mode := debug_mode self;
       invert_vscroll := v; invert_hscroll := h;
       _pending_vscroll := _pending_vscroll self;
       _pending_hscroll := _pending_hscroll self;
       _vscroll_posted := _vscroll_posted self;
       _hscroll_posted := _hscroll_posted self;
       _ri_hwnd := _ri_hwnd self; _gesture_active := _gesture_active self;
       _prev_raw_buttons := _prev_raw_buttons self |}.

Definition with_vscroll (pending : Z) (posted : bool) (self : State) : State :=
    {| _callbacks := _callbacks self; _blocked_events := _blocked_events self;
       _debug_callback := _debug_callback self; debug_mode := debug_mode self;
       invert_vscroll := invert_vscroll self; invert_hscroll := invert_hscroll self;
       _pending_vscroll := pending;
       _pending_hscroll := _pending_hscroll self;
       _vscroll_posted := posted;
       _hscroll_posted := _hscroll_posted self;
       _ri_hwnd := _ri_hwnd self; _gesture_active := _gesture_active self;
       _prev_raw_buttons := _prev_raw_buttons self |}.

Definition with_hscroll (pending : Z) (posted : bool) (self : State) : State :=
    {| _callbacks := _callbacks self; _blocked_events := _blocked_events self;
       _debug_callback := _debug_callback self; debug_mode := debug_mode self;
       invert_vscroll := invert_vscroll self; invert_hscroll := invert_hscroll self;
       _pending_vscroll := _pending_vscroll self;
       _pending_hscroll := pending;
       _vscroll_posted := _vscroll_posted self;
       _hscroll_posted := posted;
       _ri_hwnd := _ri_hwnd self; _gesture_active := _gesture_active self;
       _prev_raw_buttons := _prev_raw_buttons self |}.

Definition with_gesture (active : bool) (prev : gmap Z Z) (self : State) : State :=
    {| _callbacks := _callbacks self; _blocked_events := _blocked_events self;
       _debug_callback := _debug_callback self; debug_mode := debug_mode self;
       invert_vscroll := invert_vscroll self; invert_hscroll := invert_hscroll self;
       _pending_vscroll := _pending_vscroll self;
       _pending_hscroll := _pending_hscroll self;
       _vscroll_posted := _vscroll_posted self;
       _hscroll_posted := _hscroll_posted self;
       _ri_hwnd := _ri_hwnd self; _gesture_active := active;
       _prev_raw_buttons := prev |}.

  (** ** Binding table operations *)

  (** [self._callbacks.setdefault(event_type, []).append(callback)] *)
Definition register (event_type : string) (callback : Callback)
      (self : State) : State :=
    with_bindings
      (<[event_type := default [] (_callbacks self !! event_type) ++ [callback]]>
         (_callbacks self))
      (_blocked_events self) self.

Definition block (event_type : string) (self : State) : State :=
    with_bindings (_callbacks self) ({[event_type]} ∪ _blocked_events self) self.

Definition unblock (event_type : string) (self : State) : State :=
    with_bindings (_callbacks self) (_blocked_events self ∖ {[event_type]}) self.

Definition reset_bindings (self : State) : State :=
    with_bindings ∅ ∅ self.

  (** ** Dispatch.  [_enabled] is the flag of the engine object that the
      registered closures capture and read when they run. *)
  Section Dispatch.
    Variable _enabled : bool.

    (** [cb(event)] *)
Definition call (cb : Callback) (event : MouseEvent)
        : list Effect * CallResult :=
      match cb with
      | Handler action_id =>
          (if _enabled then [ExecuteAction action_id] else [], Returned)
      | HscrollHandler action_id =>
          (if negb _enabled then [] else [ExecuteAction action_id], Returned)
      | Callable f => ([], f event)
      end.

    (** The [for cb in ...: try: cb(event) except Exception ...] loop. *)
Fixpoint call_each (cbs : list Callback) (event : MouseEvent)
        : list Effect * CallResult :=
      match cbs with
      | [] => ([], Returned)
      | cb :: rest =>
          let '(eff, r) := call cb event in
          match r with
          | Returned =>
              let '(eff', r') := call_each rest event in
              (Call cb event :: eff ++ eff', r')
          | Raised e =>
              if isinstance_Exception e then
                let '(eff', r') := call_each rest event in
                (Call cb event :: eff
                   ++ Print "[MouseHook] callback error" :: eff', r')
              else (Call cb event :: eff, Raised e)
          end
      end.

Definition _dispatch (self : State) (event : MouseEvent)
        : list Effect * CallResult :=
      let '(eff, r) :=
        call_each (default [] (_callbacks self !! event_type event)) event in
      (Dispatch event :: eff, r).

    (** ** The low-level hook procedure *)

    (** What the hook procedure hands back to Windows: [return 1], the
        result of [CallNextHookEx], or an exception leaving the Python
        callback. *)
Inductive HookResult :=
    | Return1
    | CallNextHookEx
    | HookRaised (e : PyExc).

Definition truthy (hwnd : option Z) : bool :=
      match hwnd with
      | Some h => negb (h =? 0)
      | None => false
      end.

    (** The tail of the procedure: [if event: self._dispatch(event) ...]. *)
Definition dispatch_and_block (self : State) (dbg : list Effect)
        (event : option MouseEvent) (should_block : bool)
        : State * list Effect * HookResult :=
      match event with
      | Some ev =>
          let '(eff, r) := _dispatch self ev in
          match r with
          | Raised e => (self, dbg ++ eff, HookRaised e)
          | Returned =>
              (self, dbg ++ eff, if should_block then Return1 else CallNextHookEx)
          end
      | None => (self, dbg, CallNextHookEx)
      end.

Definition blocked (event_type : string) (self : State) : bool :=
      bool_decide (event_type ∈ _blocked_events self).

    (** The debug-mode block: every non-move event is reported to the
        debug callback, whose own exceptions are swallowed. *)
Definition debug_report (self : State) (wParam mouse_data flags : Z)
        : list Effect :=
      if debug_mode self && _debug_callback self then
        if negb (wParam =? 0x0200)
        then [DebugCallback wParam mouse_data flags] else []
      else [].

Definition _low_level_handler (self : State)
        (nCode wParam mouse_data flags : Z)
        : State * list Effect * HookResult :=
      if nCode =? HC_ACTION then
        let dbg := debug_report self wParam mouse_data flags in
        if negb (Z.land flags INJECTED_FLAG =? 0) then
          (self, dbg, CallNextHookEx)
        else if wParam =? WM_XBUTTONDOWN then
          let xbutton := hiword mouse_data in
          if xbutton =? XBUTTON1 then
            dispatch_and_block self dbg
              (Some (mkMouseEvent XBUTTON1_DOWN None)) (blocked XBUTTON1_DOWN self)
          else if xbutton =? XBUTTON2 then
            dispatch_and_block self dbg
              (Some (mkMouseEvent XBUTTON2_DOWN None)) (blocked XBUTTON2_DOWN self)
          else dispatch_and_block self dbg None false
        else if wParam =? WM_XBUTTONUP then
          let xbutton := hiword mouse_data in
          if xbutton =? XBUTTON1 then
            dispatch_and_block self dbg
              (Some (mkMouseEvent XBUTTON1_UP None)) (blocked XBUTTON1_UP self)
          else if xbutton =? XBUTTON2 then
            dispatch_and_block self dbg
              (Some (mkMouseEvent XBUTTON2_UP None)) (blocked XBUTTON2_UP self)
          else dispatch_and_block self dbg None false
        else if wParam =? WM_MBUTTONDOWN then
          dispatch_and_block self dbg
            (Some (mkMouseEvent MIDDLE_DOWN None)) (blocked MIDDLE_DOWN self)
        else if wParam =? WM_MBUTTONUP then
          dispatch_and_block self dbg
            (Some (mkMouseEvent MIDDLE_UP None)) (blocked MIDDLE_UP self)
        else if wParam =? WM_MOUSEWHEEL then
          if invert_vscroll self then
            let delta := hiword mouse_data in
            if negb (delta =? 0) then
              let pending := _pending_vscroll self + (- delta) in
              if negb (_vscroll_posted self) && truthy (_ri_hwnd self) then
                (with_vscroll pending true self,
                 dbg ++ [PostMessageW WM_APP_INJECT_VSCROLL], Return1)
              else
                (with_vscroll pending (_vscroll_posted self) self, dbg, Return1)
            else dispatch_and_block self dbg None false
          else dispatch_and_block self dbg None false
        else if wParam =? WM_MOUSEHWHEEL then
          let delta := hiword mouse_data in
          if invert_hscroll self && negb (delta =? 0) then
            (* [if self.invert_hscroll: if delta != 0: ... return 1] *)
            let pending := _pending_hscroll self + (- delta) in
            if negb (_hscroll_posted self) && truthy (_ri_hwnd self) then
              (with_hscroll pending true self,
               dbg ++ [PostMessageW WM_APP_INJECT_HSCROLL], Return1)
            else
              (with_hscroll pending (_hscroll_posted self) self, dbg, Return1)
          else if delta >? 0 then
            dispatch_and_block self dbg
              (Some (mkMouseEvent HSCROLL_LEFT (Some (Z.abs delta))))
              (blocked HSCROLL_LEFT self)
          else if delta <? 0 then
            dispatch_and_block self dbg
              (Some (mkMouseEvent HSCROLL_RIGHT (Some (Z.abs delta))))
              (blocked HSCROLL_RIGHT self)
          else dispatch_and_block self dbg None false
        else dispatch_and_block self dbg None false
      else (self, [], CallNextHookEx).

    (** ** Raw Input gesture detection.  [hDevice] and [raw_btns] are the
        device handle and [ulRawButtons] of the RAWMOUSE record. *)
Definition _check_raw_mouse_gesture (self : State) (hDevice raw_btns : Z)
        : State * list Effect * CallResult :=
      let prev_btns := default 0 (_prev_raw_buttons self !! hDevice) in
      let prev' := <[hDevice := raw_btns]> (_prev_raw_buttons self) in
      let self1 := with_gesture (_gesture_active self) prev' self in
      let extra_now := Z.land raw_btns (Z.lnot STANDARD_BUTTON_MASK) in
      let extra_prev := Z.land prev_btns (Z.lnot STANDARD_BUTTON_MASK) in
      if extra_now =? extra_prev then (self1, [], Returned)
      else if negb (extra_now =? 0) && (extra_prev =? 0) then
        if negb (_gesture_active self1) then
          let self2 := with_gesture true prev' self1 in
          let '(eff, r) := _dispatch self2 (mkMouseEvent GESTURE_DOWN None) in
          (self2, Print "[MouseHook] Gesture DOWN" :: eff, r)
        else (self1, [], Returned)
      else if (extra_now =? 0) && negb (extra_prev =? 0) then
        if _gesture_active self1 then
          let self2 := with_gesture false prev' self1 in
          let '(eff, r) := _dispatch self2 (mkMouseEvent GESTURE_UP None) in
          (self2, Print "[MouseHook] Gesture UP" :: eff, r)
        else (self1, [], Returned)
      else (self1, [], Returned).

    (** ** HID++ gesture helpers, called from the listener thread. *)
Definition _on_hid_gesture_down (self : State)
        : State * list Effect * CallResult :=
      if negb (_gesture_active self) then
        let self1 := with_gesture true (_prev_raw_buttons self) self in
        let '(eff, r) := _dispatch self1 (mkMouseEvent GESTURE_DOWN None) in
        (self1, eff, r)
      else (self, [], Returned).

Definition _on_hid_gesture_up (self : State)
        : State * list Effect * CallResult :=
      if _gesture_active self then
        let self1 := with_gesture false (_prev_raw_buttons self) self in
        let '(eff, r) := _dispatch self1 (mkMouseEvent GESTURE_UP None) in
        (self1, eff, r)
      else (self, [], Returned).

    (** ** The hidden window's procedure.  A WM_INPUT message carries the
        decoded raw-input record: [None] when [GetRawInputData] yields
        nothing, otherwise whether the device path names vendor 046d, the
        header's [dwType], the device handle and [ulRawButtons]. *)
Record RawInput := mkRawInput {
      ri_is_logitech : bool;
      ri_dwType : Z;
      ri_hDevice : Z;
      ri_ulRawButtons : Z
    }.

Definition RIM_TYPEMOUSE : Z := 0.

Definition _process_raw_input (self : State) (lParam : option RawInput)
        : State * list Effect * CallResult :=
      match lParam with
      | None => (self, [], Returned)
      | Some ri =>
          if negb (ri_is_logitech ri) then (self, [], Returned)
          else if ri_dwType ri =? RIM_TYPEMOUSE then
            _check_raw_mouse_gesture self (ri_hDevice ri) (ri_ulRawButtons ri)
          else (self, [], Returned)
      end.

Inductive WndResult :=
    | Return0
    | DefWindowProcW
    | WndRaised (e : PyExc).

Definition _ri_wndproc (self : State) (msg : Z) (lParam : option RawInput)
        : State * list Effect * WndResult :=
      if msg =? WM_INPUT then
        let '(self1, eff, r) := _process_raw_input self lParam in
        match r with
        | Returned => (self1, eff, Return0)
        | Raised e =>
            if isinstance_Exception e
            then (self1, eff ++ [Print "[MouseHook] Raw Input error"], Return0)
            else (self1, eff, WndRaised e)
        end
      else if msg =? WM_APP_INJECT_VSCROLL then
        let delta := _pending_vscroll self in
        let self1 := with_vscroll 0 false self in
        (self1,
         if negb (delta =? 0) then [InjectScroll MOUSEEVENTF_WHEEL delta] else [],
         Return0)
      else if msg =? WM_APP_INJECT_HSCROLL then
        let delta := _pending_hscroll self in
        let self1 := with_hscroll 0 false self in
        (self1,
         if negb (delta =? 0) then [InjectScroll MOUSEEVENTF_HWHEEL delta] else [],
         Return0)
      else (self, [], DefWindowProcW).

    (** ** The hook thread.  Windows calls the hook procedure once per
        mouse event; messages posted with [PostMessageW] wait in the
        thread's queue until the message pump hands them to
        [_ri_wndproc]. *)
Record HookCall := mkHookCall {
      hc_nCode : Z; hc_wParam : Z; hc_mouseData : Z; hc_flags : Z
    }.

Definition posted_messages (eff : list Effect) : list Z :=
      omap (fun e => match e with PostMessageW m => Some m | _ => None end) eff.

Definition injected_scrolls (eff : list Effect) : list (Z * Z) :=
      omap (fun e => match e with
                     | InjectScroll f d => Some (f, d)
                     | _ => None end) eff.

    (** The events handed to [_dispatch] and the callbacks invoked. *)
Definition dispatched (eff : list Effect) : list MouseEvent :=
      omap (fun e => match e with Dispatch ev => Some ev | _ => None end) eff.

Definition called (eff : list Effect) : list (Callback * MouseEvent) :=
      omap (fun e => match e with Call cb ev => Some (cb, ev) | _ => None end)
           eff.

    (** A callback that, when it fails, raises an [Exception]. *)
Definition raises_Exception_only (cb : Callback) : Prop :=
      forall event e,
        snd (call cb event) = Raised e -> isinstance_Exception e = true.

    (** A burst of hook calls, none of the posted messages handled yet. *)
Fixpoint hook_calls (self : State) (calls : list HookCall)
        : State * list Effect * list HookResult :=
      match calls with
      | [] => (self, [], [])
      | c :: rest =>
          let '(self1, eff, r) :=
            _low_level_handler self (hc_nCode c) (hc_wParam c)
                               (hc_mouseData c) (hc_flags c) in
          let '(self2, eff', rs) := hook_calls self1 rest in
          (self2, eff ++ eff', r :: rs)
      end.

    (** The pump handing queued application messages to the window
        procedure, in the order they were posted. *)
Fixpoint pump (self : State) (queue : list Z) : State * list Effect :=
      match queue with
      | [] => (self, [])
      | msg :: rest =>
          let '(self1, eff, _) := _ri_wndproc self msg None in
          let '(self2, eff') := pump self1 rest in
          (self2, eff ++ eff')
      end.

    (** The actions the handlers handed to [execute_action]. *)
Definition executed (eff : list Effect) : list string :=
      omap (fun e => match e with ExecuteAction a => Some a | _ => None end) eff.

    (** The gesture button as the hook hears of it: a call from the HID++
        listener thread, or a WM_INPUT message on the hook thread. *)
Inductive GestureInput :=
    | HidDown
    | HidUp
    | RawInputMessage (lParam : option RawInput).

Definition gesture_input (self : State) (i : GestureInput)
        : State * list Effect :=
      match i with
      | HidDown => (_on_hid_gesture_down self).1
      | HidUp => (_on_hid_gesture_up self).1
      | RawInputMessage lParam => (_ri_wndproc self WM_INPUT lParam).1
      end.

    (** Reports of the two sources taken one after the other. *)
Fixpoint gesture_inputs (self : State) (inputs : list GestureInput)
        : State * list Effect :=
      match inputs with
      | [] => (self, [])
      | i :: rest =>
          let '(self1, eff) := gesture_input self i in
          let '(self2, eff') := gesture_inputs self1 rest in
          (self2, eff ++ eff')
      end.

  End Dispatch.

  (** Gesture event kinds that start with a release when the button is
      held ([active]) and with a press otherwise, and alternate. *)
Fixpoint alternates (active : bool) (kinds : list string) : Prop :=
    match kinds with
    | [] => True
    | kind :: rest =>
        kind = (if active then GESTURE_UP else GESTURE_DOWN)
        /\ alternates (negb active) rest
    end.

  (** Whenever inverted scroll is waiting in an accumulator, the message
      that flushes it has been posted. *)
Definition flush_requested (self : State) : Prop :=
    (_vscroll_posted self = false -> _pending_vscroll self = 0)
    /\ (_hscroll_posted self = false -> _pending_hscroll self = 0).

  (** A tilt-wheel tick with a non-zero delta, not injected, as the
      filter callback receives it. *)
Definition tilt_tick (c : HookCall) : Prop :=
    hc_nCode c = HC_ACTION /\ hc_wParam c = WM_MOUSEHWHEEL
    /\ Z.land (hc_flags c) INJECTED_FLAG = 0
    /\ hiword (hc_mouseData c) <> 0.

  (** The sum of the wheel deltas of a burst. *)
Definition total_delta (calls : list HookCall) : Z :=
    foldr (fun c acc => hiword (hc_mouseData c) + acc) 0 calls.

End MouseHook.

(* ===================================================================== *)
(** * hid_gesture.py *)
(* ===================================================================== *)

Module HidGesture.

  (** ** Constants *)
Definition LOGI_VID : Z := 0x046D.
Definition SHORT_ID : Z := 0x10.
Definition LONG_ID : Z := 0x11.
Definition SHORT_LEN : nat := 7.
Definition LONG_LEN : nat := 20.
Definition BT_DEV_IDX : Z := 0xFF.
Definition FEAT_IROOT : Z := 0x0000.
Definition FEAT_REPROG_V4 : Z := 0x1B04.
Definition FEAT_ADJ_DPI : Z := 0x2201.
Definition CID_GESTURE : Z := 0x00C3.
Definition MY_SW : Z := 0x0A.

  (** ** [_parse]: a read buffer is a list of byte values. *)
Record Msg := mkMsg {
    m_dev : Z; m_feat : Z; m_func : Z; m_sw : Z; m_params : list Z
  }.

Definition _parse (raw : list Z) : option Msg :=
    if (length raw <? 4)%nat then None
    else
      let off :=
        if (nth 0 raw 0 =? SHORT_ID) || (nth 0 raw 0 =? LONG_ID)
        then 1%nat else 0%nat in
      if (length raw <? off + 3)%nat then None
      else
        let dev := nth off raw 0 in
        let feat := nth (off + 1) raw 0 in
        let fsw := nth (off + 2) raw 0 in
        let func := Z.land (Z.shiftr fsw 4) 0x0F in
        let sw := Z.land fsw 0x0F in
        let params := drop (off + 3) raw in
        Some (mkMsg dev feat func sw params).

  (** ** The device handle seen from the listener thread.  What
      [dev.read] hands back is decided by the device: data (possibly
      empty on a timeout) or an I/O error. *)
Inductive ReadResult :=
  | ReadData (d : list Z)
  | ReadError.

  (** One request's view of the device: whether [dev.write] succeeds, and
      the results of the reads issued while [time.time() < deadline]
      holds; when they are used up the deadline has passed. *)
Record RequestIo := mkRequestIo {
    write_ok : bool;
    reads : list ReadResult
  }.

  (** ** Callbacks into the hook: bound methods of the [MouseHook]
      object, which mutate it. *)
Definition HookMethod : Type :=
    MouseHook.State -> MouseHook.State * list MouseHook.Effect * CallResult.

Inductive Effect :=
  | Write (buf : list Z)                 (* [self._dev.write(buf)] *)
  | Close                                (* [self._dev.close()] *)
  | Print (msg : string)
  | Hook (e : MouseHook.Effect).         (* effect of a callback *)

  (** [_pending_dpi]: [None], an integer, or the sentinel ["read"]. *)
Inductive PendingDpi :=
  | PendingSet (dpi : Z)
  | PendingRead.

  (** [_dpi_result]: [None], [True]/[False] after a set, or the value read. *)
Inductive DpiResult :=
  | ResultNone
  | ResultBool (b : bool)
  | ResultInt (dpi : Z).

Record State := mkState {
    _on_down : option HookMethod;
    _on_up : option HookMethod;
    _dev : option Z;
    _running : bool;
    _feat_idx : option Z;
    _dpi_idx : option Z;
    _dev_idx : Z;
    _held : bool;
    _pending_dpi : option PendingDpi;
    _dpi_result : DpiResult
  }.

Definition __init__ (on_down on_up : option HookMethod) : State :=
    {| _on_down := on_down; _on_up := on_up; _dev := None;
       _running := false; _feat_idx := None; _dpi_idx := None;
       _dev_idx := BT_DEV_IDX; _held := false;
       _pending_dpi := None; _dpi_result := ResultNone |}.

Definition with_dpi (pending : option PendingDpi) (result : DpiResult)
      (self : State) : State :=
    {| _on_down := _on_down self; _on_up := _on_up self; _dev := _dev self;
       _running := _running self; _feat_idx := _feat_idx self;
       _dpi_idx := _dpi_idx self; _dev_idx := _dev_idx self;
       _held := _held self;
       _pending_dpi := pending; _dpi_result := result |}.

Definition with_held (held : bool) (self : State) : State :=
    {| _on_down := _on_down self; _on_up := _on_up self; _dev := _dev self;
       _running := _running self; _feat_idx := _feat_idx self;
       _dpi_idx := _dpi_idx self; _dev_idx := _dev_idx self;
       _held := held;
       _pending_dpi := _pending_dpi self; _dpi_result := _dpi_result self |}.

  (** ** Low-level HID++ I/O *)

  (** The [for i, b in enumerate(params)] loop of [_tx]. *)
Fixpoint fill_params (buf : list Z) (i : nat) (params : list Z) : list Z :=
    match params with
    | [] => buf
    | b :: rest =>
        fill_params
          (if (4 + i <? LONG_LEN)%nat then <[(4 + i)%nat := Z.land b 0xFF]> buf
           else buf)
          (S i) rest
    end.

  (** The buffer [_tx] hands to [dev.write]. *)
Definition _tx_buf (self : State) (feat func : Z) (params : list Z) : list Z :=
    let buf := replicate LONG_LEN 0 in
    let buf := <[0%nat := LONG_ID]> buf in
    let buf := <[1%nat := _dev_idx self]> buf in
    let buf := <[2%nat := feat]> buf in
    let buf :=
      <[3%nat := Z.lor (Z.shiftl (Z.land func 0x0F) 4) (Z.land MY_SW 0x0F)]> buf in
    fill_params buf 0 params.

  (** [_tx]: raises when there is no device or the write fails. *)
Definition _tx (self : State) (ok : bool) (feat func : Z) (params : list Z)
      : list Effect * CallResult :=
    match _dev self with
    | None => ([], Raised (PyException "AttributeError"))
    | Some _ =>
        if ok then ([Write (_tx_buf self feat func params)], Returned)
        else ([], Raised (PyException "OSError"))
    end.

  (** [_rx]: [list(d) if d else None], and [None] on any error. *)
Definition _rx (self : State) (r : ReadResult) : option (list Z) :=
    match _dev self with
    | None => None
    | Some _ =>
        match r with
        | ReadData [] => None
        | ReadData d => Some d
        | ReadError => None
        end
    end.

  (** The [while time.time() < deadline] loop of [_request]. *)
Fixpoint _request_loop (self : State) (feat : Z) (rs : list ReadResult)
      : list Effect * option Msg :=
    match rs with
    | [] => ([], None)
    | r :: rest =>
        match _rx self r with
        | None => _request_loop self feat rest
        | Some raw =>
            match _parse raw with
            | None => _request_loop self feat rest
            | Some msg =>
                if m_feat msg =? 0xFF then
                  ([Print "[HidGesture] HID++ error"], None)
                else if (m_feat msg =? feat) && (m_sw msg =? MY_SW) then
                  ([], Some msg)
                else _request_loop self feat rest
            end
        end
    end.

Definition _request (self : State) (io : RequestIo)
      (feat func : Z) (params : list Z) : list Effect * option Msg :=
    let '(eff, r) := _tx self (write_ok io) feat func params in
    match r with
    | Raised _ => (eff, None)
    | Returned =>
        let '(eff', resp) := _request_loop self feat (reads io) in
        (eff ++ eff', resp)
    end.

  (** ** DPI control *)

  (** [set_dpi], the caller's side: clamp and leave the request in the
      slot the listener thread polls.  (The caller then waits for the
      slot to be emptied.) *)
Definition set_dpi (self : State) (dpi_value : Z) : State :=
    let dpi := Z.max 200 (Z.min 8200 dpi_value) in
    with_dpi (Some (PendingSet dpi)) ResultNone self.

Definition read_dpi (self : State) : State :=
    with_dpi (Some PendingRead) ResultNone self.

Definition _apply_pending_dpi (self : State) (io : RequestIo)
      : State * list Effect :=
    match _pending_dpi self with
    | Some (PendingSet dpi) =>
        match _dpi_idx self, _dev self with
        | Some dpi_idx, Some _ =>
            let hi := Z.land (Z.shiftr dpi 8) 0xFF in
            let lo := Z.land dpi 0xFF in
            let '(eff, resp) := _request self io dpi_idx 3 [0x00; hi; lo] in
            match resp with
            | Some _ =>
                (with_dpi None (ResultBool true) self,
                 eff ++ [Print "[HidGesture] DPI set"])
            | None =>
                (with_dpi None (ResultBool false) self,
                 eff ++ [Print "[HidGesture] DPI set FAILED"])
            end
        | _, _ =>
            (with_dpi None (ResultBool false) self,
             [Print "[HidGesture] Cannot set DPI"])
        end
    | _ => (self, [])   (* [None]; the main loop routes ["read"] elsewhere *)
    end.

Definition _apply_pending_read_dpi (self : State) (io : RequestIo)
      : State * list Effect :=
    match _dpi_idx self, _dev self with
    | Some dpi_idx, Some _ =>
        let '(eff, resp) := _request self io dpi_idx 2 [0x00] in
        match resp with
        | Some msg =>
            let p := m_params msg in
            let current :=
              if (3 <=? length p)%nat
              then ResultInt (Z.lor (Z.shiftl (nth 1 p 0) 8) (nth 2 p 0))
              else ResultNone in
            (with_dpi None current self, eff ++ [Print "[HidGesture] Current DPI"])
        | None =>
            (with_dpi None ResultNone self,
             eff ++ [Print "[HidGesture] DPI read FAILED"])
        end
    | _, _ => (with_dpi None ResultNone self, [])
    end.

  (** The DPI value carried by a "set sensor DPI" output report:
      parameter bytes 1 and 2, high byte first. *)
Definition dpi_of_report (buf : list Z) : Z :=
    Z.lor (Z.shiftl (nth 5 buf 0) 8) (nth 6 buf 0).

Definition writes (eff : list Effect) : list (list Z) :=
    omap (fun e => match e with Write b => Some b | _ => None end) eff.

  (** ** Notification handling *)

  (** The [while i + 1 < len(params)] loop of [_on_report]: the control
      ids in the order they are added to [cids]. *)
Fixpoint parse_cids (params : list Z) : list Z :=
    match params with
    | b0 :: b1 :: rest =>
        let c := Z.lor (Z.shiftl b0 8) b1 in
        if c =? 0 then [] else c :: parse_cids rest
    | _ => []
    end.

Definition cids (params : list Z) : gset Z := list_to_set (parse_cids params).

  (** [try: cb() except Exception as e: print(...)] around a hook
      callback; anything that is not an [Exception] keeps propagating. *)
Definition call_guarded (cb : option HookMethod) (hook : MouseHook.State)
      (err : string) : MouseHook.State * list Effect * CallResult :=
    match cb with
    | None => (hook, [], Returned)
    | Some f =>
        let '(hook1, eff, r) := f hook in
        match r with
        | Returned => (hook1, Hook <$> eff, Returned)
        | Raised e =>
            if isinstance_Exception e
            then (hook1, (Hook <$> eff) ++ [Print err], Returned)
            else (hook1, Hook <$> eff, Raised e)
        end
    end.

Definition _on_report (self : State) (hook : MouseHook.State) (raw : list Z)
      : State * MouseHook.State * list Effect * CallResult :=
    match _parse raw with
    | None => (self, hook, [], Returned)
    | Some msg =>
        if negb (bool_decide (Some (m_feat msg) = _feat_idx self))
           || negb (m_func msg =? 0)
        then (self, hook, [], Returned)
        else
          let gesture_now := bool_decide (CID_GESTURE ∈ cids (m_params msg)) in
          if gesture_now && negb (_held self) then
            let self1 := with_held true self in
            let '(hook1, eff, r) :=
              call_guarded (_on_down self1) hook
                           "[HidGesture] down callback error" in
            (self1, hook1, Print "[HidGesture] Gesture DOWN" :: eff, r)
          else if negb gesture_now && _held self then
            let self1 := with_held false self in
            let '(hook1, eff, r) :=
              call_guarded (_on_up self1) hook
                           "[HidGesture] up callback error" in
            (self1, hook1, Print "[HidGesture] Gesture UP" :: eff, r)
          else (self, hook, [], Returned)
    end.

  (** ** Feature helpers *)

  (** [_find_feature]: ask IRoot (feature index 0, function 0) for the
      index of [feature_id]; index 0 means the feature is absent. *)
Definition _find_feature (self : State) (io : RequestIo) (feature_id : Z)
      : list Effect * option Z :=
    let hi := Z.land (Z.shiftr feature_id 8) 0xFF in
    let lo := Z.land feature_id 0xFF in
    let '(eff, resp) := _request self io 0x00 0 [hi; lo; 0x00] in
    match resp with
    | Some msg =>
        match m_params msg with
        | p0 :: _ => if negb (p0 =? 0) then (eff, Some p0) else (eff, None)
        | [] => (eff, None)
        end
    | None => (eff, None)
    end.

  (** [_divert]: flags 0x03 = divert (bit 0) and dvalid (bit 1). *)
Definition _divert (self : State) (io : RequestIo) : list Effect * bool :=
    match _feat_idx self with
    | None => ([], false)
    | Some feat_idx =>
        let hi := Z.land (Z.shiftr CID_GESTURE 8) 0xFF in
        let lo := Z.land CID_GESTURE 0xFF in
        let '(eff, resp) := _request self io feat_idx 3 [hi; lo; 0x03] in
        let ok := match resp with Some _ => true | None => false end in
        (eff ++ [Print (if ok then "[HidGesture] Divert CID: OK"
                        else "[HidGesture] Divert CID: FAILED")], ok)
    end.

  (** ** Connect / main loop *)

  (** [_undivert]: best effort, a failing write is swallowed. *)
Definition _undivert (self : State) (ok : bool) : list Effect :=
    match _feat_idx self, _dev self with
    | Some feat_idx, Some _ =>
        let hi := Z.land (Z.shiftr CID_GESTURE 8) 0xFF in
        let lo := Z.land CID_GESTURE 0xFF in
        fst (_tx self ok feat_idx 3 [hi; lo; 0x02])
    | _, _ => []
    end.

  (** The "Cleanup before potential reconnect" block of [_main_loop],
      which runs when the listen loop ends, before [time.sleep(2)]. *)
Definition _main_loop_cleanup (self : State) (ok : bool)
      : State * list Effect :=
    let eff := _undivert self ok in
    let eff' := match _dev self with Some _ => [Close] | None => [] end in
    ({| _on_down := _on_down self; _on_up := _on_up self;
        _dev := None;
        _running := _running self;
        _feat_idx := None;
        _dpi_idx := _dpi_idx self;
        _dev_idx := _dev_idx self;
        _held := false;
        _pending_dpi := _pending_dpi self;
        _dpi_result := _dpi_result self |},
     eff ++ eff').

  (** One turn of the inner [while self._running] loop: serve a queued
      DPI command, then read one report with [_rx(1000)] and inspect it. *)
Definition listen_iteration (self : State) (hook : MouseHook.State)
      (io : RequestIo) (r : ReadResult)
      : State * MouseHook.State * list Effect * CallResult :=
    let '(self1, eff) :=
      match _pending_dpi self with
      | None => (self, [])
      | Some PendingRead => _apply_pending_read_dpi self io
      | Some (PendingSet _) => _apply_pending_dpi self io
      end in
    match _rx self1 r with
    | None => (self1, hook, eff, Returned)
    | Some raw =>
        let '(self2, hook2, eff', res) := _on_report self1 hook raw in
        (self2, hook2, eff ++ eff', res)
    end.

  (** A run of reports handed to [_on_report] one after the other, as the
      listen loop does; an exception leaving [_on_report] that the loop's
      [except Exception] does not catch ends the thread. *)
Fixpoint on_reports (self : State) (hook : MouseHook.State)
      (raws : list (list Z))
      : State * MouseHook.State * list Effect * CallResult :=
    match raws with
    | [] => (self, hook, [], Returned)
    | raw :: rest =>
        let '(self1, hook1, eff, r) := _on_report self hook raw in
        match r with
        | Raised e => (self1, hook1, eff, Raised e)
        | Returned =>
            let '(self2, hook2, eff', r') := on_reports self1 hook1 rest in
            (self2, hook2, eff ++ eff', r')
        end
    end.

  (** ** Reading the traces *)

Definition hook_effects (eff : list Effect) : list MouseHook.Effect :=
    omap (fun e => match e with Hook h => Some h | _ => None end) eff.

  (** The kinds of the symbolic events the hook dispatched, in order. *)
Definition gesture_events (eff : list Effect) : list string :=
    MouseHook.event_type <$> MouseHook.dispatched (hook_effects eff).

  (** [raw] is a notification of function 0 on the discovered control
      feature, and the gesture control id is ([present = true]) or is
      not among the ids it lists. *)
Definition gesture_notification (self : State) (present : bool)
      (raw : list Z) : Prop :=
    exists msg,
      _parse raw = Some msg
      /\ Some (m_feat msg) = _feat_idx self
      /\ m_func msg = 0
      /\ bool_decide (CID_GESTURE ∈ cids (m_params msg)) = present.

  (** The reads the loop of [_request] passes over: nothing read, a
      buffer [_parse] rejects, or a report that is neither an error
      report nor a match for the request. *)
Inductive passed_over (self : State) (feat : Z) (r : ReadResult) : Prop :=
  | no_data :
      _rx self r = None -> passed_over self feat r
  | malformed raw :
      _rx self r = Some raw -> _parse raw = None -> passed_over self feat r
  | unmatched raw msg :
      _rx self r = Some raw -> _parse raw = Some msg ->
      m_feat msg <> 0xFF ->
      m_feat msg <> feat \/ m_sw msg <> MY_SW ->
      passed_over self feat r.


End HidGesture.

(* ===================================================================== *)
(** * Readings of the specification, for comparison with the code *)
(* ===================================================================== *)

Module Spec.

Definition is_byte (b : Z) : Prop := 0 <= b <= 255.

  (** The parameter bytes taken two at a time. *)
Fixpoint byte_pairs (params : list Z) : list (Z * Z) :=
    match params with
    | first :: second :: rest => (first, second) :: byte_pairs rest
    | _ => []
    end.

  (** The identifiers before the zero sentinel. *)
Fixpoint until_sentinel (ids : list Z) : list Z :=
    match ids with
    | [] => []
    | c :: rest => if c =? 0 then [] else c :: until_sentinel rest
    end.

  (** "Little-endian": the first byte of a pair is the low-order byte. *)
Definition little_endian16 (p : Z * Z) : Z := p.1 + 256 * p.2.

  (** "Big-endian": the first byte of a pair is the high-order byte. *)
Definition big_endian16 (p : Z * Z) : Z := 256 * p.1 + p.2.

Definition control_ids_little_endian (params : list Z) : list Z :=
    until_sentinel (little_endian16 <$> byte_pairs params).

Definition control_ids_big_endian (params : list Z) : list Z :=
    until_sentinel (big_endian16 <$> byte_pairs params).

  (** "clamp to [200, 8000]" *)
Definition clamp_200_8000 (v : Z) : Z := Z.max 200 (Z.min 8000 v).

End Spec.

(* ===================================================================== *)
(** * Python string methods used by the configuration code *)
(* ===================================================================== *)

Module Str.

  (** [s.endswith(suffix)]: some tail of [s] is [suffix]. *)
Fixpoint endswith (s suffix : string) : bool :=
    String.eqb s suffix
    || match s with
       | EmptyString => false
       | String _ s' => endswith s' suffix
       end.

  (** [sub in s] *)
Fixpoint contains (sub s : string) : bool :=
    String.prefix sub s
    || match s with
       | EmptyString => false
       | String _ s' => contains sub s'
       end.

  (** [s.lower()], on the ASCII letters (executable names and the
      configuration's application lists are byte strings here). *)
Definition lower_ascii (c : ascii) : ascii :=
    let n := nat_of_ascii c in
    if ((65 <=? n) && (n <=? 90))%nat then ascii_of_nat (n + 32) else c.

Fixpoint lower (s : string) : string :=
    match s with
    | EmptyString => EmptyString
    | String c s' => String (lower_ascii c) (lower s')
    end.

End Str.

(* ===================================================================== *)
(** * core/config.py *)
(* ===================================================================== *)

Module Config.

  (** A dict with string keys, in insertion order. *)
Definition dict (V : Type) : Type := list (string * V).

  (** [d.get(key)] *)
Fixpoint get {V : Type} (d : dict V) (key : string) : option V :=
    match d with
    | [] => None
    | (k, v) :: rest => if String.eqb k key then Some v else get rest key
    end.

  (** Keys of a dict are pairwise distinct. *)
Definition well_formed {V : Type} (d : dict V) : Prop := NoDup (fst <$> d).

Definition BUTTON_TO_EVENTS : dict (list string) :=
    [ ("middle",        ["middle_down"; "middle_up"]);
      ("gesture",       ["gesture_down"; "gesture_up"]);
      ("xbutton1",      ["xbutton1_down"; "xbutton1_up"]);
      ("xbutton2",      ["xbutton2_down"; "xbutton2_up"]);
      ("hscroll_left",  ["hscroll_left"]);
      ("hscroll_right", ["hscroll_right"]) ].

  (** The default profile's mappings in [DEFAULT_CONFIG]. *)
Definition DEFAULT_MAPPINGS : dict string :=
    [ ("middle", "none");
      ("gesture", "none");
      ("xbutton1", "alt_tab");
      ("xbutton2", "alt_tab");
      ("hscroll_left", "browser_back");
      ("hscroll_right", "browser_forward") ].

  (** A profile; [apps] and [mappings] may be missing from the JSON. *)
Record Profile := mkProfile {
    label : string;
    apps : option (list string);
    mappings : option (dict string)
  }.

Record Settings := mkSettings {
    s_invert_hscroll : bool;
    s_invert_vscroll : bool;
    s_dpi : Z
  }.

Record Cfg := mkCfg {
    active_profile : string;
    profiles : dict Profile;
    settings : Settings
  }.

Definition empty_profile : Profile := mkProfile "" None None.

Definition get_active_mappings (cfg : Cfg) : dict string :=
    let profile_name := active_profile cfg in
    let profile :=
      default (default empty_profile (get (profiles cfg) "default"))
              (get (profiles cfg) profile_name) in
    default DEFAULT_MAPPINGS (mappings profile).

  (** The [for pname, pdata in ...items()] loop of [get_profile_for_app]. *)
Fixpoint get_profile_for_app_loop (ps : dict Profile) (exe_name : string)
      : string :=
    match ps with
    | [] => "default"
    | (pname, pdata) :: rest =>
        if negb (String.eqb exe_name "")
           && bool_decide (Str.lower exe_name
                             ∈ Str.lower <$> default [] (apps pdata))
        then pname
        else get_profile_for_app_loop rest exe_name
    end.

Definition get_profile_for_app (cfg : Cfg) (exe_name : string) : string :=
    get_profile_for_app_loop (profiles cfg) exe_name.

  (** ** Editing the configuration.  [save_config], which writes the
      result to disk, is left out: each function returns the
      configuration it saves and hands back. *)

  (** [d[key] = value]: an existing key keeps its place, a new one goes
      to the end. *)
Fixpoint set {V : Type} (d : dict V) (key : string) (value : V) : dict V :=
    match d with
    | [] => [(key, value)]
    | (k, v) :: rest =>
        if String.eqb k key then (k, value) :: rest
        else (k, v) :: set rest key value
    end.

  (** [d.pop(key, None)] *)
Fixpoint pop {V : Type} (d : dict V) (key : string) : dict V :=
    match d with
    | [] => []
    | (k, v) :: rest =>
        if String.eqb k key then rest else (k, v) :: pop rest key
    end.

  (** [set_mapping]; [profile = None] stands for the default argument.
      A profile that exists without a ["mappings"] entry makes the
      subscript raise [KeyError]. *)
Definition set_mapping (cfg : Cfg) (button action_id : string)
      (profile : option string) : Cfg + PyExc :=
    let profile := default (active_profile cfg) profile in
    let profiles1 :=
      match get (profiles cfg) profile with
      | Some _ => profiles cfg
      | None =>
          set (profiles cfg) profile
              (mkProfile profile None (Some DEFAULT_MAPPINGS))
      end in
    match get profiles1 profile with
    | Some p =>
        match mappings p with
        | Some m =>
            inl {| active_profile := active_profile cfg;
                   profiles :=
                     set profiles1 profile
                         (mkProfile (label p) (apps p)
                                    (Some (set m button action_id)));
                   settings := settings cfg |}
        | None => inr (PyException "KeyError")
        end
    | None => inr (PyException "KeyError")
    end.

  (** [create_profile]; [label = None] and [apps = None] stand for the
      default arguments, [copy_from] is passed explicitly. *)
Definition create_profile (cfg : Cfg) (name : string) (label : option string)
      (copy_from : string) (apps : option (list string)) : Cfg :=
    let label := default name label in
    let source :=
      default (default empty_profile (get (profiles cfg) "default"))
              (get (profiles cfg) copy_from) in
    {| active_profile := active_profile cfg;
       profiles :=
         set (profiles cfg) name
             (mkProfile label (Some (default [] apps))
                        (Some (default [] (mappings source))));
       settings := settings cfg |}.

Definition delete_profile (cfg : Cfg) (name : string) : Cfg :=
    if String.eqb name "default" then cfg
    else
      {| active_profile :=
           if String.eqb (active_profile cfg) name then "default"
           else active_profile cfg;
         profiles := pop (profiles cfg) name;
         settings := settings cfg |}.

  (** ** Icons of the known applications: executable name to
      (label, icon). *)
Definition KNOWN_APPS : dict (string * string) :=
    [ ("msedge.exe", ("Microsoft Edge", ""));
      ("chrome.exe", ("Google Chrome", "chrom"));
      ("Microsoft.Media.Player.exe", ("Windows Media Player", "media.webp"));
      ("wmplayer.exe", ("Windows Media Player (Classic)", "media.webp"));
      ("vlc.exe", ("VLC Media Player", "VLC"));
      ("Code.exe", ("Visual Studio Code", "VSCODE")) ].

Definition get_icon_for_exe (exe_name : string) : string :=
    let icon :=
      match get KNOWN_APPS exe_name with
      | Some info => info.2
      | None => ""
      end in
    if String.eqb icon "" then ""
    else if Str.contains "." icon then icon
    else String.append icon ".png".

End Config.

(* ===================================================================== *)
(** * engine.py *)
(* ===================================================================== *)

Module Engine.
  Import Config.

Record State := mkState {
    hook : MouseHook.State;
    cfg : Cfg;
    _enabled : bool;
    _current_profile : string
  }.

Definition with_hook (h : MouseHook.State) (self : State) : State :=
    {| hook := h; cfg := cfg self; _enabled := _enabled self;
       _current_profile := _current_profile self |}.

Definition _make_handler (action_id : string) : MouseHook.Callback :=
    MouseHook.Handler action_id.

Definition _make_hscroll_handler (action_id : string) : MouseHook.Callback :=
    MouseHook.HscrollHandler action_id.

  (** The inner [for evt_type in events] loop of [_setup_hooks]. *)
Fixpoint setup_events (h : MouseHook.State) (action_id : string)
      (events : list string) : MouseHook.State :=
    match events with
    | [] => h
    | evt_type :: rest =>
        if Str.endswith evt_type "_up" then
          setup_events
            (if negb (String.eqb action_id "none")
             then MouseHook.block evt_type h else h)
            action_id rest
        else if negb (String.eqb action_id "none") then
          let h1 := MouseHook.block evt_type h in
          let h2 :=
            if Str.contains "hscroll" evt_type
            then MouseHook.register evt_type (_make_hscroll_handler action_id) h1
            else MouseHook.register evt_type (_make_handler action_id) h1 in
          setup_events h2 action_id rest
        else setup_events h action_id rest
    end.

  (** The events wired for one [btn_key] of the mappings. *)
Definition events_of (gesture_uses_middle_fallback : bool)
      (btn_key : string) : list string :=
    if String.eqb btn_key "gesture" then
      default [] (get BUTTON_TO_EVENTS "gesture")
      ++ (if gesture_uses_middle_fallback
          then default [] (get BUTTON_TO_EVENTS "middle") else [])
    else default [] (get BUTTON_TO_EVENTS btn_key).

  (** The outer [for btn_key, action_id in mappings.items()] loop. *)
Fixpoint setup_mappings (h : MouseHook.State)
      (gesture_uses_middle_fallback : bool) (items : dict string)
      : MouseHook.State :=
    match items with
    | [] => h
    | (btn_key, action_id) :: rest =>
        setup_mappings
          (setup_events h action_id
             (events_of gesture_uses_middle_fallback btn_key))
          gesture_uses_middle_fallback rest
    end.

Definition gesture_uses_middle_fallback (mappings : dict string) : bool :=
    let middle_action := default "none" (get mappings "middle") in
    let gesture_action := default "none" (get mappings "gesture") in
    negb (String.eqb gesture_action "none") && String.eqb middle_action "none".

Definition _setup_hooks (self : State) : State :=
    let mappings := get_active_mappings (cfg self) in
    let h :=
      MouseHook.with_invert (s_invert_vscroll (settings (cfg self)))
                            (s_invert_hscroll (settings (cfg self)))
                            (hook self) in
    with_hook
      (setup_mappings h (gesture_uses_middle_fallback mappings) mappings)
      self.

  (** [_on_app_change] and [_switch_profile] (the UI notification left
      out). *)
Definition _switch_profile (self : State) (profile_name : string) : State :=
    let cfg1 :=
      {| active_profile := profile_name;
         profiles := profiles (cfg self);
         settings := settings (cfg self) |} in
    let self1 :=
      {| hook := MouseHook.reset_bindings (hook self); cfg := cfg1;
         _enabled := _enabled self; _current_profile := profile_name |} in
    _setup_hooks self1.

Definition _on_app_change (self : State) (exe_name : string) : State :=
    let target := get_profile_for_app (cfg self) exe_name in
    if String.eqb target (_current_profile self) then self
    else _switch_profile self target.

  (** [reload_mappings]; [loaded] is what [load_config()] returns. *)
Definition reload_mappings (self : State) (loaded : Cfg) : State :=
    let self1 :=
      {| hook := MouseHook.reset_bindings (hook self); cfg := loaded;
         _enabled := _enabled self;
         _current_profile := active_profile loaded |} in
    _setup_hooks self1.

  (** ** What a rewiring leaves in the hook, event by event *)

(** The handler [setup_events] registers on [evt_type] for [action_id]. *)
Definition handler_for (evt_type action_id : string) : MouseHook.Callback :=
  if Str.contains "hscroll" evt_type
  then _make_hscroll_handler action_id else _make_handler action_id.

(** The handlers one pass of [setup_events] appends to the list of [e]. *)
Definition bound_by (action_id : string) (events : list string) (e : string)
    : list MouseHook.Callback :=
  flat_map (fun evt_type =>
              if String.eqb evt_type e && negb (Str.endswith evt_type "_up")
                 && negb (String.eqb action_id "none")
              then [handler_for evt_type action_id] else [])
           events.

(** [register] seen from one key: the entry appears with the first
    callback and grows at its end. *)
Definition extend (entry : option (list MouseHook.Callback))
    (added : list MouseHook.Callback) : option (list MouseHook.Callback) :=
  match added with
  | [] => entry
  | _ => Some (default [] entry ++ added)
  end.

(** The bindings a rewiring leaves, read event by event. *)
Definition wired (m : dict string) (e : string) : list MouseHook.Callback :=
  flat_map (fun '(k, a) =>
              bound_by a (events_of (gesture_uses_middle_fallback m) k) e) m.

End Engine.

(* ===================================================================== *)
(** * key_simulator.py *)
(* ===================================================================== *)

Module KeySimulator.

Definition KEYEVENTF_EXTENDEDKEY : Z := 0x0001.
Definition KEYEVENTF_KEYUP : Z := 0x0002.

  (** Virtual key codes *)
Definition VK_MENU : Z := 0x12.
Definition VK_TAB : Z := 0x09.
Definition VK_SHIFT : Z := 0x10.
Definition VK_CONTROL : Z := 0x11.
Definition VK_LWIN : Z := 0x5B.
Definition VK_RETURN : Z := 0x0D.
Definition VK_LEFT : Z := 0x25.
Definition VK_UP : Z := 0x26.
Definition VK_RIGHT : Z := 0x27.
Definition VK_DOWN : Z := 0x28.
Definition VK_DELETE : Z := 0x2E.
Definition VK_BROWSER_BACK : Z := 0xA6.
Definition VK_BROWSER_FORWARD : Z := 0xA7.
Definition VK_BROWSER_REFRESH : Z := 0xA8.
Definition VK_BROWSER_STOP : Z := 0xA9.
Definition VK_BROWSER_HOME : Z := 0xAC.
Definition VK_VOLUME_MUTE : Z := 0xAD.
Definition VK_VOLUME_DOWN : Z := 0xAE.
Definition VK_VOLUME_UP : Z := 0xAF.
Definition VK_MEDIA_NEXT_TRACK : Z := 0xB0.
Definition VK_MEDIA_PREV_TRACK : Z := 0xB1.
Definition VK_MEDIA_STOP : Z := 0xB2.
Definition VK_MEDIA_PLAY_PAUSE : Z := 0xB3.
Definition VK_C : Z := 0x43.
Definition VK_V : Z := 0x56.
Definition VK_X : Z := 0x58.
Definition VK_Z : Z := 0x5A.
Definition VK_A : Z := 0x41.
Definition VK_S : Z := 0x53.
Definition VK_W : Z := 0x57.
Definition VK_T : Z := 0x54.
Definition VK_F : Z := 0x46.
Definition VK_D : Z := 0x44.

  (** A keyboard [INPUT] structure: the fields [_make_key_input] sets. *)
Record KeyInput := mkKeyInput { wVk : Z; dwFlags : Z }.

Definition _make_key_input (vk flags : Z) : KeyInput := mkKeyInput vk flags.

Definition _is_extended (vk : Z) : bool :=
    bool_decide
      (vk ∈ [ VK_BROWSER_BACK; VK_BROWSER_FORWARD; VK_BROWSER_REFRESH;
              VK_BROWSER_STOP; VK_BROWSER_HOME;
              VK_VOLUME_MUTE; VK_VOLUME_DOWN; VK_VOLUME_UP;
              VK_MEDIA_NEXT_TRACK; VK_MEDIA_PREV_TRACK;
              VK_MEDIA_STOP; VK_MEDIA_PLAY_PAUSE;
              VK_LEFT; VK_RIGHT; VK_UP; VK_DOWN;
              VK_DELETE; VK_RETURN; VK_TAB ]).

  (** [send_key_combo]: the array handed to [SendInput], the presses in
      order followed by the releases in reverse order. *)
Definition send_key_combo (keys : list Z) : list KeyInput :=
    ((fun vk =>
        _make_key_input vk
          (if _is_extended vk then KEYEVENTF_EXTENDEDKEY else 0)) <$> keys)
    ++ ((fun vk =>
           _make_key_input vk
             (Z.lor KEYEVENTF_KEYUP
                    (if _is_extended vk then KEYEVENTF_EXTENDEDKEY else 0)))
          <$> rev keys).

Definition send_key_press (vk : Z) : list KeyInput := send_key_combo [vk].

  (** [ACTIONS]: the ["keys"] entry of each action. *)
Definition ACTIONS : Config.dict (list Z) :=
    [ ("alt_tab", [VK_MENU; VK_TAB]);
      ("alt_shift_tab", [VK_MENU; VK_SHIFT; VK_TAB]);
      ("browser_back", [VK_BROWSER_BACK]);
      ("browser_forward", [VK_BROWSER_FORWARD]);
      ("copy", [VK_CONTROL; VK_C]);
      ("paste", [VK_CONTROL; VK_V]);
      ("cut", [VK_CONTROL; VK_X]);
      ("undo", [VK_CONTROL; VK_Z]);
      ("select_all", [VK_CONTROL; VK_A]);
      ("save", [VK_CONTROL; VK_S]);
      ("close_tab", [VK_CONTROL; VK_W]);
      ("new_tab", [VK_CONTROL; VK_T]);
      ("find", [VK_CONTROL; VK_F]);
      ("win_d", [VK_LWIN; VK_D]);
      ("task_view", [VK_LWIN; VK_TAB]);
      ("volume_up", [VK_VOLUME_UP]);
      ("volume_down", [VK_VOLUME_DOWN]);
      ("volume_mute", [VK_VOLUME_MUTE]);
      ("play_pause", [VK_MEDIA_PLAY_PAUSE]);
      ("next_track", [VK_MEDIA_NEXT_TRACK]);
      ("prev_track", [VK_MEDIA_PREV_TRACK]);
      ("none", []) ].

  (** [execute_action]: the inputs sent, [None] when nothing is sent. *)
Definition execute_action (action_id : string) : option (list KeyInput) :=
    match Config.get ACTIONS action_id with
    | None => None
    | Some [] => None
    | Some keys => Some (send_key_combo keys)
    end.

End KeySimulator.

(* ===================================================================== *)
(** * app_detector.py *)
(* ===================================================================== *)

Module AppDetector.

Record State := mkState { _last_exe : option string }.

Definition __init__ : State := mkState None.

  (** One turn of [_poll] for the detector the engine creates, whose
      [on_change] is [Engine._on_app_change]; [exe] is what
      [get_foreground_exe()] returned in this turn. *)
Definition poll_turn (self : State) (engine : Engine.State)
      (exe : option string) : State * Engine.State :=
    match exe with
    | Some name =>
        if negb (String.eqb name "")
           && negb (bool_decide (Some name = _last_exe self))
        then (mkState (Some name), Engine._on_app_change engine name)
        else (self, engine)
    | None => (self, engine)
    end.

Fixpoint _poll (self : State) (engine : Engine.State)
      (observed : list (option string)) : State * Engine.State :=
    match observed with
    | [] => (self, engine)
    | exe :: rest =>
        let '(self1, engine1) := poll_turn self engine exe in
        _poll self1 engine1 rest
    end.

  (** The last foreground executable a run of turns reported. *)
Definition last_seen (observed : list (option string)) : option string :=
    last (omap (fun exe =>
                  match exe with
                  | Some name => if String.eqb name "" then None else Some name
                  | None => None
                  end) observed).

  (** The detector and the engine agree: the engine is on the profile
      selected for the executable the detector reported last. *)
Definition in_step (self : State) (engine : Engine.State) : Prop :=
    forall name,
      _last_exe self = Some name ->
      Engine._current_profile engine
      = Config.get_profile_for_app (Engine.cfg engine) name.

End AppDetector.

(** The listener object [MouseHook.start] creates, with the hook's two
    gesture helpers as its callbacks. *)
Definition start_hid_gesture (enabled : bool) : HidGesture.State :=
  HidGesture.__init__ (Some (MouseHook._on_hid_gesture_down enabled))
                      (Some (MouseHook._on_hid_gesture_up enabled)).

(* ===================================================================== *)
(** * Scenarios used in the examples below *)
(* ===================================================================== *)

Module Scenario.
  Import MouseHook.

  (** A running hook with vertical inversion on, the hidden window
      created, nothing accumulated and nothing queued. *)
Definition inverting_hook : MouseHook.State :=
    {| _callbacks := ∅; _blocked_events := ∅;
       _debug_callback := false; debug_mode := false;
       invert_vscroll := true; invert_hscroll := false;
       _pending_vscroll := 0; _pending_hscroll := 0;
       _vscroll_posted := false; _hscroll_posted := false;
       _ri_hwnd := Some 0x50A12; _gesture_active := false;
       _prev_raw_buttons := ∅ |}.

  (** A vertical wheel event whose delta is the given signed 16-bit
      value, as the OS delivers it (high word of [mouseData]). *)
Definition wheel (delta : Z) : HookCall :=
    mkHookCall HC_ACTION WM_MOUSEWHEEL (Z.shiftl (delta mod 0x10000) 16) 0.

Definition ticks_3_m5_1 : list HookCall := [wheel 3; wheel (-5); wheel 1].



  (** A listener as [MouseHook.start] creates it, connected: device
      open, REPROG_CONTROLS_V4 found at index 9 and ADJUSTABLE_DPI at
      index 7 on the Bluetooth device index. *)
Definition connected : HidGesture.State :=
    {| HidGesture._on_down := Some (_on_hid_gesture_down true);
       HidGesture._on_up := Some (_on_hid_gesture_up true);
       HidGesture._dev := Some 1;
       HidGesture._running := true;
       HidGesture._feat_idx := Some 9;
       HidGesture._dpi_idx := Some 7;
       HidGesture._dev_idx := 0xFF;
       HidGesture._held := false;
       HidGesture._pending_dpi := None;
       HidGesture._dpi_result := HidGesture.ResultNone |}.

  (** The same listener while the gesture button is held. *)
Definition connected_held : HidGesture.State :=
    HidGesture.with_held true connected.

Definition pad (n : nat) (bytes : list Z) : list Z :=
    take n (bytes ++ replicate n 0).

  (** Long reports as they arrive, report id first. *)
Definition gesture_pressed : list Z :=
    pad 20 [0x11; 0xFF; 9; 0x00; 0x00; 0xC3].
Definition gesture_released : list Z :=
    pad 20 [0x11; 0xFF; 9; 0x00].
  (** HID++ 2.0 error report answering a request to feature 7. *)
Definition error_report : list Z :=
    pad 20 [0x11; 0xFF; 0xFF; 7; 0x3A; 0x02].
  (** The device's answer to "set sensor DPI 8100" on feature 7. *)
Definition dpi_8100_reply : list Z :=
    pad 20 [0x11; 0xFF; 7; 0x3A; 0x00; 0x1F; 0xA4].
  (** A notification arriving while a request to feature 7 is pending. *)
Definition unrelated_report : list Z := gesture_pressed.

Definition replying (raws : list (list Z)) : HidGesture.RequestIo :=
    HidGesture.mkRequestIo true (HidGesture.ReadData <$> raws).

(** A configuration with the default profile and a media profile scoped
    to two players. *)
Definition media_mappings : Config.dict string :=
  [ ("middle", "none"); ("gesture", "play_pause");
    ("xbutton1", "volume_down"); ("xbutton2", "none");
    ("hscroll_left", "prev_track") ].

Definition two_profiles : Config.Cfg :=
  Config.mkCfg "media"
    [ ("default", Config.mkProfile "Default (All Apps)" (Some []) None);
      ("media", Config.mkProfile "Media" (Some ["VLC.exe"; "wmplayer.exe"])
                                 (Some media_mappings)) ]
    (Config.mkSettings false false 1000).

(** An engine whose hook still carries bindings of an earlier profile. *)
Definition stale_engine : Engine.State :=
  Engine.mkState
    (block "hscroll_right"
       (register "hscroll_right" (HscrollHandler "browser_forward")
          (register "middle_down" (Handler "alt_tab") MouseHook.__init__)))
    two_profiles true "default".

End Scenario.

(* ===================================================================== *)
(** * Properties of the input hook *)
(* ===================================================================== *)

Module HookFacts.
  Import MouseHook.

  (** ** [hiword] *)

Lemma hiword_unfold d :
    hiword d =
    let u := (d / 2^16) mod 2^16 in if u <? 2^15 then u else u - 2^16.
  Proof.
    unfold hiword. cbv zeta.
    change 0xFFFF with (Z.ones 16).
    rewrite Z.land_ones by lia. rewrite Z.shiftr_div_pow2 by lia.
    set (u := (d / 2^16) mod 2^16).
    destruct (Z.geb_spec u 0x8000), (Z.ltb_spec u (2^15)); lia.
  Qed.

Lemma hiword_range d : -32768 <= hiword d <= 32767.
  Proof.
    rewrite hiword_unfold. cbv zeta.
    pose proof (Z.mod_pos_bound (d / 2^16) (2^16) ltac:(lia)).
    destruct (Z.ltb_spec ((d / 2^16) mod 2^16) (2^15)); lia.
  Qed.

Lemma high_word_small d : 0 <= d < 2^32 -> (d / 2^16) mod 2^16 = d / 2^16.
  Proof.
    intros Hd. apply Z.mod_small. split.
    - apply Z.div_pos; lia.
    - apply Z.div_lt_upper_bound; lia.
  Qed.

  (** ** Traces of [_dispatch] *)

  Section Traces.
    Variable enabled : bool.

Lemma call_trace cb ev :
      dispatched (fst (call enabled cb ev)) = []
      /\ called (fst (call enabled cb ev)) = []
      /\ posted_messages (fst (call enabled cb ev)) = [].
    Proof. destruct cb; simpl; destruct enabled; auto. Qed.

Lemma dispatched_app e1 e2 :
      dispatched (e1 ++ e2) = dispatched e1 ++ dispatched e2.
    Proof. apply omap_app. Qed.

Lemma called_app e1 e2 : called (e1 ++ e2) = called e1 ++ called e2.
    Proof. apply omap_app. Qed.

Lemma injected_app e1 e2 :
      injected_scrolls (e1 ++ e2) = injected_scrolls e1 ++ injected_scrolls e2.
    Proof. apply omap_app. Qed.

Lemma posted_app e1 e2 :
      posted_messages (e1 ++ e2) = posted_messages e1 ++ posted_messages e2.
    Proof. apply omap_app. Qed.

Lemma call_each_dispatched cbs ev :
      dispatched (fst (call_each enabled cbs ev)) = [].
    Proof.
      induction cbs as [|cb rest IH]; simpl; [done|].
      pose proof (call_trace cb ev) as (Hd & _ & _).
      destruct (call enabled cb ev) as [eff r]; simpl in *.
      destruct (call_each enabled rest ev) as [eff' r']; simpl in *.
      destruct r as [|e]; [|destruct (isinstance_Exception e)]; simpl;
        rewrite ?dispatched_app; simpl; rewrite ?Hd, ?IH; done.
    Qed.

Lemma dispatch_dispatched self ev :
      dispatched (fst (_dispatch enabled self ev)) = [ev].
    Proof.
      unfold _dispatch.
      pose proof (call_each_dispatched
                    (default [] (_callbacks self !! event_type ev)) ev) as H.
      destruct (call_each _ _ _) as [eff r]; simpl in *. by rewrite H.
    Qed.

    (** Handlers that fail with an [Exception] never stop the loop: every
        callback is called, in registration order, and the loop returns. *)
Lemma call_each_isolated cbs ev :
      Forall (raises_Exception_only enabled) cbs ->
      called (fst (call_each enabled cbs ev)) = (fun cb => (cb, ev)) <$> cbs
      /\ snd (call_each enabled cbs ev) = Returned.
    Proof.
      induction 1 as [|cb rest Hcb _ IH]; simpl; [done|].
      pose proof (call_trace cb ev) as (_ & Hc & _).
      specialize (Hcb ev).
      destruct (call enabled cb ev) as [eff r]; simpl in *.
      destruct IH as [IHc IHr].
      destruct (call_each enabled rest ev) as [eff' r']; simpl in *.
      destruct r as [|e].
      - simpl. rewrite called_app, Hc, IHc. done.
      - rewrite (Hcb e eq_refl). simpl.
        rewrite called_app, Hc. simpl. rewrite IHc. done.
    Qed.

  End Traces.

  (** ** The filter callback *)

  Local Arguments dispatch_and_block : simpl never.
  Local Arguments debug_report : simpl never.
  Local Arguments blocked : simpl never.
  Local Arguments hiword : simpl never.
  Local Arguments _dispatch : simpl never.

Lemma debug_report_trace self wParam mouse_data flags :
    dispatched (debug_report self wParam mouse_data flags) = []
    /\ posted_messages (debug_report self wParam mouse_data flags) = []
    /\ injected_scrolls (debug_report self wParam mouse_data flags) = [].
  Proof.
    unfold debug_report.
    destruct (debug_mode self && _debug_callback self),
      (negb (wParam =? 512)); done.
  Qed.

Lemma debug_report_posted self wParam mouse_data flags :
    posted_messages (debug_report self wParam mouse_data flags) = [].
  Proof. apply debug_report_trace. Qed.

Lemma debug_report_injected self wParam mouse_data flags :
    injected_scrolls (debug_report self wParam mouse_data flags) = [].
  Proof. apply debug_report_trace. Qed.

  Section Filter.
    Variable enabled : bool.

Definition well_behaved (self : State) : Prop :=
      forall kind cbs,
        _callbacks self !! kind = Some cbs ->
        Forall (raises_Exception_only enabled) cbs.

Lemma well_behaved_kind self kind :
      well_behaved self ->
      Forall (raises_Exception_only enabled)
             (default [] (_callbacks self !! kind)).
    Proof.
      intros Hwb. destruct (_callbacks self !! kind) as [cbs|] eqn:E; simpl.
      - by apply (Hwb kind).
      - constructor.
    Qed.

Lemma dispatch_returns_kind self ev :
      Forall (raises_Exception_only enabled)
             (default [] (_callbacks self !! event_type ev)) ->
      snd (_dispatch enabled self ev) = Returned.
    Proof.
      intros Hwb. unfold _dispatch.
      pose proof (call_each_isolated enabled _ ev Hwb) as [_ Hr].
      destruct (call_each _ _ _) as [eff r]; simpl in *. done.
    Qed.

Lemma dispatch_returns self ev :
      well_behaved self -> snd (_dispatch enabled self ev) = Returned.
    Proof.
      intros Hwb. unfold _dispatch.
      pose proof (call_each_isolated enabled _ ev
                    (well_behaved_kind self (event_type ev) Hwb)) as [_ Hr].
      destruct (call_each _ _ _) as [eff r]; simpl in *. done.
    Qed.



Lemma dispatch_and_block_dispatched self dbg ev b :
      dispatched dbg = [] ->
      dispatched (dispatch_and_block enabled self dbg ev b).1.2
      = match ev with Some ev => [ev] | None => [] end.
    Proof.
      intros Hdbg. unfold dispatch_and_block.
      destruct ev as [ev|]; [|done].
      pose proof (dispatch_dispatched enabled self ev) as Hd.
      destruct (_dispatch enabled self ev) as [eff r]; simpl in *.
      destruct r; simpl; by rewrite dispatched_app, Hdbg, Hd.
    Qed.

  End Filter.

  (** The branch the filter callback takes for each message of
      interest, for an event that does not carry the injected flag. *)
  Section Branches.
    Variables (enabled : bool) (self : State) (d flags : Z).
    Hypothesis Hflags : Z.land flags INJECTED_FLAG = 0.

Lemma handler_xbutton_down :
      _low_level_handler enabled self HC_ACTION WM_XBUTTONDOWN d flags
      = let dbg := debug_report self WM_XBUTTONDOWN d flags in
        if hiword d =? XBUTTON1 then
          dispatch_and_block enabled self dbg
            (Some (mkMouseEvent XBUTTON1_DOWN None)) (blocked XBUTTON1_DOWN self)
        else if hiword d =? XBUTTON2 then
          dispatch_and_block enabled self dbg
            (Some (mkMouseEvent XBUTTON2_DOWN None)) (blocked XBUTTON2_DOWN self)
        else dispatch_and_block enabled self dbg None false.
    Proof. unfold _low_level_handler. rewrite Hflags. reflexivity. Qed.

Lemma handler_xbutton_up :
      _low_level_handler enabled self HC_ACTION WM_XBUTTONUP d flags
      = let dbg := debug_report self WM_XBUTTONUP d flags in
        if hiword d =? XBUTTON1 then
          dispatch_and_block enabled self dbg
            (Some (mkMouseEvent XBUTTON1_UP None)) (blocked XBUTTON1_UP self)
        else if hiword d =? XBUTTON2 then
          dispatch_and_block enabled self dbg
            (Some (mkMouseEvent XBUTTON2_UP None)) (blocked XBUTTON2_UP self)
        else dispatch_and_block enabled self dbg None false.
    Proof. unfold _low_level_handler. rewrite Hflags. reflexivity. Qed.

Lemma handler_vwheel_inverted :
      invert_vscroll self = true ->
      hiword d <> 0 ->
      _low_level_handler enabled self HC_ACTION WM_MOUSEWHEEL d flags
      = let dbg := debug_report self WM_MOUSEWHEEL d flags in
        let pending := _pending_vscroll self + - hiword d in
        if negb (_vscroll_posted self) && truthy (_ri_hwnd self) then
          (with_vscroll pending true self,
           dbg ++ [PostMessageW WM_APP_INJECT_VSCROLL], Return1)
        else (with_vscroll pending (_vscroll_posted self) self, dbg, Return1).
    Proof.
      intros Hinv Hnz. unfold _low_level_handler. rewrite Hflags.
      change (HC_ACTION =? HC_ACTION) with true. cbv iota zeta.
      change (negb (0 =? 0)) with false. cbv iota.
      change (WM_MOUSEWHEEL =? WM_XBUTTONDOWN) with false.
      change (WM_MOUSEWHEEL =? WM_XBUTTONUP) with false.
      change (WM_MOUSEWHEEL =? WM_MBUTTONDOWN) with false.
      change (WM_MOUSEWHEEL =? WM_MBUTTONUP) with false.
      change (WM_MOUSEWHEEL =? WM_MOUSEWHEEL) with true. cbv iota.
      rewrite Hinv. rewrite (proj2 (Z.eqb_neq _ _) Hnz). reflexivity.
    Qed.

Lemma handler_hwheel_plain :
      invert_hscroll self = false ->
      _low_level_handler enabled self HC_ACTION WM_MOUSEHWHEEL d flags
      = let dbg := debug_report self WM_MOUSEHWHEEL d flags in
        if hiword d >? 0 then
          dispatch_and_block enabled self dbg
            (Some (mkMouseEvent HSCROLL_LEFT (Some (Z.abs (hiword d)))))
            (blocked HSCROLL_LEFT self)
        else if hiword d <? 0 then
          dispatch_and_block enabled self dbg
            (Some (mkMouseEvent HSCROLL_RIGHT (Some (Z.abs (hiword d)))))
            (blocked HSCROLL_RIGHT self)
        else dispatch_and_block enabled self dbg None false.
    Proof.
      intros Hinv. unfold _low_level_handler. rewrite Hflags, Hinv.
      reflexivity.
    Qed.

  End Branches.



  (** C10. For a 32-bit [mouseData] value [d], [hiword d] is the high 16
      bits of [d] read as a signed 16-bit integer, so it lies in
      [-32768, 32767]; a wheel delta whose high word is at least 0x8000 is
      therefore negative (a horizontal tick is classified scroll-right,
      an inverted vertical tick adds a positive amount), and the side
      button is selected by comparing this sign-extended value with
      XBUTTON1 and XBUTTON2. *)
Theorem hiword_signed_high_word
      (enabled : bool) (self : State) (d flags : Z) :
    0 <= d < 2^32 ->
    Z.land flags INJECTED_FLAG = 0 ->
    let hi := d / 2^16 in
    let run wParam := _low_level_handler enabled self HC_ACTION wParam d flags in
    hiword d = (if hi <? 2^15 then hi else hi - 2^16)
    /\ -32768 <= hiword d <= 32767
    /\ (0x8000 <= hi -> hiword d < 0)
    /\ (0x8000 <= hi -> invert_hscroll self = false ->
        dispatched (run WM_MOUSEHWHEEL).1.2
        = [mkMouseEvent HSCROLL_RIGHT (Some (- hiword d))])
    /\ (0x8000 <= hi -> invert_vscroll self = true ->
        _pending_vscroll (run WM_MOUSEWHEEL).1.1
        = _pending_vscroll self - hiword d)
    /\ dispatched (run WM_XBUTTONDOWN).1.2
       = (if hiword d =? XBUTTON1 then [mkMouseEvent XBUTTON1_DOWN None]
          else if hiword d =? XBUTTON2 then [mkMouseEvent XBUTTON2_DOWN None]
          else [])
    /\ dispatched (run WM_XBUTTONUP).1.2
       = (if hiword d =? XBUTTON1 then [mkMouseEvent XBUTTON1_UP None]
          else if hiword d =? XBUTTON2 then [mkMouseEvent XBUTTON2_UP None]
          else []).
  Proof.
    intros Hd Hflags hi run.
    assert (Hhi : hiword d = (if hi <? 2^15 then hi else hi - 2^16)).
    { rewrite hiword_unfold. cbv zeta. by rewrite high_word_small. }
    assert (Hneg : 0x8000 <= hi -> hiword d < 0).
    { intros Hge. rewrite Hhi.
      assert (hi < 2^16) by (apply Z.div_lt_upper_bound; lia).
      destruct (Z.ltb_spec hi (2^15)); lia. }
    split; [exact Hhi|]. split; [apply hiword_range|]. split; [exact Hneg|].
    subst run. cbv beta.
    rewrite handler_xbutton_down, handler_xbutton_up by exact Hflags.
    cbv zeta. repeat split.
    - intros Hge Hinv. rewrite handler_hwheel_plain by assumption. cbv zeta.
      specialize (Hneg Hge).
      destruct (Z.gtb_spec (hiword d) 0); [lia|].
      destruct (Z.ltb_spec (hiword d) 0); [|lia].
      rewrite dispatch_and_block_dispatched by apply debug_report_trace.
      by rewrite Z.abs_neq by lia.
    - intros Hge Hinv. specialize (Hneg Hge).
      rewrite handler_vwheel_inverted by (assumption || lia). cbv zeta.
      destruct (negb (_vscroll_posted self) && truthy (_ri_hwnd self));
        cbn [fst snd with_vscroll _pending_vscroll]; lia.
    - destruct (hiword d =? XBUTTON1); [|destruct (hiword d =? XBUTTON2)];
        by rewrite dispatch_and_block_dispatched by apply debug_report_trace.
    - destruct (hiword d =? XBUTTON1); [|destruct (hiword d =? XBUTTON2)];
        by rewrite dispatch_and_block_dispatched by apply debug_report_trace.
  Qed.

  (** One notch down ([-120], high word 0xFF88) on an idle hook. *)
Lemma hiword_signed_high_word_witness :
    hiword 0xFF880000 = -120
    /\ dispatched
         (_low_level_handler true MouseHook.__init__ HC_ACTION
                             WM_MOUSEHWHEEL 0xFF880000 0).1.2
       = [mkMouseEvent HSCROLL_RIGHT (Some 120)].
  Proof.
    destruct (hiword_signed_high_word true MouseHook.__init__ 0xFF880000 0)
      as (H1 & _ & _ & H4 & _); [lia | reflexivity |].
    split; [exact H1|]. apply H4; [vm_compute; discriminate | reflexivity].
  Defined.

  (** ** Coalesced scroll injection *)

Lemma C1_ticks_inject_plus_one :
    let '(s1, eff, _) := hook_calls true Scenario.inverting_hook
                                    Scenario.ticks_3_m5_1 in
    let '(s2, eff2) := pump true s1 (posted_messages eff) in
    ~ (injected_scrolls eff2 = [(MOUSEEVENTF_WHEEL, -1)]
       /\ _pending_vscroll s2 = 0).
  Proof. vm_compute. intros [H _]. discriminate H. Qed.

  (** C1 (amended). With vertical inversion on, the hidden window present,
      nothing accumulated and nothing queued, wheel ticks +3, -5, +1
      handled by the filter callback before the queued message is
      delivered are all suppressed and queue exactly one re-injection
      message; delivering it synthesizes exactly one wheel event, of
      delta +1 (= -3 + 5 - 1, the sum of the negated deltas), and leaves
      the vertical accumulator at 0. *)
Theorem inverted_ticks_flush_once
      (enabled : bool) (self : State) (m1 m2 m3 f1 f2 f3 : Z) :
    invert_vscroll self = true ->
    truthy (_ri_hwnd self) = true ->
    _pending_vscroll self = 0 ->
    _vscroll_posted self = false ->
    hiword m1 = 3 -> hiword m2 = -5 -> hiword m3 = 1 ->
    Z.land f1 INJECTED_FLAG = 0 ->
    Z.land f2 INJECTED_FLAG = 0 ->
    Z.land f3 INJECTED_FLAG = 0 ->
    let burst :=
      hook_calls enabled self
        [ mkHookCall HC_ACTION WM_MOUSEWHEEL m1 f1;
          mkHookCall HC_ACTION WM_MOUSEWHEEL m2 f2;
          mkHookCall HC_ACTION WM_MOUSEWHEEL m3 f3 ] in
    let flush := pump enabled burst.1.1 (posted_messages burst.1.2) in
    burst.2 = [Return1; Return1; Return1]
    /\ posted_messages burst.1.2 = [WM_APP_INJECT_VSCROLL]
    /\ injected_scrolls burst.1.2 = []
    /\ _pending_vscroll burst.1.1 = 1
    /\ flush.2 = [InjectScroll MOUSEEVENTF_WHEEL 1]
    /\ _pending_vscroll flush.1 = 0
    /\ _vscroll_posted flush.1 = false.
  Proof.
    intros Hinv Hwnd Hpend Hposted H1 H2 H3 Hf1 Hf2 Hf3.
    cbn [hook_calls hc_nCode hc_wParam hc_mouseData hc_flags].
    rewrite (handler_vwheel_inverted enabled self m1 f1 Hf1 Hinv)
      by (rewrite H1; discriminate).
    cbv zeta. rewrite Hposted, Hwnd. cbn [negb andb].
    set (s1 := with_vscroll _ true self).
    rewrite (handler_vwheel_inverted enabled s1 m2 f2 Hf2 Hinv)
      by (rewrite H2; discriminate).
    cbv zeta. cbn [negb andb _vscroll_posted s1 with_vscroll].
    set (s2 := with_vscroll _ true s1).
    rewrite (handler_vwheel_inverted enabled s2 m3 f3 Hf3 Hinv)
      by (rewrite H3; discriminate).
    cbv zeta. cbn [negb andb _vscroll_posted s2 with_vscroll fst snd].
    rewrite !posted_app, !injected_app.
    rewrite !debug_report_posted, !debug_report_injected.
    subst s2 s1. rewrite H1, H2, H3, Hpend.
    repeat split; reflexivity.
  Qed.

Lemma inverted_ticks_flush_once_witness :
    let burst := hook_calls true Scenario.inverting_hook Scenario.ticks_3_m5_1 in
    posted_messages burst.1.2 = [WM_APP_INJECT_VSCROLL]
    /\ (pump true burst.1.1 (posted_messages burst.1.2)).2
       = [InjectScroll MOUSEEVENTF_WHEEL 1].
  Proof.
    destruct (inverted_ticks_flush_once true Scenario.inverting_hook
                0x00030000 0xFFFB0000 0x00010000 0 0 0)
      as (_ & Hq & _ & _ & Hinj & _); try reflexivity.
    split; [exact Hq | exact Hinj].
  Defined.


  (** ** The verdict of the filter callback *)

Lemma debug_report_quiet self wParam mouse_data flags :
    called (debug_report self wParam mouse_data flags) = []
    /\ executed (debug_report self wParam mouse_data flags) = [].
  Proof.
    unfold debug_report.
    destruct (debug_mode self && _debug_callback self),
      (negb (wParam =? 512)); done.
  Qed.

Lemma executed_app e1 e2 : executed (e1 ++ e2) = executed e1 ++ executed e2.
  Proof. apply omap_app. Qed.

Lemma call_each_posted enabled cbs ev :
    posted_messages (fst (call_each enabled cbs ev)) = []
    /\ injected_scrolls (fst (call_each enabled cbs ev)) = [].
  Proof.
    induction cbs as [|cb rest [IHp IHi]]; simpl; [done|].
    assert (Hc : posted_messages (fst (call enabled cb ev)) = []
                 /\ injected_scrolls (fst (call enabled cb ev)) = []).
    { destruct cb; simpl; destruct enabled; done. }
    destruct Hc as [Hp Hi].
    destruct (call enabled cb ev) as [eff r]; simpl in *.
    destruct (call_each enabled rest ev) as [eff' r']; simpl in *.
    destruct r as [|e]; [|destruct (isinstance_Exception e)]; simpl;
      rewrite ?posted_app, ?injected_app; simpl; rewrite ?Hp, ?Hi, ?IHp, ?IHi;
      done.
  Qed.

Lemma dispatch_posted enabled self ev :
    posted_messages (fst (_dispatch enabled self ev)) = []
    /\ injected_scrolls (fst (_dispatch enabled self ev)) = [].
  Proof.
    unfold _dispatch.
    pose proof (call_each_posted enabled
                  (default [] (_callbacks self !! event_type ev)) ev) as H.
    destruct (call_each _ _ _) as [eff r]; simpl in *. done.
  Qed.

Lemma dab_none enabled self dbg b :
    dispatch_and_block enabled self dbg None b = (self, dbg, CallNextHookEx).
  Proof. reflexivity. Qed.

Lemma dab_state enabled self dbg ev b :
    (dispatch_and_block enabled self dbg ev b).1.1 = self.
  Proof.
    unfold dispatch_and_block. destruct ev as [ev|]; [|done].
    destruct (_dispatch enabled self ev) as [eff [|e]]; done.
  Qed.

Lemma dab_posted enabled self dbg ev b :
    posted_messages dbg = [] ->
    posted_messages (dispatch_and_block enabled self dbg ev b).1.2 = [].
  Proof.
    intros Hdbg. unfold dispatch_and_block. destruct ev as [ev|]; [|done].
    pose proof (dispatch_posted enabled self ev) as [Hp _].
    destruct (_dispatch enabled self ev) as [eff [|e]]; simpl in *;
      by rewrite posted_app, Hdbg, Hp.
  Qed.

Lemma dab_some enabled self dbg ev b :
    well_behaved enabled self ->
    dispatched dbg = [] ->
    let out := dispatch_and_block enabled self dbg (Some ev) b in
    dispatched out.1.2 = [ev] /\ out.1.1 = self
    /\ out.2 = (if b then Return1 else CallNextHookEx).
  Proof.
    intros Hwb Hdbg. cbv zeta.
    split; [by apply (dispatch_and_block_dispatched enabled self dbg (Some ev))|].
    split; [apply dab_state|].
    unfold dispatch_and_block.
    pose proof (dispatch_returns enabled self ev Hwb) as Hr.
    destruct (_dispatch enabled self ev) as [eff r]; simpl in *. by subst r.
  Qed.

  (** X1. Whatever reaches the filter callback, its verdict is one of
      three: nothing is dispatched and the event goes on to the next hook;
      exactly one event is dispatched and the callback returns 1 exactly
      when that event's type is in the blocked set; or the event is a
      wheel message with a non-zero delta on an axis whose inversion is
      on, which is swallowed without dispatching anything.  In the first
      two cases the hook object is left as it was. *)
Theorem hook_verdict
      (enabled : bool) (self : State) (nCode wParam d flags : Z) :
    well_behaved enabled self ->
    let out := _low_level_handler enabled self nCode wParam d flags in
    (dispatched out.1.2 = [] /\ out.1.1 = self /\ out.2 = CallNextHookEx)
    \/ (exists ev,
          dispatched out.1.2 = [ev] /\ out.1.1 = self
          /\ out.2 = (if blocked (event_type ev) self
                      then Return1 else CallNextHookEx))
    \/ (dispatched out.1.2 = [] /\ out.2 = Return1 /\ hiword d <> 0
        /\ ((wParam = WM_MOUSEWHEEL /\ invert_vscroll self = true)
            \/ (wParam = WM_MOUSEHWHEEL /\ invert_hscroll self = true))).
  Proof.
    intros Hwb. cbv zeta. unfold _low_level_handler. cbv zeta.
    pose proof (debug_report_trace self wParam d flags) as (Hdbg & _ & _).
    set (dbg := debug_report self wParam d flags) in *.
    assert (Hpost : forall m, dispatched (dbg ++ [PostMessageW m]) = []).
    { intros m. by rewrite dispatched_app, Hdbg. }
    destruct (nCode =? HC_ACTION); [|by left].
    destruct (negb (Z.land flags INJECTED_FLAG =? 0)); [by left|].
    assert (Hsome : forall ev b,
              b = blocked (event_type ev) self ->
              let out := dispatch_and_block enabled self dbg (Some ev) b in
              exists ev',
                dispatched out.1.2 = [ev'] /\ out.1.1 = self
                /\ out.2 = (if blocked (event_type ev') self
                            then Return1 else CallNextHookEx)).
    { intros ev b ->. exists ev. by apply dab_some. }
    destruct (Z.eqb_spec wParam WM_XBUTTONDOWN) as [->|_].
    { destruct (hiword d =? XBUTTON1); [right; left; by apply Hsome|].
      destruct (hiword d =? XBUTTON2); [right; left; by apply Hsome|].
      by left. }
    destruct (Z.eqb_spec wParam WM_XBUTTONUP) as [->|_].
    { destruct (hiword d =? XBUTTON1); [right; left; by apply Hsome|].
      destruct (hiword d =? XBUTTON2); [right; left; by apply Hsome|].
      by left. }
    destruct (Z.eqb_spec wParam WM_MBUTTONDOWN) as [->|_];
      [right; left; by apply Hsome|].
    destruct (Z.eqb_spec wParam WM_MBUTTONUP) as [->|_];
      [right; left; by apply Hsome|].
    destruct (Z.eqb_spec wParam WM_MOUSEWHEEL) as [->|_].
    { destruct (invert_vscroll self) eqn:Hinv; [|by left].
      destruct (Z.eqb_spec (hiword d) 0) as [|Hnz]; [by left|].
      cbn [negb]. right; right.
      destruct (negb (_vscroll_posted self) && truthy (_ri_hwnd self));
        cbn [fst snd]; rewrite ?Hpost; auto 10. }
    destruct (Z.eqb_spec wParam WM_MOUSEHWHEEL) as [->|_]; [|by left].
    destruct (invert_hscroll self) eqn:Hinv;
      destruct (Z.eqb_spec (hiword d) 0) as [Hz|Hnz]; cbn [negb andb].
    - rewrite Hz. by left.
    - right; right.
      destruct (negb (_hscroll_posted self) && truthy (_ri_hwnd self));
        cbn [fst snd]; rewrite ?Hpost; auto 10.
    - rewrite Hz. by left.
    - destruct (hiword d >? 0); [right; left; by apply Hsome|].
      destruct (hiword d <? 0); [right; left; by apply Hsome|].
      by left.
  Qed.

Lemma hook_verdict_witness :
    let self := block XBUTTON1_DOWN
                  (register XBUTTON1_DOWN (Handler "alt_tab") MouseHook.__init__) in
    let out := _low_level_handler true self HC_ACTION WM_XBUTTONDOWN 0x00010000 0 in
    well_behaved true self
    /\ ((dispatched out.1.2 = [] /\ out.1.1 = self /\ out.2 = CallNextHookEx)
        \/ (exists ev,
              dispatched out.1.2 = [ev] /\ out.1.1 = self
              /\ out.2 = (if blocked (event_type ev) self
                          then Return1 else CallNextHookEx))
        \/ (dispatched out.1.2 = [] /\ out.2 = Return1
            /\ hiword 0x00010000 <> 0
            /\ ((WM_XBUTTONDOWN = WM_MOUSEWHEEL /\ invert_vscroll self = true)
                \/ (WM_XBUTTONDOWN = WM_MOUSEHWHEEL
                    /\ invert_hscroll self = true)))).
  Proof.
    cbv zeta.
    assert (Hwb : well_behaved true
                    (block XBUTTON1_DOWN
                       (register XBUTTON1_DOWN (Handler "alt_tab")
                                 MouseHook.__init__))).
    { intros kind cbs. unfold block, register; simpl.
      destruct (decide (XBUTTON1_DOWN = kind)) as [<-|Hne].
      - rewrite lookup_insert_eq. intros [= <-].
        repeat constructor. intros ev e. simpl. discriminate.
      - rewrite lookup_insert_ne by done. rewrite lookup_empty. discriminate. }
    split; [exact Hwb|].
    exact (hook_verdict true _ HC_ACTION WM_XBUTTONDOWN 0x00010000 0 Hwb).
  Defined.

  (** ** Every branch of the filter callback *)

Local Ltac some_side :=
  first [ let Hw := fresh in intros Hw; vm_compute in Hw; discriminate Hw
        | intros _; first [assumption | reflexivity] ].

Local Ltac take_some H :=
  match goal with
  | |- context [dispatch_and_block _ _ _ (Some ?ev) _] =>
      right; right; left; apply (H ev); [some_side|reflexivity]
  end.

Lemma handler_cases enabled self nCode wParam d flags :
    let out := _low_level_handler enabled self nCode wParam d flags in
    let dbg := debug_report self wParam d flags in
    out = (self, [], CallNextHookEx)
    \/ out = (self, dbg, CallNextHookEx)
    \/ (exists ev,
          nCode = HC_ACTION /\ Z.land flags INJECTED_FLAG = 0
          /\ (wParam = WM_MOUSEHWHEEL -> invert_hscroll self = false)
          /\ out = dispatch_and_block enabled self dbg (Some ev)
                     (blocked (event_type ev) self))
    \/ (wParam = WM_MOUSEWHEEL /\ invert_vscroll self = true /\ hiword d <> 0
        /\ out = if negb (_vscroll_posted self) && truthy (_ri_hwnd self)
                 then (with_vscroll (_pending_vscroll self + - hiword d) true self,
                       dbg ++ [PostMessageW WM_APP_INJECT_VSCROLL], Return1)
                 else (with_vscroll (_pending_vscroll self + - hiword d)
                                    (_vscroll_posted self) self, dbg, Return1))
    \/ (wParam = WM_MOUSEHWHEEL /\ invert_hscroll self = true /\ hiword d <> 0
        /\ out = if negb (_hscroll_posted self) && truthy (_ri_hwnd self)
                 then (with_hscroll (_pending_hscroll self + - hiword d) true self,
                       dbg ++ [PostMessageW WM_APP_INJECT_HSCROLL], Return1)
                 else (with_hscroll (_pending_hscroll self + - hiword d)
                                    (_hscroll_posted self) self, dbg, Return1)).
  Proof.
    cbv zeta. unfold _low_level_handler. cbv zeta.
    set (dbg := debug_report self wParam d flags).
    destruct (Z.eqb_spec nCode HC_ACTION) as [Hn|_]; [|by left].
    destruct (Z.eqb_spec (Z.land flags INJECTED_FLAG) 0) as [Hf|_];
      cbn [negb]; [|by right; left].
    assert (Hsome : forall ev (out : State * list Effect * HookResult),
              (wParam = WM_MOUSEHWHEEL -> invert_hscroll self = false) ->
              out = dispatch_and_block enabled self dbg (Some ev)
                      (blocked (event_type ev) self) ->
              exists ev',
                nCode = HC_ACTION /\ Z.land flags INJECTED_FLAG = 0
                /\ (wParam = WM_MOUSEHWHEEL -> invert_hscroll self = false)
                /\ out = dispatch_and_block enabled self dbg (Some ev')
                           (blocked (event_type ev') self)).
    { intros ev out Hh ->. by exists ev. }
    destruct (Z.eqb_spec wParam WM_XBUTTONDOWN) as [->|_].
    { destruct (hiword d =? XBUTTON1);
        [take_some Hsome|].
      destruct (hiword d =? XBUTTON2);
        [take_some Hsome|].
      by right; left. }
    destruct (Z.eqb_spec wParam WM_XBUTTONUP) as [->|_].
    { destruct (hiword d =? XBUTTON1);
        [take_some Hsome|].
      destruct (hiword d =? XBUTTON2);
        [take_some Hsome|].
      by right; left. }
    destruct (Z.eqb_spec wParam WM_MBUTTONDOWN) as [->|_];
      [take_some Hsome|].
    destruct (Z.eqb_spec wParam WM_MBUTTONUP) as [->|_];
      [take_some Hsome|].
    destruct (Z.eqb_spec wParam WM_MOUSEWHEEL) as [->|_].
    { destruct (invert_vscroll self) eqn:Hinv; [|by right; left].
      destruct (Z.eqb_spec (hiword d) 0) as [|Hnz]; [by right; left|].
      cbn [negb]. do 3 right. left. done. }
    destruct (Z.eqb_spec wParam WM_MOUSEHWHEEL) as [->|_]; [|by right; left].
    destruct (invert_hscroll self) eqn:Hinv;
      destruct (Z.eqb_spec (hiword d) 0) as [Hz|Hnz]; cbn [negb andb].
    - rewrite Hz. by right; left.
    - do 4 right. done.
    - rewrite Hz. by right; left.
    - destruct (hiword d >? 0); [take_some Hsome|].
      destruct (hiword d <? 0); [take_some Hsome|].
      by right; left.
  Qed.

  (** The fields a call of the filter callback can change are the two
      scroll accumulators and their posted flags. *)
Lemma handler_frame enabled self nCode wParam d flags :
    let out := _low_level_handler enabled self nCode wParam d flags in
    out.1.1 = self
    \/ (exists p b, out.1.1 = with_vscroll p b self)
    \/ (exists p b, out.1.1 = with_hscroll p b self).
  Proof.
    cbv zeta.
    destruct (handler_cases enabled self nCode wParam d flags)
      as [H|[H|[(ev & _ & _ & _ & H)|[(_ & _ & _ & H)|(_ & _ & _ & H)]]]];
      rewrite H.
    - by left.
    - by left.
    - left. apply dab_state.
    - right; left. destruct (_ && _); eauto.
    - right; right. destruct (_ && _); eauto.
  Qed.

Lemma handler_window enabled self nCode wParam d flags :
    _ri_hwnd (_low_level_handler enabled self nCode wParam d flags).1.1
    = _ri_hwnd self.
  Proof.
    destruct (handler_frame enabled self nCode wParam d flags)
      as [H|[(p & b & H)|(p & b & H)]]; by rewrite H.
  Qed.

Lemma handler_posted enabled self nCode wParam d flags :
    let out := _low_level_handler enabled self nCode wParam d flags in
    posted_messages out.1.2 = []
    \/ (truthy (_ri_hwnd self) = true
        /\ ((posted_messages out.1.2 = [WM_APP_INJECT_VSCROLL]
             /\ _vscroll_posted self = false)
            \/ (posted_messages out.1.2 = [WM_APP_INJECT_HSCROLL]
                /\ _hscroll_posted self = false))).
  Proof.
    cbv zeta.
    pose proof (debug_report_posted self wParam d flags) as Hdbg.
    destruct (handler_cases enabled self nCode wParam d flags)
      as [H|[H|[(ev & _ & _ & _ & H)|[(_ & _ & _ & H)|(_ & _ & _ & H)]]]];
      rewrite H.
    - by left.
    - by left.
    - left. by apply dab_posted.
    - destruct (_vscroll_posted self), (truthy (_ri_hwnd self)); simpl;
        rewrite ?posted_app, ?Hdbg; auto.
    - destruct (_hscroll_posted self), (truthy (_ri_hwnd self)); simpl;
        rewrite ?posted_app, ?Hdbg; auto.
  Qed.

  (** X2. An event the hook does not own, one that arrives with a
      code other than [HC_ACTION] or that carries the injected flag (as
      the scroll events the hook itself injects do), goes to the next hook
      untouched: the hook object is unchanged, no event is dispatched, no
      handler is called and no message is posted. *)
Theorem foreign_events_pass_through
      (enabled : bool) (self : State) (nCode wParam d flags : Z) :
    nCode <> HC_ACTION \/ Z.land flags INJECTED_FLAG <> 0 ->
    let out := _low_level_handler enabled self nCode wParam d flags in
    out.1.1 = self /\ out.2 = CallNextHookEx
    /\ dispatched out.1.2 = [] /\ called out.1.2 = []
    /\ posted_messages out.1.2 = [] /\ executed out.1.2 = [].
  Proof.
    intros Hforeign. cbv zeta.
    pose proof (debug_report_trace self wParam d flags) as (Hd & Hp & _).
    pose proof (debug_report_quiet self wParam d flags) as (Hc & He).
    destruct (handler_cases enabled self nCode wParam d flags)
      as [H|[H|[(ev & Hn & Hf & _)|[(Hw & _ & _ & H)|(Hw & _ & _ & H)]]]].
    - by rewrite H.
    - rewrite H. cbn [fst snd]. by rewrite Hd, Hp, Hc, He.
    - destruct Hforeign; contradiction.
    - exfalso. revert H. unfold _low_level_handler.
      destruct Hforeign as [Hn|Hf].
      + rewrite (proj2 (Z.eqb_neq _ _) Hn).
        by destruct (negb (_vscroll_posted self) && truthy (_ri_hwnd self)).
      + destruct (nCode =? HC_ACTION);
          [rewrite (proj2 (Z.eqb_neq _ _) Hf)|];
          by destruct (negb (_vscroll_posted self) && truthy (_ri_hwnd self)).
    - exfalso. revert H. unfold _low_level_handler.
      destruct Hforeign as [Hn|Hf].
      + rewrite (proj2 (Z.eqb_neq _ _) Hn).
        by destruct (negb (_hscroll_posted self) && truthy (_ri_hwnd self)).
      + destruct (nCode =? HC_ACTION);
          [rewrite (proj2 (Z.eqb_neq _ _) Hf)|];
          by destruct (negb (_hscroll_posted self) && truthy (_ri_hwnd self)).
  Qed.

Lemma foreign_events_pass_through_witness :
    let out := _low_level_handler true Scenario.inverting_hook HC_ACTION
                                  WM_MOUSEWHEEL 0x00780000 INJECTED_FLAG in
    (HC_ACTION <> HC_ACTION \/ Z.land INJECTED_FLAG INJECTED_FLAG <> 0)
    /\ out.1.1 = Scenario.inverting_hook /\ out.2 = CallNextHookEx
    /\ posted_messages out.1.2 = [].
  Proof.
    cbv zeta.
    assert (H : HC_ACTION <> HC_ACTION \/ Z.land INJECTED_FLAG INJECTED_FLAG <> 0)
      by (right; discriminate).
    split; [exact H|].
    destruct (foreign_events_pass_through true Scenario.inverting_hook
                HC_ACTION WM_MOUSEWHEEL 0x00780000 INJECTED_FLAG H)
      as (Hs & Hr & _ & _ & Hp & _).
    split; [exact Hs|]. split; [exact Hr|exact Hp].
  Defined.

  (** X3. While horizontal inversion is on, a tilt-wheel message never
      reaches a handler: whatever its delta, no event is dispatched, no
      callback is called and no action runs, so actions mapped to the
      horizontal scroll directions stay silent. *)
Theorem inverted_tilt_never_dispatched
      (enabled : bool) (self : State) (nCode d flags : Z) :
    invert_hscroll self = true ->
    let out := _low_level_handler enabled self nCode WM_MOUSEHWHEEL d flags in
    dispatched out.1.2 = [] /\ called out.1.2 = [] /\ executed out.1.2 = [].
  Proof.
    intros Hinv. cbv zeta.
    pose proof (debug_report_trace self WM_MOUSEHWHEEL d flags) as (Hd & _ & _).
    pose proof (debug_report_quiet self WM_MOUSEHWHEEL d flags) as (Hc & He).
    destruct (handler_cases enabled self nCode WM_MOUSEHWHEEL d flags)
      as [H|[H|[(ev & _ & _ & Hplain & _)|[(Hw & _)|(_ & _ & _ & H)]]]].
    - by rewrite H.
    - rewrite H. cbn [fst snd]. by rewrite Hd, Hc, He.
    - rewrite Hplain in Hinv; done.
    - vm_compute in Hw. discriminate Hw.
    - rewrite H.
      destruct (negb (_hscroll_posted self) && truthy (_ri_hwnd self));
        cbn [fst snd];
        rewrite ?dispatched_app, ?called_app, ?executed_app, ?Hd, ?Hc, ?He;
        done.
  Qed.

Lemma inverted_tilt_never_dispatched_witness :
    let self := with_invert false true
                  (register HSCROLL_LEFT (HscrollHandler "browser_back")
                            MouseHook.__init__) in
    let out := _low_level_handler true self HC_ACTION WM_MOUSEHWHEEL
                                  0x00780000 0 in
    invert_hscroll self = true
    /\ dispatched out.1.2 = [] /\ called out.1.2 = [] /\ executed out.1.2 = [].
  Proof.
    cbv zeta. split; [reflexivity|].
    exact (inverted_tilt_never_dispatched true
             (with_invert false true
                (register HSCROLL_LEFT (HscrollHandler "browser_back")
                          MouseHook.__init__))
             HC_ACTION 0x00780000 0 eq_refl).
  Defined.

  (** ** Raw-input gesture detection, branch by branch *)

Lemma check_raw_cases enabled self hDevice raw_btns :
    let out := _check_raw_mouse_gesture enabled self hDevice raw_btns in
    let prev' := <[hDevice := raw_btns]> (_prev_raw_buttons self) in
    let extra_now := Z.land raw_btns (Z.lnot STANDARD_BUTTON_MASK) in
    let extra_prev :=
      Z.land (default 0 (_prev_raw_buttons self !! hDevice))
             (Z.lnot STANDARD_BUTTON_MASK) in
    out = (with_gesture (_gesture_active self) prev' self, [], Returned)
    \/ (_gesture_active self = false /\ extra_now <> 0 /\ extra_prev = 0
        /\ out.1.1 = with_gesture true prev' self
        /\ dispatched out.1.2 = [mkMouseEvent GESTURE_DOWN None])
    \/ (_gesture_active self = true /\ extra_now = 0 /\ extra_prev <> 0
        /\ out.1.1 = with_gesture false prev' self
        /\ dispatched out.1.2 = [mkMouseEvent GESTURE_UP None]).
  Proof.
    cbv zeta. unfold _check_raw_mouse_gesture. cbv zeta.
    set (prev' := <[hDevice := raw_btns]> (_prev_raw_buttons self)).
    set (extra_now := Z.land raw_btns (Z.lnot STANDARD_BUTTON_MASK)).
    set (extra_prev := Z.land (default 0 (_prev_raw_buttons self !! hDevice))
                              (Z.lnot STANDARD_BUTTON_MASK)).
    destruct (Z.eqb_spec extra_now extra_prev) as [|Hne]; [by left|].
    destruct (Z.eqb_spec extra_now 0) as [Hn|Hn];
      destruct (Z.eqb_spec extra_prev 0) as [Hp|Hp]; cbn [negb andb].
    - congruence.
    - cbn [_gesture_active with_gesture].
      destruct (_gesture_active self) eqn:Hact; [|by left].
      right; right.
      pose proof (dispatch_dispatched enabled
                    (with_gesture false prev' (with_gesture true prev' self))
                    (mkMouseEvent GESTURE_UP None)) as Hd.
      destruct (_dispatch enabled _ _) as [eff r]. cbn [fst snd] in *.
      repeat split; try done.
    - cbn [_gesture_active with_gesture].
      destruct (_gesture_active self) eqn:Hact; [by left|].
      right; left. cbn [negb].
      pose proof (dispatch_dispatched enabled
                    (with_gesture true prev' (with_gesture false prev' self))
                    (mkMouseEvent GESTURE_DOWN None)) as Hd.
      destruct (_dispatch enabled _ _) as [eff r]. cbn [fst snd] in *.
      repeat split; try done.
    - by left.
  Qed.

Lemma process_raw_input_cases enabled self lParam :
    let out := _process_raw_input enabled self lParam in
    out = (self, [], Returned)
    \/ exists ri, lParam = Some ri /\ ri_is_logitech ri = true
                  /\ ri_dwType ri = RIM_TYPEMOUSE
                  /\ out = _check_raw_mouse_gesture enabled self
                             (ri_hDevice ri) (ri_ulRawButtons ri).
  Proof.
    cbv zeta. unfold _process_raw_input.
    destruct lParam as [ri|]; [|by left].
    destruct (ri_is_logitech ri) eqn:Hl; cbn [negb]; [|by left].
    destruct (Z.eqb_spec (ri_dwType ri) RIM_TYPEMOUSE) as [Ht|]; [|by left].
    right. by exists ri.
  Qed.

  (** A WM_INPUT message changes at most the gesture flag and the
      remembered raw buttons. *)
Lemma wm_input_frame enabled self lParam :
    let out := _ri_wndproc enabled self WM_INPUT lParam in
    exists a p, out.1.1 = with_gesture a p self.
  Proof.
    cbv zeta. unfold _ri_wndproc.
    change (WM_INPUT =? WM_INPUT) with true. cbv iota.
    assert (Hsame : self = with_gesture (_gesture_active self)
                                        (_prev_raw_buttons self) self)
      by (by destruct self).
    destruct (process_raw_input_cases enabled self lParam)
      as [H|(ri & _ & _ & _ & H)]; rewrite H.
    - cbn. eauto.
    - destruct (check_raw_cases enabled self (ri_hDevice ri) (ri_ulRawButtons ri))
        as [Hc|[(_ & _ & _ & Hs & _)|(_ & _ & _ & Hs & _)]].
      + rewrite Hc. cbn. eauto.
      + destruct (_check_raw_mouse_gesture _ _ _ _) as [[s eff] r].
        cbn [fst snd] in Hs. subst s.
        destruct r as [|e]; [|destruct (isinstance_Exception e)]; cbn; eauto.
      + destruct (_check_raw_mouse_gesture _ _ _ _) as [[s eff] r].
        cbn [fst snd] in Hs. subst s.
        destruct r as [|e]; [|destruct (isinstance_Exception e)]; cbn; eauto.
  Qed.

  (** ** Accumulated scroll is never stranded *)

  (** X4. Once the hidden window exists, the hook never holds inverted
      scroll in an accumulator without a flush message on its way:
      "posted flag clear implies accumulator zero" holds on both axes
      after every call of the filter callback and after every message
      the window procedure handles, if it held before; neither of them
      changes the window handle. *)
Theorem flush_request_kept (enabled : bool) (self : State) :
    truthy (_ri_hwnd self) = true ->
    flush_requested self ->
    (forall nCode wParam d flags,
        let self' := (_low_level_handler enabled self nCode wParam d flags).1.1 in
        flush_requested self' /\ _ri_hwnd self' = _ri_hwnd self)
    /\ (forall msg lParam,
        let self' := (_ri_wndproc enabled self msg lParam).1.1 in
        flush_requested self' /\ _ri_hwnd self' = _ri_hwnd self).
  Proof.
    intros Hwnd [Hv Hh]. split.
    - intros nCode wParam d flags. cbv zeta.
      split; [|apply handler_window].
      destruct (handler_cases enabled self nCode wParam d flags)
        as [H|[H|[(ev & _ & _ & _ & H)|[(_ & _ & _ & H)|(_ & _ & _ & H)]]]];
        rewrite H; rewrite ?dab_state; try done.
      + rewrite Hwnd, andb_true_r.
        destruct (_vscroll_posted self) eqn:Hp; by split.
      + rewrite Hwnd, andb_true_r.
        destruct (_hscroll_posted self) eqn:Hp; by split.
    - intros msg lParam. cbv zeta.
      destruct (Z.eq_dec msg WM_INPUT) as [->|Hni].
      { destruct (wm_input_frame enabled self lParam) as (a & p & ->).
        by split. }
      unfold _ri_wndproc. rewrite (proj2 (Z.eqb_neq _ _) Hni).
      destruct (msg =? WM_APP_INJECT_VSCROLL); [by split|].
      destruct (msg =? WM_APP_INJECT_HSCROLL); by split.
  Qed.

Lemma flush_request_kept_witness :
    let self' :=
      (_low_level_handler true Scenario.inverting_hook HC_ACTION
                          WM_MOUSEWHEEL 0x00780000 0).1.1 in
    truthy (_ri_hwnd Scenario.inverting_hook) = true
    /\ flush_requested Scenario.inverting_hook
    /\ flush_requested self'
    /\ _pending_vscroll self' = -120.
  Proof.
    cbv zeta.
    assert (Hinv : flush_requested Scenario.inverting_hook) by (by split).
    destruct (flush_request_kept true Scenario.inverting_hook eq_refl Hinv)
      as [Hhook _].
    destruct (Hhook HC_ACTION WM_MOUSEWHEEL 0x00780000 0) as [Hkept _].
    split; [reflexivity|]. split; [exact Hinv|]. split; [exact Hkept|].
    reflexivity.
  Defined.

  (** ** Bursts of hook calls *)

Lemma hook_calls_window enabled self calls :
    _ri_hwnd (hook_calls enabled self calls).1.1 = _ri_hwnd self.
  Proof.
    revert self. induction calls as [|c rest IH]; intros self; [done|].
    cbn [hook_calls].
    pose proof (handler_window enabled self (hc_nCode c) (hc_wParam c)
                  (hc_mouseData c) (hc_flags c)) as Hw.
    destruct (_low_level_handler enabled self _ _ _ _) as [[s1 eff] r].
    specialize (IH s1).
    destruct (hook_calls enabled s1 rest) as [[s2 eff'] rs].
    cbn [fst snd] in *. congruence.
  Qed.

  (** X5. Without the hidden window ([_ri_hwnd] unset or null) no call
      of the filter callback posts a flush message, however many events
      arrive and whatever they are. *)
Theorem no_window_no_post
      (enabled : bool) (self : State) (calls : list HookCall) :
    truthy (_ri_hwnd self) = false ->
    posted_messages (hook_calls enabled self calls).1.2 = [].
  Proof.
    revert self. induction calls as [|c rest IH]; intros self Hwnd; [done|].
    cbn [hook_calls].
    pose proof (handler_window enabled self (hc_nCode c) (hc_wParam c)
                  (hc_mouseData c) (hc_flags c)) as Hw.
    pose proof (handler_posted enabled self (hc_nCode c) (hc_wParam c)
                  (hc_mouseData c) (hc_flags c)) as Hp.
    destruct (_low_level_handler enabled self _ _ _ _) as [[s1 eff] r].
    cbn [fst snd] in *.
    assert (Hwnd1 : truthy (_ri_hwnd s1) = false) by (by rewrite Hw).
    specialize (IH s1 Hwnd1).
    destruct (hook_calls enabled s1 rest) as [[s2 eff'] rs].
    cbn [fst snd] in *. rewrite posted_app, IH.
    destruct Hp as [->|[Htrue _]]; [done|congruence].
  Qed.

Lemma no_window_no_post_witness :
    let self := with_invert true false MouseHook.__init__ in
    let burst := hook_calls true self Scenario.ticks_3_m5_1 in
    truthy (_ri_hwnd self) = false
    /\ posted_messages burst.1.2 = []
    /\ burst.2 = [Return1; Return1; Return1]
    /\ _pending_vscroll burst.1.1 = 1.
  Proof.
    cbv zeta. split; [reflexivity|].
    split; [|split; reflexivity].
    exact (no_window_no_post true (with_invert true false MouseHook.__init__)
             Scenario.ticks_3_m5_1 eq_refl).
  Defined.

  (** A tilt-wheel event under horizontal inversion. *)
Lemma handler_hwheel_inverted enabled self d flags :
    Z.land flags INJECTED_FLAG = 0 ->
    invert_hscroll self = true ->
    hiword d <> 0 ->
    _low_level_handler enabled self HC_ACTION WM_MOUSEHWHEEL d flags
    = let dbg := debug_report self WM_MOUSEHWHEEL d flags in
      let pending := _pending_hscroll self + - hiword d in
      if negb (_hscroll_posted self) && truthy (_ri_hwnd self) then
        (with_hscroll pending true self,
         dbg ++ [PostMessageW WM_APP_INJECT_HSCROLL], Return1)
      else (with_hscroll pending (_hscroll_posted self) self, dbg, Return1).
  Proof.
    intros Hflags Hinv Hnz. unfold _low_level_handler. rewrite Hflags.
    change (HC_ACTION =? HC_ACTION) with true. cbv iota zeta.
    change (negb (0 =? 0)) with false. cbv iota.
    change (WM_MOUSEHWHEEL =? WM_XBUTTONDOWN) with false.
    change (WM_MOUSEHWHEEL =? WM_XBUTTONUP) with false.
    change (WM_MOUSEHWHEEL =? WM_MBUTTONDOWN) with false.
    change (WM_MOUSEHWHEEL =? WM_MBUTTONUP) with false.
    change (WM_MOUSEHWHEEL =? WM_MOUSEWHEEL) with false.
    change (WM_MOUSEHWHEEL =? WM_MOUSEHWHEEL) with true. cbv iota.
    rewrite Hinv. rewrite (proj2 (Z.eqb_neq _ _) Hnz). reflexivity.
  Qed.

Lemma tilt_burst enabled self calls :
    invert_hscroll self = true ->
    truthy (_ri_hwnd self) = true ->
    Forall tilt_tick calls ->
    let burst := hook_calls enabled self calls in
    burst.2 = replicate (length calls) Return1
    /\ dispatched burst.1.2 = []
    /\ _pending_hscroll burst.1.1 = _pending_hscroll self - total_delta calls
    /\ _hscroll_posted burst.1.1
       = match calls with [] => _hscroll_posted self | _ => true end
    /\ posted_messages burst.1.2
       = match calls with
         | [] => []
         | _ => if _hscroll_posted self then [] else [WM_APP_INJECT_HSCROLL]
         end.
  Proof.
    intros Hinv Hwnd Hall. revert self Hinv Hwnd.
    induction Hall as [|c rest (Hn & Hw & Hf & Hnz) _ IH];
      intros self Hinv Hwnd; cbv zeta.
    { cbn. repeat split; lia. }
    cbn [hook_calls]. rewrite Hn, Hw.
    rewrite (handler_hwheel_inverted enabled self _ _ Hf Hinv Hnz). cbv zeta.
    rewrite Hwnd, andb_true_r.
    pose proof (debug_report_trace self WM_MOUSEHWHEEL (hc_mouseData c)
                  (hc_flags c)) as (Hd & Hp & _).
    set (dbg := debug_report self WM_MOUSEHWHEEL (hc_mouseData c) (hc_flags c))
      in *.
    set (pending := _pending_hscroll self + - hiword (hc_mouseData c)).
    assert (Hstep : forall eff : list Effect,
              dispatched eff = [] ->
              let burst :=
                let '(self2, eff', rs) :=
                  hook_calls enabled (with_hscroll pending true self) rest in
                (self2, eff ++ eff', Return1 :: rs) in
              burst.2 = replicate (length (c :: rest)) Return1
              /\ dispatched burst.1.2 = []
              /\ _pending_hscroll burst.1.1
                 = _pending_hscroll self - total_delta (c :: rest)
              /\ _hscroll_posted burst.1.1 = true
              /\ posted_messages burst.1.2 = posted_messages eff).
    { intros eff Heff. cbv zeta.
      destruct (IH (with_hscroll pending true self) Hinv Hwnd)
        as (Hr & Hdis & Hpend & Hposted & Hmsgs).
      destruct (hook_calls enabled (with_hscroll pending true self) rest)
        as [[s2 eff'] rs].
      cbn [fst snd] in *. cbn [_pending_hscroll _hscroll_posted with_hscroll]
        in Hpend, Hposted, Hmsgs.
      split; [cbn; by rewrite Hr|]. split; [by rewrite dispatched_app, Heff, Hdis|].
      split.
      { rewrite Hpend.
        change (total_delta (c :: rest))
          with (hiword (hc_mouseData c) + total_delta rest).
        unfold pending. lia. }
      split; [by destruct rest|].
      rewrite posted_app, Hmsgs. destruct rest; by rewrite app_nil_r. }
    destruct (_hscroll_posted self) eqn:Hposted; cbn [negb].
    - destruct (Hstep dbg Hd) as (H1 & H2 & H3 & H4 & H5).
      repeat split; try done. by rewrite H5.
    - destruct (Hstep (dbg ++ [PostMessageW WM_APP_INJECT_HSCROLL]))
        as (H1 & H2 & H3 & H4 & H5).
      { by rewrite dispatched_app, Hd. }
      repeat split; try done. rewrite H5, posted_app, Hp. done.
  Qed.

  (** X6. Coalescing on the horizontal axis.  With horizontal inversion
      on, the hidden window present, nothing accumulated and nothing
      queued, any non-empty burst of tilt-wheel ticks with non-zero
      deltas is swallowed tick by tick, dispatches nothing and queues
      exactly one flush message; handling that message injects one
      horizontal wheel event carrying minus the sum of the deltas (none
      when the sum is zero), and leaves the accumulator at zero with the
      posted flag clear. *)
Theorem inverted_tilt_burst_coalesced
      (enabled : bool) (self : State) (calls : list HookCall) :
    invert_hscroll self = true ->
    truthy (_ri_hwnd self) = true ->
    _pending_hscroll self = 0 ->
    _hscroll_posted self = false ->
    calls <> [] ->
    Forall tilt_tick calls ->
    let burst := hook_calls enabled self calls in
    let flushed := pump enabled burst.1.1 (posted_messages burst.1.2) in
    burst.2 = replicate (length calls) Return1
    /\ dispatched burst.1.2 = []
    /\ posted_messages burst.1.2 = [WM_APP_INJECT_HSCROLL]
    /\ injected_scrolls flushed.2
       = (if total_delta calls =? 0 then []
          else [(MOUSEEVENTF_HWHEEL, - total_delta calls)])
    /\ _pending_hscroll flushed.1 = 0
    /\ _hscroll_posted flushed.1 = false.
  Proof.
    intros Hinv Hwnd Hzero Hposted Hne Hall. cbv zeta.
    destruct (tilt_burst enabled self calls Hinv Hwnd Hall)
      as (Hr & Hd & Hpend & _ & Hmsgs).
    rewrite Hposted in Hmsgs. rewrite Hzero in Hpend.
    destruct calls as [|c rest]; [done|].
    rewrite Hmsgs. split; [done|]. split; [done|]. split; [done|].
    unfold pump, _ri_wndproc.
    change (WM_APP_INJECT_HSCROLL =? WM_INPUT) with false.
    change (WM_APP_INJECT_HSCROLL =? WM_APP_INJECT_VSCROLL) with false.
    change (WM_APP_INJECT_HSCROLL =? WM_APP_INJECT_HSCROLL) with true.
    cbv iota. cbn [fst snd]. rewrite Hpend.
    replace (0 - total_delta (c :: rest)) with (- total_delta (c :: rest)) by lia.
    split; [|by split].
    rewrite app_nil_r.
    destruct (Z.eqb_spec (total_delta (c :: rest)) 0) as [Hz|Hnz].
    - rewrite Hz. done.
    - destruct (Z.eqb_spec (- total_delta (c :: rest)) 0); [lia|done].
  Qed.

Lemma inverted_tilt_burst_coalesced_witness :
    let self := with_invert false true Scenario.inverting_hook in
    let calls := [ mkHookCall HC_ACTION WM_MOUSEHWHEEL 0x00780000 0;
                   mkHookCall HC_ACTION WM_MOUSEHWHEEL 0xFF100000 0 ] in
    let burst := hook_calls true self calls in
    Forall tilt_tick calls
    /\ posted_messages burst.1.2 = [WM_APP_INJECT_HSCROLL]
    /\ injected_scrolls
         (pump true burst.1.1 (posted_messages burst.1.2)).2
       = [(MOUSEEVENTF_HWHEEL, 120)].
  Proof.
    cbv zeta.
    assert (Hall : Forall tilt_tick
                     [ mkHookCall HC_ACTION WM_MOUSEHWHEEL 0x00780000 0;
                       mkHookCall HC_ACTION WM_MOUSEHWHEEL 0xFF100000 0 ]).
    { apply Forall_cons_2; [|apply Forall_cons_2; [|apply Forall_nil_2]];
        (repeat split; try reflexivity; vm_compute; discriminate). }
    split; [exact Hall|].
    destruct (inverted_tilt_burst_coalesced true
                (with_invert false true Scenario.inverting_hook)
                [ mkHookCall HC_ACTION WM_MOUSEHWHEEL 0x00780000 0;
                  mkHookCall HC_ACTION WM_MOUSEHWHEEL 0xFF100000 0 ]
                eq_refl eq_refl eq_refl eq_refl ltac:(discriminate) Hall)
      as (_ & _ & Hq & Hinj & _).
    split; [exact Hq|exact Hinj].
  Defined.

  (** ** One gesture button, two detection paths *)

Lemma gesture_input_step enabled self i :
    let out := gesture_input enabled self i in
    (dispatched out.2 = [] /\ _gesture_active out.1 = _gesture_active self)
    \/ (_gesture_active self = false /\ _gesture_active out.1 = true
        /\ dispatched out.2 = [mkMouseEvent GESTURE_DOWN None])
    \/ (_gesture_active self = true /\ _gesture_active out.1 = false
        /\ dispatched out.2 = [mkMouseEvent GESTURE_UP None]).
  Proof.
    cbv zeta. destruct i as [| |lParam]; cbn [gesture_input].
    - unfold _on_hid_gesture_down.
      destruct (_gesture_active self) eqn:Hact; cbn [negb]; [by left|].
      right; left.
      pose proof (dispatch_dispatched enabled
                    (with_gesture true (_prev_raw_buttons self) self)
                    (mkMouseEvent GESTURE_DOWN None)) as Hd.
      destruct (_dispatch enabled _ _) as [eff r]. by cbn in *.
    - unfold _on_hid_gesture_up.
      destruct (_gesture_active self) eqn:Hact; [|by left].
      right; right.
      pose proof (dispatch_dispatched enabled
                    (with_gesture false (_prev_raw_buttons self) self)
                    (mkMouseEvent GESTURE_UP None)) as Hd.
      destruct (_dispatch enabled _ _) as [eff r]. by cbn in *.
    - unfold _ri_wndproc.
      change (WM_INPUT =? WM_INPUT) with true. cbv iota.
      assert (Hwrap : forall out : State * list Effect * CallResult,
                let w := (let '(self1, eff, r) := out in
                          match r with
                          | Returned => (self1, eff, Return0)
                          | Raised e =>
                              if isinstance_Exception e
                              then (self1,
                                    eff ++ [Print "[MouseHook] Raw Input error"],
                                    Return0)
                              else (self1, eff, WndRaised e)
                          end) in
                w.1.1 = out.1.1 /\ dispatched w.1.2 = dispatched out.1.2).
      { intros [[s eff] r]. cbv zeta.
        destruct r as [|e]; [|destruct (isinstance_Exception e)]; cbn [fst snd];
          rewrite ?dispatched_app; cbn; rewrite ?app_nil_r; done. }
      destruct (Hwrap (_process_raw_input enabled self lParam)) as [-> ->].
      destruct (process_raw_input_cases enabled self lParam)
        as [H|(ri & _ & _ & _ & H)]; rewrite H; [by left|].
      destruct (check_raw_cases enabled self (ri_hDevice ri) (ri_ulRawButtons ri))
        as [Hc|[(Ha & _ & _ & Hs & Hd)|(Ha & _ & _ & Hs & Hd)]].
      + rewrite Hc. by left.
      + right; left. by rewrite Hs, Hd.
      + right; right. by rewrite Hs, Hd.
  Qed.

  (** X7. The press and release events of the gesture button are never
      doubled, whichever path reports them.  For any interleaving of
      calls from the HID++ listener and raw-input messages, the gesture
      events dispatched alternate between [gesture_down] and
      [gesture_up], starting with a press when the button was not held
      and with a release when it was; the flag afterwards is flipped once
      per dispatched event. *)
Theorem gesture_events_alternate
      (enabled : bool) (self : State) (inputs : list GestureInput) :
    let out := gesture_inputs enabled self inputs in
    let kinds := event_type <$> dispatched out.2 in
    alternates (_gesture_active self) kinds
    /\ _gesture_active out.1
       = (if Nat.even (length kinds)
          then _gesture_active self else negb (_gesture_active self)).
  Proof.
    cbv zeta. revert self.
    induction inputs as [|i rest IH]; intros self; [done|].
    cbn [gesture_inputs].
    pose proof (gesture_input_step enabled self i) as Hstep.
    destruct (gesture_input enabled self i) as [s1 eff]. cbn [fst snd] in Hstep.
    specialize (IH s1).
    destruct (gesture_inputs enabled s1 rest) as [s2 eff']. cbn [fst snd] in *.
    rewrite dispatched_app, fmap_app, length_app.
    destruct IH as [IHalt IHflag].
    destruct Hstep as [[Hd Ha]|[(Ha & Ha1 & Hd)|(Ha & Ha1 & Hd)]];
      rewrite Hd; cbn [fmap list_fmap app length Nat.add].
    - by rewrite <- Ha.
    - rewrite Ha. rewrite Ha1 in IHalt, IHflag. cbn [negb] in *.
      split; [by split|].
      rewrite IHflag. rewrite Nat.even_succ, <- Nat.negb_even.
      by destruct (Nat.even _).
    - rewrite Ha. rewrite Ha1 in IHalt, IHflag. cbn [negb] in *.
      split; [by split|].
      rewrite IHflag. rewrite Nat.even_succ, <- Nat.negb_even.
      by destruct (Nat.even _).
  Qed.

Lemma standard_bits_masked b :
    0 <= b < 32 -> Z.land b (Z.lnot STANDARD_BUTTON_MASK) = 0.
  Proof.
    intros Hb. rewrite <- Z.ldiff_land.
    change STANDARD_BUTTON_MASK with (Z.ones 5).
    destruct (Z.eq_dec b 0) as [->|Hnz]; [done|].
    apply Z.ldiff_ones_r_low; [lia|].
    apply Z.log2_lt_pow2; lia.
  Qed.

  (** X8. Raw-input records that only ever show the five standard
      buttons (bits 0 to 4 of [ulRawButtons]) never produce a gesture
      event: no event is dispatched, the gesture flag keeps its value and
      the window procedure returns 0. *)
Theorem standard_buttons_never_gesture
      (enabled : bool) (self : State) (ri : RawInput) :
    0 <= ri_ulRawButtons ri < 32 ->
    0 <= default 0 (_prev_raw_buttons self !! ri_hDevice ri) < 32 ->
    let out := _ri_wndproc enabled self WM_INPUT (Some ri) in
    dispatched out.1.2 = []
    /\ _gesture_active out.1.1 = _gesture_active self
    /\ out.2 = Return0.
  Proof.
    intros Hnow Hprev. cbv zeta. unfold _ri_wndproc.
    change (WM_INPUT =? WM_INPUT) with true. cbv iota.
    destruct (process_raw_input_cases enabled self (Some ri))
      as [H|(ri' & [= <-] & _ & _ & H)]; rewrite H; [done|].
    unfold _check_raw_mouse_gesture. cbv zeta.
    rewrite (standard_bits_masked _ Hnow), (standard_bits_masked _ Hprev).
    done.
  Qed.

Lemma standard_buttons_never_gesture_witness :
    let ri := mkRawInput true RIM_TYPEMOUSE 0x10043 0x10 in
    let out := _ri_wndproc true MouseHook.__init__ WM_INPUT (Some ri) in
    0 <= ri_ulRawButtons ri < 32
    /\ dispatched out.1.2 = []
    /\ _prev_raw_buttons out.1.1 !! 0x10043 = Some 0x10.
  Proof.
    cbv zeta. split; [done|].
    destruct (standard_buttons_never_gesture true MouseHook.__init__
                (mkRawInput true RIM_TYPEMOUSE 0x10043 0x10))
      as (Hd & _ & _); [done|done|].
    split; [exact Hd|reflexivity].
  Defined.

  (** ** An engine that is switched off *)

Lemma call_disabled cb ev :
    executed (fst (call false cb ev)) = []
    /\ snd (call false cb ev) = snd (call true cb ev).
  Proof. by destruct cb. Qed.

Lemma call_each_disabled cbs ev :
    executed (fst (call_each false cbs ev)) = []
    /\ snd (call_each false cbs ev) = snd (call_each true cbs ev)
    /\ dispatched (fst (call_each false cbs ev))
       = dispatched (fst (call_each true cbs ev)).
  Proof.
    split; [|split; [|by rewrite !call_each_dispatched]].
    - induction cbs as [|cb rest IH]; [done|]. cbn [call_each].
      pose proof (call_disabled cb ev) as [He _].
      destruct (call false cb ev) as [eff r].
      destruct (call_each false rest ev) as [eff' r']. cbn [fst snd] in *.
      destruct r as [|e]; [|destruct (isinstance_Exception e)]; cbn [fst];
        change (executed (?x :: ?l)) with (executed ([x] ++ l));
        rewrite ?executed_app, ?He; cbn; rewrite ?executed_app, ?He, ?IH;
        try done.
    - induction cbs as [|cb rest IH]; [done|]. cbn [call_each].
      pose proof (call_disabled cb ev) as [_ Hr].
      destruct (call false cb ev) as [eff r].
      destruct (call true cb ev) as [efft rt].
      destruct (call_each false rest ev) as [eff' r'].
      destruct (call_each true rest ev) as [efft' rt']. cbn [fst snd] in *.
      subst rt r'.
      destruct r as [|e]; [|destruct (isinstance_Exception e)]; done.
  Qed.

Lemma dab_disabled self dbg ev b :
    let off := dispatch_and_block false self dbg ev b in
    let on := dispatch_and_block true self dbg ev b in
    (executed dbg = [] -> executed off.1.2 = [])
    /\ off.2 = on.2 /\ off.1.1 = on.1.1
    /\ dispatched off.1.2 = dispatched on.1.2.
  Proof.
    cbv zeta. unfold dispatch_and_block. destruct ev as [ev|]; [|done].
    unfold _dispatch.
    pose proof (call_each_disabled
                  (default [] (_callbacks self !! event_type ev)) ev)
      as (He & Hr & Hd).
    destruct (call_each false _ ev) as [eff r].
    destruct (call_each true _ ev) as [efft rt]. cbn [fst snd] in *.
    subst rt.
    assert (Hdc : forall l, dispatched (Dispatch ev :: l) = ev :: dispatched l)
      by done.
    assert (Hec : forall l, executed (Dispatch ev :: l) = executed l) by done.
    destruct r as [|e]; cbn [fst snd];
      rewrite !dispatched_app, !executed_app, !Hdc, !Hec, Hd, He;
      repeat split; try done; intros ->; done.
  Qed.

  (** X9. Switching the engine off ([set_enabled(False)]) silences the
      handlers the engine registered but changes nothing else: with the
      flag clear no call of the filter callback runs an action, while its
      verdict, the events it dispatches and the state it leaves are
      those of the enabled engine, so blocked buttons stay swallowed. *)
Theorem disabled_engine_runs_no_action
      (self : State) (nCode wParam d flags : Z) :
    let off := _low_level_handler false self nCode wParam d flags in
    let on := _low_level_handler true self nCode wParam d flags in
    executed off.1.2 = []
    /\ off.2 = on.2 /\ off.1.1 = on.1.1
    /\ dispatched off.1.2 = dispatched on.1.2.
  Proof.
    cbv zeta. unfold _low_level_handler. cbv zeta.
    pose proof (debug_report_quiet self wParam d flags) as (_ & He).
    set (dbg := debug_report self wParam d flags) in *.
    assert (Hpost : forall m, executed (dbg ++ [PostMessageW m]) = []).
    { intros m. by rewrite executed_app, He. }
    assert (Hdab : forall ev b,
              let off := dispatch_and_block false self dbg ev b in
              let on := dispatch_and_block true self dbg ev b in
              executed off.1.2 = []
              /\ off.2 = on.2 /\ off.1.1 = on.1.1
              /\ dispatched off.1.2 = dispatched on.1.2).
    { intros ev b.
      destruct (dab_disabled self dbg ev b) as (H1 & H2 & H3 & H4).
      cbv zeta. auto. }
    destruct (nCode =? HC_ACTION); [|done].
    destruct (negb (Z.land flags INJECTED_FLAG =? 0)); [done|].
    destruct (wParam =? WM_XBUTTONDOWN).
    { destruct (hiword d =? XBUTTON1); [apply Hdab|].
      destruct (hiword d =? XBUTTON2); apply Hdab. }
    destruct (wParam =? WM_XBUTTONUP).
    { destruct (hiword d =? XBUTTON1); [apply Hdab|].
      destruct (hiword d =? XBUTTON2); apply Hdab. }
    destruct (wParam =? WM_MBUTTONDOWN); [apply Hdab|].
    destruct (wParam =? WM_MBUTTONUP); [apply Hdab|].
    destruct (wParam =? WM_MOUSEWHEEL).
    { destruct (invert_vscroll self); [|apply Hdab].
      destruct (negb (hiword d =? 0)); [|apply Hdab].
      destruct (negb (_vscroll_posted self) && truthy (_ri_hwnd self));
        cbn [fst snd]; rewrite ?Hpost; done. }
    destruct (wParam =? WM_MOUSEHWHEEL); [|apply Hdab].
    destruct (invert_hscroll self && negb (hiword d =? 0)).
    { destruct (negb (_hscroll_posted self) && truthy (_ri_hwnd self));
        cbn [fst snd]; rewrite ?Hpost; done. }
    destruct (hiword d >? 0); [apply Hdab|].
    destruct (hiword d <? 0); apply Hdab.
  Qed.

End HookFacts.


(* ===================================================================== *)
(** * Properties of the HID++ protocol client *)
(* ===================================================================== *)

Module HidFacts.
  Import HidGesture.

  (** ** Byte arithmetic *)

Lemma byte_pair_value (hi lo : Z) :
    Spec.is_byte lo -> Z.lor (Z.shiftl hi 8) lo = 256 * hi + lo.
  Proof.
    intros Hlo. rewrite Z.shiftl_mul_pow2 by lia.
    rewrite <- Z.lxor_lor, <- Z.add_nocarry_lxor; try lia.
    all: apply Z.bits_inj'; intros n Hn;
      rewrite Z.land_spec, Z.bits_0;
      destruct (Z.lt_ge_cases n 8) as [Hlt|Hge].
    all: try (rewrite Z.mul_pow2_bits_low by lia; reflexivity).
    all: replace (Z.testbit lo n) with false;
      [apply andb_false_r|].
    all: symmetry; apply (Z.bits_above_log2 lo n); [unfold Spec.is_byte in *; lia|].
    all: destruct (Z.eq_dec lo 0) as [->|Hnz]; [simpl; lia|].
    all: apply Z.log2_lt_pow2; unfold Spec.is_byte in *; try lia.
    all: apply Z.lt_le_trans with (2^8); [lia|];
      apply Z.pow_le_mono_r; lia.
  Qed.

Lemma split_16 (v : Z) :
    0 <= v < 2^16 ->
    Z.lor (Z.shiftl (Z.land (Z.shiftr v 8) 0xFF) 8) (Z.land v 0xFF) = v.
  Proof.
    intros Hv.
    change 0xFF with (Z.ones 8). rewrite !Z.land_ones by lia.
    rewrite Z.shiftr_div_pow2 by lia.
    rewrite byte_pair_value.
    - rewrite (Z.mod_small (v / 2^8)).
      + pose proof (Z.div_mod v (2^8) ltac:(lia)). lia.
      + split; [apply Z.div_pos; lia | apply Z.div_lt_upper_bound; lia].
    - pose proof (Z.mod_pos_bound v (2^8) ltac:(lia)). unfold Spec.is_byte. lia.
  Qed.

  (** ** Decoding the control-id list *)

  (** Induction over a list two elements at a time. *)
Lemma pair_induction {A} (P : list A -> Prop) :
    P [] -> (forall a, P [a]) ->
    (forall a b rest, P rest -> P (a :: b :: rest)) ->
    forall l, P l.
  Proof.
    intros Hnil Hone Hstep.
    assert (H : forall l, P l /\ forall a, P (a :: l)).
    { induction l as [|x l [IH1 IH2]]; split; auto. }
    intros l. apply H.
  Qed.

Lemma parse_cids_big_endian params :
    Forall Spec.is_byte params ->
    parse_cids params = Spec.control_ids_big_endian params.
  Proof.
    unfold Spec.control_ids_big_endian.
    induction params as [| a | a b rest IH] using pair_induction;
      intros Hb; [done..|].
    inversion Hb as [|? ? Ha Hb']; subst.
    inversion Hb' as [|? ? Hb0 Hrest]; subst.
    simpl. unfold Spec.big_endian16 at 1. simpl.
    rewrite byte_pair_value by done.
    destruct (256 * a + b =? 0); [done|]. by rewrite IH.
  Qed.

  (** The report [00 C3 00 00 ...] carries the gesture control id when
      the first byte of a pair is the high-order one; read with the first
      byte as the low-order one it would carry 0xC300. *)
Lemma parse_cids_not_little_endian :
    Forall Spec.is_byte [0x00; 0xC3; 0x00; 0x00]
    /\ parse_cids [0x00; 0xC3; 0x00; 0x00]
       <> Spec.control_ids_little_endian [0x00; 0xC3; 0x00; 0x00].
  Proof.
    split; [repeat constructor; unfold Spec.is_byte; lia|].
    vm_compute. discriminate.
  Qed.

  (** C4 (amended). For a notification report of function 0 on the
      discovered control feature, the parameter bytes are decoded as
      big-endian 16-bit control identifiers ended by a zero sentinel: in
      each byte pair the first byte is the high-order byte, decoding
      stops at the first 0x0000 pair (or when fewer than two bytes are
      left), and the gesture control counts as present exactly when
      0x00C3 is among the identifiers decoded this way. *)
Theorem notification_ids_big_endian
      (self : State) (hook : MouseHook.State) (raw : list Z) (msg : Msg) :
    _parse raw = Some msg ->
    Some (m_feat msg) = _feat_idx self ->
    m_func msg = 0 ->
    Forall Spec.is_byte (m_params msg) ->
    parse_cids (m_params msg) = Spec.control_ids_big_endian (m_params msg)
    /\ (forall c, c ∈ cids (m_params msg)
                  <-> c ∈ Spec.control_ids_big_endian (m_params msg))
    /\ (_held (_on_report self hook raw).1.1.1 = true
        <-> CID_GESTURE ∈ Spec.control_ids_big_endian (m_params msg)).
  Proof.
    intros Hparse Hfeat Hfunc Hbytes.
    pose proof (parse_cids_big_endian _ Hbytes) as Heq.
    split; [exact Heq|]. split.
    - intros c. unfold cids. rewrite elem_of_list_to_set. by rewrite Heq.
    - unfold _on_report. rewrite Hparse, Hfunc.
      rewrite (bool_decide_eq_true_2 _ Hfeat). simpl.
      unfold cids. rewrite <- Heq.
      destruct (bool_decide_reflect
                  (CID_GESTURE ∈ (list_to_set (parse_cids (m_params msg)) : gset Z)))
        as [Hin|Hnin]; rewrite elem_of_list_to_set in *; simpl.
      + destruct (_held self) eqn:Hheld; simpl.
        * by rewrite Hheld.
        * destruct (call_guarded _ _ _) as [[h1 eff] r]. simpl. done.
      + destruct (_held self) eqn:Hheld; simpl.
        * destruct (call_guarded _ _ _) as [[h1 eff] r]. simpl.
          split; [done|]. intros; contradiction.
        * rewrite Hheld. split; [done|]. intros; contradiction.
  Qed.

Lemma notification_ids_big_endian_witness :
    parse_cids (drop 4 Scenario.gesture_pressed) = [0xC3]
    /\ _held (_on_report Scenario.connected MouseHook.__init__
                         Scenario.gesture_pressed).1.1.1 = true.
  Proof.
    destruct (notification_ids_big_endian
                Scenario.connected MouseHook.__init__ Scenario.gesture_pressed
                (mkMsg 0xFF 9 0 0 (drop 4 Scenario.gesture_pressed)))
      as (H1 & _ & H3); try reflexivity.
    - vm_compute. repeat constructor; discriminate.
    - split; [etransitivity; [exact H1 | reflexivity]|].
      apply H3. vm_compute. repeat constructor.
  Defined.

  (** ** DPI requests *)

Lemma writes_app e1 e2 : writes (e1 ++ e2) = writes e1 ++ writes e2.
  Proof. apply omap_app. Qed.

Lemma request_loop_writes self feat rs :
    writes (_request_loop self feat rs).1 = [].
  Proof.
    induction rs as [|r rest IH]; simpl; [done|].
    destruct (_rx self r) as [raw|]; [|done].
    destruct (_parse raw) as [msg|]; [|done].
    destruct (m_feat msg =? 255); [done|].
    by destruct ((m_feat msg =? feat) && (m_sw msg =? MY_SW)).
  Qed.

  (** What the listener thread writes for a queued [set_dpi(v)]: one
      "set sensor DPI" report carrying [max(200, min(8200, v))]. *)
Lemma set_dpi_sends_clamped self io v dpi_idx handle :
    _dev self = Some handle ->
    _dpi_idx self = Some dpi_idx ->
    write_ok io = true ->
    dpi_of_report <$> writes (_apply_pending_dpi (set_dpi self v) io).2
    = [Z.max 200 (Z.min 8200 v)].
  Proof.
    intros Hdev Hidx Hok.
    unfold _apply_pending_dpi, set_dpi. simpl. rewrite Hidx, Hdev.
    unfold _request, _tx. simpl. rewrite Hdev, Hok.
    pose proof (request_loop_writes
                  (with_dpi (Some (PendingSet (Z.max 200 (Z.min 8200 v))))
                            ResultNone self)
                  dpi_idx (reads io)) as Hw.
    destruct (_request_loop _ _ _) as [eff resp]. simpl in Hw.
    assert (Hdpi : Z.lor (Z.shiftl (Z.land (Z.shiftr (Z.max 200 (Z.min 8200 v)) 8)
                                           255) 8)
                         (Z.land (Z.max 200 (Z.min 8200 v)) 255)
                   = Z.max 200 (Z.min 8200 v)).
    { apply split_16. lia. }
    destruct resp; simpl; rewrite !writes_app, Hw; simpl;
      unfold dpi_of_report; simpl;
      rewrite <- !Z.land_assoc; change (Z.land 255 255) with 255;
      by rewrite Hdpi.
  Qed.

  (** C2 (code bug). [set_dpi(8100)] queues 8100 and the listener thread
      writes a "set sensor DPI" report carrying 8100, although the claimed
      clamp to [200, 8000] gives 8000: the upper bound in the code is
      8200. *)
Theorem set_dpi_8100_sends_8100 :
    let self := set_dpi Scenario.connected 8100 in
    _pending_dpi self = Some (PendingSet 8100)
    /\ dpi_of_report
         <$> writes (listen_iteration self MouseHook.__init__
                       (Scenario.replying [Scenario.dpi_8100_reply])
                       (ReadData [])).1.2
       = [8100]
    /\ Spec.clamp_200_8000 8100 = 8000.
  Proof. vm_compute. repeat split; reflexivity. Qed.

  (** ** The cleanup before reconnecting *)

Lemma cleanup_fields self ok :
    let self' := (_main_loop_cleanup self ok).1 in
    _dev self' = None /\ _feat_idx self' = None /\ _held self' = false
    /\ _dpi_idx self' = _dpi_idx self.
  Proof. done. Qed.

  (** C5 (code bug). The cleanup that runs when the listen loop ends
      closes the device, clears the reprogrammable-controls feature
      index and the held state, but leaves the DPI feature index of the
      lost connection in place. *)
Theorem cleanup_keeps_dpi_index :
    let self' := (_main_loop_cleanup Scenario.connected_held true).1 in
    _dpi_idx Scenario.connected_held = Some 7
    /\ _dev self' = None
    /\ _feat_idx self' = None
    /\ _held self' = false
    /\ _dpi_idx self' = Some 7.
  Proof. vm_compute. repeat split; reflexivity. Qed.

  (** ** Request/response matching *)

Lemma request_loop_passes_over self feat r rest :
    passed_over self feat r ->
    _request_loop self feat (r :: rest) = _request_loop self feat rest.
  Proof.
    intros [Hrx | raw Hrx Hp | raw msg Hrx Hp Herr Hmis]; simpl; rewrite Hrx;
      [done | by rewrite Hp |].
    rewrite Hp.
    destruct (Z.eqb_spec (m_feat msg) 255); [done|].
    destruct (Z.eqb_spec (m_feat msg) feat), (Z.eqb_spec (m_sw msg) MY_SW);
      simpl; try done.
    destruct Hmis; contradiction.
  Qed.

  (** How the loop of [_request] ends. *)
Inductive loop_end (self : State) (feat : Z) (rs : list ReadResult)
      (res : option Msg) : Prop :=
  | timed_out :
      Forall (passed_over self feat) rs -> res = None ->
      loop_end self feat rs res
  | error_report pre r post raw msg :
      rs = pre ++ r :: post -> Forall (passed_over self feat) pre ->
      _rx self r = Some raw -> _parse raw = Some msg ->
      m_feat msg = 0xFF -> res = None ->
      loop_end self feat rs res
  | matched pre r post raw msg :
      rs = pre ++ r :: post -> Forall (passed_over self feat) pre ->
      _rx self r = Some raw -> _parse raw = Some msg ->
      m_feat msg <> 0xFF -> m_feat msg = feat -> m_sw msg = MY_SW ->
      res = Some msg ->
      loop_end self feat rs res.

Lemma loop_end_cons self feat r rs res :
    passed_over self feat r ->
    loop_end self feat rs res -> loop_end self feat (r :: rs) res.
  Proof.
    intros Hr [Hall Hres
              | pre r' post raw msg -> Hpre Hrx Hp Hf Hres
              | pre r' post raw msg -> Hpre Hrx Hp Hne Hf Hsw Hres].
    - apply timed_out; [by constructor | done].
    - eapply (error_report _ _ _ _ (r :: pre)); eauto.
    - eapply (matched _ _ _ _ (r :: pre)); eauto.
  Qed.

Lemma request_loop_end self feat rs :
    loop_end self feat rs (_request_loop self feat rs).2.
  Proof.
    induction rs as [|r rest IH].
    - by apply timed_out.
    - destruct (_rx self r) as [raw|] eqn:Hrx.
      2:{ rewrite request_loop_passes_over by by apply no_data.
          apply loop_end_cons; [by apply no_data | done]. }
      destruct (_parse raw) as [msg|] eqn:Hp.
      2:{ rewrite request_loop_passes_over by by eapply malformed.
          apply loop_end_cons; [by eapply malformed | done]. }
      destruct (Z.eq_dec (m_feat msg) 255) as [Herr|Hne].
      { simpl. rewrite Hrx, Hp. rewrite (proj2 (Z.eqb_eq _ _) Herr).
        by eapply (error_report _ _ _ _ [] r rest raw msg). }
      destruct (Z.eq_dec (m_feat msg) feat) as [Hf|Hf];
        [destruct (Z.eq_dec (m_sw msg) MY_SW) as [Hsw|Hsw]|].
      + simpl. rewrite Hrx, Hp. rewrite (proj2 (Z.eqb_neq _ _) Hne).
        rewrite (proj2 (Z.eqb_eq _ _) Hf), (proj2 (Z.eqb_eq _ _) Hsw).
        by eapply (matched _ _ _ _ [] r rest raw msg).
      + rewrite request_loop_passes_over by (eapply unmatched; eauto).
        apply loop_end_cons; [eapply unmatched; eauto | done].
      + rewrite request_loop_passes_over by (eapply unmatched; eauto).
        apply loop_end_cons; [eapply unmatched; eauto | done].
  Qed.

  (** An error report (feature index 0xFF) is not a match for a request
      to feature 7, yet it ends the request: the reply that follows it is
      never looked at. *)
Lemma error_report_resolves_request :
    m_feat <$> _parse Scenario.error_report = Some 0xFF
    /\ 0xFF <> 7
    /\ (_request Scenario.connected
                 (Scenario.replying [Scenario.error_report;
                                     Scenario.dpi_8100_reply])
                 7 3 [0x00; 0x1F; 0xA4]).2 = None
    /\ (_request Scenario.connected
                 (Scenario.replying [Scenario.dpi_8100_reply])
                 7 3 [0x00; 0x1F; 0xA4]).2
       = _parse Scenario.dpi_8100_reply
    /\ _request_loop Scenario.connected 7
         (ReadData <$> [Scenario.error_report; Scenario.dpi_8100_reply])
       <> _request_loop Scenario.connected 7
            (ReadData <$> [Scenario.dpi_8100_reply]).
  Proof. vm_compute. repeat split; try reflexivity; discriminate. Qed.

  (** C3 (amended). While a request is pending, an inbound report that is
      not an error report (feature index 0xFF) and whose feature index
      differs from the request's or whose software tag differs from the
      caller's never resolves it: the loop goes on to the next read.  The
      request ends only when the write fails, on a report matching both
      feature index and tag, on an error report (as failed), or when the
      deadline passes (as failed). *)
Theorem request_resolution
      (self : State) (io : RequestIo) (feat func : Z) (params : list Z)
      (r : ReadResult) (raw : list Z) (msg : Msg) (rest : list ReadResult) :
    _rx self r = Some raw ->
    _parse raw = Some msg ->
    m_feat msg <> 0xFF ->
    m_feat msg <> feat \/ m_sw msg <> MY_SW ->
    _request_loop self feat (r :: rest) = _request_loop self feat rest
    /\ (( (_tx self (write_ok io) feat func params).2 <> Returned
          /\ (_request self io feat func params).2 = None )
        \/ loop_end self feat (reads io)
                    (_request self io feat func params).2).
  Proof.
    intros Hrx Hp Herr Hmis. split.
    - apply request_loop_passes_over. eapply unmatched; eauto.
    - unfold _request.
      destruct (_tx self (write_ok io) feat func params) as [eff [|e]]; simpl.
      + right. pose proof (request_loop_end self feat (reads io)) as H.
        destruct (_request_loop self feat (reads io)) as [eff' resp]. done.
      + left. done.
  Qed.

  (** A gesture notification arriving while a DPI request to feature 7
      is pending is passed over, and the reply after it is returned. *)
Lemma request_resolution_witness :
    (_request_loop Scenario.connected 7
       (ReadData <$> [Scenario.unrelated_report; Scenario.dpi_8100_reply])).2
    = _parse Scenario.dpi_8100_reply.
  Proof.
    assert (Herr : (9 : Z) <> 0xFF) by discriminate.
    assert (Hmis : (9 : Z) <> 7 \/ (0 : Z) <> MY_SW) by (left; discriminate).
    pose proof (request_resolution
                  Scenario.connected (Scenario.replying []) 7 3 []
                  (ReadData Scenario.unrelated_report)
                  Scenario.unrelated_report
                  (mkMsg 0xFF 9 0 0 (drop 4 Scenario.unrelated_report))
                  [ReadData Scenario.dpi_8100_reply]
                  eq_refl eq_refl Herr Hmis) as [H _].
    etransitivity; [exact (f_equal snd H) | reflexivity].
  Defined.

  (** ** Gesture edges *)

Lemma hook_effects_fmap (eff : list MouseHook.Effect) :
    hook_effects (Hook <$> eff) = eff.
  Proof. induction eff as [|e eff IH]; simpl; [done|]. f_equal. exact IH. Qed.

Lemma hook_effects_app e1 e2 :
    hook_effects (e1 ++ e2) = hook_effects e1 ++ hook_effects e2.
  Proof. apply omap_app. Qed.

Lemma gesture_events_app e1 e2 :
    gesture_events (e1 ++ e2) = gesture_events e1 ++ gesture_events e2.
  Proof.
    unfold gesture_events.
    by rewrite hook_effects_app, HookFacts.dispatched_app, fmap_app.
  Qed.

  Section Edges.
    Variable enabled : bool.

Lemma hid_gesture_down_fires hook :
      MouseHook._gesture_active hook = false ->
      Forall (MouseHook.raises_Exception_only enabled)
             (default [] (MouseHook._callbacks hook !! MouseHook.GESTURE_DOWN)) ->
      exists eff,
        MouseHook._on_hid_gesture_down enabled hook
        = (MouseHook.with_gesture true (MouseHook._prev_raw_buttons hook) hook,
           eff, Returned)
        /\ MouseHook.dispatched eff
           = [MouseHook.mkMouseEvent MouseHook.GESTURE_DOWN None].
    Proof.
      intros Hact Hwb. unfold MouseHook._on_hid_gesture_down. rewrite Hact. simpl.
      set (hook1 := MouseHook.with_gesture true _ hook).
      set (ev := MouseHook.mkMouseEvent MouseHook.GESTURE_DOWN None).
      pose proof (HookFacts.dispatch_dispatched enabled hook1 ev) as Hd.
      pose proof (HookFacts.dispatch_returns_kind enabled hook1 ev Hwb) as Hr.
      destruct (MouseHook._dispatch enabled hook1 ev) as [eff r]. simpl in *.
      subst r. by exists eff.
    Qed.

Lemma hid_gesture_up_fires hook :
      MouseHook._gesture_active hook = true ->
      exists eff r,
        MouseHook._on_hid_gesture_up enabled hook
        = (MouseHook.with_gesture false (MouseHook._prev_raw_buttons hook) hook,
           eff, r)
        /\ MouseHook.dispatched eff
           = [MouseHook.mkMouseEvent MouseHook.GESTURE_UP None].
    Proof.
      intros Hact. unfold MouseHook._on_hid_gesture_up. rewrite Hact.
      set (hook1 := MouseHook.with_gesture false _ hook).
      set (ev := MouseHook.mkMouseEvent MouseHook.GESTURE_UP None).
      pose proof (HookFacts.dispatch_dispatched enabled hook1 ev) as Hd.
      destruct (MouseHook._dispatch enabled hook1 ev) as [eff r]. simpl in *.
      by exists eff, r.
    Qed.

    (** A first report with the gesture id, from the released state. *)
Lemma report_press self hook raw :
      _on_down self = Some (MouseHook._on_hid_gesture_down enabled) ->
      _held self = false ->
      MouseHook._gesture_active hook = false ->
      Forall (MouseHook.raises_Exception_only enabled)
             (default [] (MouseHook._callbacks hook !! MouseHook.GESTURE_DOWN)) ->
      gesture_notification self true raw ->
      exists eff,
        _on_report self hook raw
        = (with_held true self,
           MouseHook.with_gesture true (MouseHook._prev_raw_buttons hook) hook,
           eff, Returned)
        /\ gesture_events eff = [MouseHook.GESTURE_DOWN].
    Proof.
      intros Hdown Hheld Hact Hwb (msg & Hp & Hfeat & Hfunc & Hg).
      destruct (hid_gesture_down_fires hook Hact Hwb) as (heff & Hcall & Hd).
      unfold _on_report. rewrite Hp, Hfunc, Hg, Hheld.
      rewrite (bool_decide_eq_true_2 _ Hfeat). simpl.
      rewrite Hdown. simpl. rewrite Hcall.
      eexists. split; [reflexivity|].
      unfold gesture_events. simpl. by rewrite hook_effects_fmap, Hd.
    Qed.

    (** Further reports with the gesture id while it is held. *)
Lemma report_still_held self hook raw :
      _held self = true ->
      gesture_notification self true raw ->
      _on_report self hook raw = (self, hook, [], Returned).
    Proof.
      intros Hheld (msg & Hp & Hfeat & Hfunc & Hg).
      unfold _on_report. rewrite Hp, Hfunc, Hg, Hheld.
      by rewrite (bool_decide_eq_true_2 _ Hfeat).
    Qed.

Lemma reports_still_held self hook raws :
      _held self = true ->
      Forall (gesture_notification self true) raws ->
      on_reports self hook raws = (self, hook, [], Returned).
    Proof.
      intros Hheld. induction 1 as [|raw rest Hraw _ IH]; simpl; [done|].
      by rewrite (report_still_held _ _ _ Hheld Hraw), IH.
    Qed.

    (** The first report without the gesture id while it is held. *)
Lemma report_release self hook raw :
      _on_up self = Some (MouseHook._on_hid_gesture_up enabled) ->
      _held self = true ->
      MouseHook._gesture_active hook = true ->
      gesture_notification self false raw ->
      exists eff r,
        _on_report self hook raw
        = (with_held false self,
           MouseHook.with_gesture false (MouseHook._prev_raw_buttons hook) hook,
           eff, r)
        /\ gesture_events eff = [MouseHook.GESTURE_UP].
    Proof.
      intros Hup Hheld Hact (msg & Hp & Hfeat & Hfunc & Hg).
      destruct (hid_gesture_up_fires hook Hact) as (heff & r & Hcall & Hd).
      unfold _on_report. rewrite Hp, Hfunc, Hg, Hheld.
      rewrite (bool_decide_eq_true_2 _ Hfeat). simpl.
      rewrite Hup. simpl. rewrite Hcall.
      destruct r as [|e]; [|destruct (isinstance_Exception e)];
        (eexists; eexists; split; [reflexivity|]);
        unfold gesture_events; simpl;
        rewrite ?hook_effects_app, hook_effects_fmap, ?app_nil_r; simpl;
        by rewrite ?app_nil_r, Hd.
    Qed.

    (** Reports without the gesture id in the released state. *)
Lemma report_still_released self hook raw :
      _held self = false ->
      gesture_notification self false raw ->
      _on_report self hook raw = (self, hook, [], Returned).
    Proof.
      intros Hheld (msg & Hp & Hfeat & Hfunc & Hg).
      unfold _on_report. rewrite Hp, Hfunc, Hg, Hheld.
      by rewrite (bool_decide_eq_true_2 _ Hfeat).
    Qed.

  End Edges.

  (** C6. From the released state, a burst of N >= 1 consecutive
      notification reports that all contain the gesture control id makes
      the hook dispatch exactly one gesture-down event (and no
      gesture-up); the first following report without the id makes it
      dispatch exactly one gesture-up event, and further reports without
      the id dispatch nothing. *)
Theorem gesture_burst_fires_once
      (enabled : bool) (self : State) (hook : MouseHook.State)
      (burst : list (list Z)) (release : list Z) :
    _on_down self = Some (MouseHook._on_hid_gesture_down enabled) ->
    _on_up self = Some (MouseHook._on_hid_gesture_up enabled) ->
    _held self = false ->
    MouseHook._gesture_active hook = false ->
    Forall (MouseHook.raises_Exception_only enabled)
           (default [] (MouseHook._callbacks hook !! MouseHook.GESTURE_DOWN)) ->
    (1 <= length burst)%nat ->
    Forall (gesture_notification self true) burst ->
    gesture_notification self false release ->
    let held := on_reports self hook burst in
    let released := _on_report held.1.1.1 held.1.1.2 release in
    held.2 = Returned
    /\ gesture_events held.1.2 = [MouseHook.GESTURE_DOWN]
    /\ _held held.1.1.1 = true
    /\ gesture_events released.1.2 = [MouseHook.GESTURE_UP]
    /\ _held released.1.1.1 = false
    /\ MouseHook._gesture_active released.1.1.2 = false
    /\ forall more,
         gesture_notification self false more ->
         gesture_events (_on_report released.1.1.1 released.1.1.2 more).1.2
         = [].
  Proof.
    intros Hdown Hup Hheld Hact Hwb Hlen Hburst Hrel.
    destruct burst as [|first rest]; [simpl in Hlen; lia|].
    inversion Hburst as [|? ? Hfirst Hrest]; subst.
    destruct (report_press enabled self hook first Hdown Hheld Hact Hwb Hfirst)
      as (eff1 & Hstep & Hev1).
    cbn [on_reports]. rewrite Hstep.
    rewrite (reports_still_held (with_held true self) _ rest eq_refl Hrest).
    cbn zeta. simpl fst. simpl snd.
    destruct (report_release enabled (with_held true self)
                (MouseHook.with_gesture true (MouseHook._prev_raw_buttons hook) hook)
                release Hup eq_refl eq_refl Hrel)
      as (eff2 & r2 & Hstep2 & Hev2).
    rewrite Hstep2. simpl.
    rewrite app_nil_r.
    repeat split; try done.
    intros more Hmore.
    by rewrite (report_still_released
                  (with_held false (with_held true self)) _ more eq_refl Hmore).
  Qed.

Lemma gesture_burst_fires_once_witness :
    let held :=
      on_reports Scenario.connected MouseHook.__init__
        [Scenario.gesture_pressed; Scenario.gesture_pressed;
         Scenario.gesture_pressed] in
    gesture_events held.1.2 = [MouseHook.GESTURE_DOWN]
    /\ gesture_events
         (_on_report held.1.1.1 held.1.1.2 Scenario.gesture_released).1.2
       = [MouseHook.GESTURE_UP].
  Proof.
    assert (Hp : gesture_notification Scenario.connected true
                   Scenario.gesture_pressed).
    { eexists. repeat split; reflexivity. }
    assert (Hr : gesture_notification Scenario.connected false
                   Scenario.gesture_released).
    { eexists. repeat split; reflexivity. }
    pose proof (gesture_burst_fires_once
                  true Scenario.connected MouseHook.__init__
                  [Scenario.gesture_pressed; Scenario.gesture_pressed;
                   Scenario.gesture_pressed]
                  Scenario.gesture_released
                  eq_refl eq_refl eq_refl eq_refl
                  (Forall_nil_2 _)
                  (le_S _ _ (le_S _ _ (le_n 1)))
                  (Forall_cons_2 _ _ _ Hp
                     (Forall_cons_2 _ _ _ Hp
                        (Forall_cons_2 _ _ _ Hp (Forall_nil_2 _))))
                  Hr) as (_ & Hd & _ & Hu & _).
    split; [exact Hd | exact Hu].
  Defined.


  (** ** Framing of reports *)

  (** X10. [_parse] rejects a buffer exactly when it holds fewer than
      four bytes: the second length test in the function can never fire,
      so every buffer of four bytes or more is taken for a report,
      whatever it contains. *)
Theorem parse_rejects_only_short_buffers (raw : list Z) :
    _parse raw = None <-> (length raw < 4)%nat.
  Proof.
    unfold _parse.
    destruct (Nat.ltb_spec (length raw) 4) as [Hshort|Hlong]; [done|].
    destruct ((nth 0 raw 0 =? SHORT_ID) || (nth 0 raw 0 =? LONG_ID)).
    - destruct (Nat.ltb_spec (length raw) (1 + 3)); [lia|]. split; [done|lia].
    - destruct (Nat.ltb_spec (length raw) (0 + 3)); [lia|]. split; [done|lia].
  Qed.

Lemma fill_params_past_end buf i params :
    (LONG_LEN <= 4 + i)%nat -> fill_params buf i params = buf.
  Proof.
    revert buf i. induction params as [|b rest IH]; intros buf i Hi; [done|].
    cbn [fill_params].
    destruct (Nat.ltb_spec (4 + i) LONG_LEN); [lia|].
    apply IH. lia.
  Qed.

Lemma fill_params_spec pre suf params :
    (4 <= length pre)%nat ->
    length (pre ++ suf) = LONG_LEN ->
    fill_params (pre ++ suf) (length pre - 4) params
    = pre ++ take (length suf)
               (((fun b => Z.land b 0xFF) <$> params)
                ++ drop (length params) suf).
  Proof.
    revert pre suf. induction params as [|b rest IH]; intros pre suf Hpre Hlen.
    - cbn. by rewrite drop_0, firstn_all.
    - cbn [fill_params].
      replace (4 + (length pre - 4))%nat with (length pre) by lia.
      destruct suf as [|s suf'].
      + rewrite app_nil_r in *.
        destruct (Nat.ltb_spec (length pre) LONG_LEN); [lia|].
        rewrite fill_params_past_end by lia. by rewrite app_nil_r.
      + rewrite length_app in Hlen. cbn [length] in Hlen.
        destruct (Nat.ltb_spec (length pre) LONG_LEN); [|lia].
        assert (Hins : <[length pre := Z.land b 255]> (pre ++ s :: suf')
                       = (pre ++ [Z.land b 255]) ++ suf').
        { rewrite insert_app_r_alt by lia.
          rewrite Nat.sub_diag. cbn. by rewrite <- app_assoc. }
        rewrite Hins.
        replace (S (length pre - 4)) with (length (pre ++ [Z.land b 255]) - 4)%nat
          by (rewrite length_app; cbn; lia).
        rewrite IH.
        * rewrite <- app_assoc. cbn. done.
        * rewrite length_app. cbn. lia.
        * rewrite !length_app. cbn. lia.
  Qed.

Lemma func_sw_byte func :
    let fsw := Z.lor (Z.shiftl (Z.land func 0x0F) 4) (Z.land MY_SW 0x0F) in
    Z.land (Z.shiftr fsw 4) 0x0F = Z.land func 0x0F
    /\ Z.land fsw 0x0F = MY_SW.
  Proof.
    cbv zeta.
    assert (Hf : 0 <= Z.land func 15 < 16).
    { change 15 with (Z.ones 4). rewrite Z.land_ones by lia.
      apply Z.mod_pos_bound. lia. }
    set (f := Z.land func 15) in *.
    assert (Hcases : f = 0 \/ f = 1 \/ f = 2 \/ f = 3 \/ f = 4 \/ f = 5
                     \/ f = 6 \/ f = 7 \/ f = 8 \/ f = 9 \/ f = 10 \/ f = 11
                     \/ f = 12 \/ f = 13 \/ f = 14 \/ f = 15) by lia.
    clearbody f.
    repeat (destruct Hcases as [->|Hcases]; [by vm_compute|]).
    subst f. by vm_compute.
  Qed.

Lemma tx_buf_layout (self : State) (feat func : Z) (params : list Z) :
    _tx_buf self feat func params
    = [LONG_ID; _dev_idx self; feat;
       Z.lor (Z.shiftl (Z.land func 0x0F) 4) (Z.land MY_SW 0x0F)]
      ++ take 16 (((fun b => Z.land b 0xFF) <$> params)
                  ++ replicate (16 - length params) 0).
  Proof.
    unfold _tx_buf. cbv zeta.
    set (fsw := Z.lor (Z.shiftl (Z.land func 15) 4) (Z.land MY_SW 15)).
    change (<[3%nat:=_]> (<[2%nat:=feat]> (<[1%nat:=_dev_idx self]>
              (<[0%nat:=LONG_ID]> (replicate LONG_LEN 0)))))
      with ([LONG_ID; _dev_idx self; feat; fsw] ++ replicate 16 0).
    change 0%nat with (length [LONG_ID; _dev_idx self; feat; fsw] - 4)%nat
      at 1.
    rewrite fill_params_spec by (first [reflexivity | cbn; lia]).
    rewrite length_replicate, drop_replicate. done.
  Qed.

Lemma tx_buf_parses
      (self : State) (feat func : Z) (params : list Z) :
    length (_tx_buf self feat func params) = LONG_LEN
    /\ _parse (_tx_buf self feat func params)
       = Some (mkMsg (_dev_idx self) feat (Z.land func 0x0F) MY_SW
                     (take 16 (((fun b => Z.land b 0xFF) <$> params)
                               ++ replicate (16 - length params) 0))).
  Proof.
    pose proof (func_sw_byte func) as [Hfn Hsw]. cbv zeta in Hfn, Hsw.
    rewrite tx_buf_layout.
    set (fsw := Z.lor (Z.shiftl (Z.land func 15) 4) (Z.land MY_SW 15)) in *.
    assert (Hlen : length (take 16 (((fun b => Z.land b 0xFF) <$> params)
                                    ++ replicate (16 - length params) 0))
                   = 16%nat).
    { rewrite length_take, length_app, length_fmap, length_replicate. lia. }
    split.
    - rewrite length_app, Hlen. done.
    - unfold _parse. rewrite length_app, Hlen. cbn. by rewrite Hfn, Hsw.
  Qed.

  (** X11. What [_tx] writes, read back with [_parse]: every request
      is a 20-byte long report that parses to the listener's device
      index, the feature index given, the low four bits of the function
      number, the software id 0x0A, and sixteen parameter bytes, namely
      the low bytes of the first sixteen parameters followed by zeros. *)
Theorem tx_parse_round_trip
      (self : State) (feat func : Z) (params : list Z) :
    length (_tx_buf self feat func params) = LONG_LEN
    /\ _parse (_tx_buf self feat func params)
       = Some (mkMsg (_dev_idx self) feat (Z.land func 0x0F) MY_SW
                     (take 16 (((fun b => Z.land b 0xFF) <$> params)
                               ++ replicate (16 - length params) 0))).
  Proof. apply tx_buf_parses. Qed.

  (** ** Requests *)

Lemma request_loop_first_match self feat pre r post raw msg :
    Forall (passed_over self feat) pre ->
    _rx self r = Some raw ->
    _parse raw = Some msg ->
    m_feat msg = feat -> feat <> 0xFF -> m_sw msg = MY_SW ->
    _request_loop self feat (pre ++ r :: post) = ([], Some msg).
  Proof.
    intros Hpre Hrx Hp Hf Hne Hsw.
    induction Hpre as [|r0 pre Hr0 _ IH].
    - cbn. rewrite Hrx, Hp, Hf, Hsw.
      rewrite (proj2 (Z.eqb_neq _ _) Hne), !Z.eqb_refl. done.
    - cbn [app]. by rewrite request_loop_passes_over.
  Qed.

Lemma request_connected self io feat func params handle :
    _dev self = Some handle -> write_ok io = true ->
    _request self io feat func params
    = ([Write (_tx_buf self feat func params)]
         ++ (_request_loop self feat (reads io)).1,
       (_request_loop self feat (reads io)).2).
  Proof.
    intros Hdev Hok. unfold _request, _tx. rewrite Hdev, Hok.
    by destruct (_request_loop self feat (reads io)).
  Qed.

Lemma request_needs_device_and_write_aux
      (self : State) (io : RequestIo) (feat func : Z) (params : list Z) :
    _dev self = None \/ write_ok io = false ->
    _request self io feat func params = ([], None).
  Proof.
    intros [Hdev|Hw]; unfold _request, _tx.
    - by rewrite Hdev.
    - rewrite Hw. by destruct (_dev self).
  Qed.

Lemma first_match_resolves_request_aux
      (self : State) (io : RequestIo) (feat func : Z) (params : list Z)
      (handle : Z) (pre post : list ReadResult) (r : ReadResult)
      (raw : list Z) (msg : Msg) :
    _dev self = Some handle ->
    write_ok io = true ->
    reads io = pre ++ r :: post ->
    Forall (passed_over self feat) pre ->
    _rx self r = Some raw ->
    _parse raw = Some msg ->
    m_feat msg = feat -> feat <> 0xFF -> m_sw msg = MY_SW ->
    _request self io feat func params
    = ([Write (_tx_buf self feat func params)], Some msg).
  Proof.
    intros Hdev Hok Hreads Hpre Hrx Hp Hf Hne Hsw.
    rewrite (request_connected self io feat func params handle Hdev Hok).
    rewrite Hreads.
    by rewrite (request_loop_first_match self feat pre r post raw msg).
  Qed.

  (** X12. The first report that carries the request's feature index
      and the software id 0x0A resolves the request, whatever function
      number, device index and parameters it carries; the reads before it
      are passed over and the reads after it are never issued. *)
Theorem first_match_resolves_request
      (self : State) (io : RequestIo) (feat func : Z) (params : list Z)
      (handle : Z) (pre post : list ReadResult) (r : ReadResult)
      (raw : list Z) (msg : Msg) :
    _dev self = Some handle ->
    write_ok io = true ->
    reads io = pre ++ r :: post ->
    Forall (passed_over self feat) pre ->
    _rx self r = Some raw ->
    _parse raw = Some msg ->
    m_feat msg = feat -> feat <> 0xFF -> m_sw msg = MY_SW ->
    _request self io feat func params
    = ([Write (_tx_buf self feat func params)], Some msg).
  Proof. apply first_match_resolves_request_aux. Qed.

Lemma first_match_resolves_request_witness :
    let io := Scenario.replying
                [Scenario.unrelated_report; Scenario.dpi_8100_reply] in
    (_request Scenario.connected io 7 3 [0; 0x1F; 0xA4]).2
    = _parse Scenario.dpi_8100_reply
    /\ is_Some (_parse Scenario.dpi_8100_reply).
  Proof.
    cbv zeta. split; [|by eexists].
    pose proof (first_match_resolves_request Scenario.connected
                  (Scenario.replying
                     [Scenario.unrelated_report; Scenario.dpi_8100_reply])
                  7 3 [0; 0x1F; 0xA4] 1
                  [ReadData Scenario.unrelated_report] []
                  (ReadData Scenario.dpi_8100_reply)
                  Scenario.dpi_8100_reply) as H.
    destruct (_parse Scenario.dpi_8100_reply) as [msg|] eqn:Hp;
      [|vm_compute in Hp; discriminate Hp].
    rewrite (H msg); [done|reflexivity|reflexivity|reflexivity| |reflexivity
                      |reflexivity| | |].
    - apply Forall_cons_2; [|apply Forall_nil_2].
      eapply unmatched; [reflexivity|reflexivity|vm_compute; discriminate|].
      left. vm_compute. discriminate.
    - vm_compute in Hp. injection Hp as <-. reflexivity.
    - discriminate.
    - vm_compute in Hp. injection Hp as <-. reflexivity.
  Defined.

  (** ** DPI commands *)

Lemma byte_of_small v :
    0 <= v < 2^16 ->
    Z.land (Z.land (Z.shiftr v 8) 0xFF) 0xFF = v / 256
    /\ Z.land (Z.land v 0xFF) 0xFF = v mod 256.
  Proof.
    intros Hv. rewrite <- !Z.land_assoc. change (Z.land 255 255) with 255.
    change 255 with (Z.ones 8). rewrite !Z.land_ones by lia.
    rewrite Z.shiftr_div_pow2 by lia. change (2^8) with 256. split; [|done].
    apply Z.mod_small. split; [apply Z.div_pos; lia|].
    apply Z.div_lt_upper_bound; lia.
  Qed.

  (** X13. Whatever value [set_dpi] is called with, the listener thread
      answers it with one report to the DPI feature: function 3
      ("set sensor DPI"), software id 0x0A, sensor 0, and the requested
      value clamped to [200, 8200] as a big-endian 16-bit number. *)
Theorem set_dpi_report
      (self : State) (io : RequestIo) (v dpi_idx handle : Z) :
    _dev self = Some handle ->
    _dpi_idx self = Some dpi_idx ->
    write_ok io = true ->
    let dpi := Z.max 200 (Z.min 8200 v) in
    exists buf,
      writes (_apply_pending_dpi (set_dpi self v) io).2 = [buf]
      /\ _parse buf
         = Some (mkMsg (_dev_idx self) dpi_idx 3 MY_SW
                       ([0; dpi / 256; dpi mod 256] ++ replicate 13 0))
      /\ 200 <= dpi <= 8200.
  Proof.
    intros Hdev Hidx Hok. cbv zeta.
    set (dpi := Z.max 200 (Z.min 8200 v)).
    set (self1 := set_dpi self v).
    exists (_tx_buf self1 dpi_idx 3
              [0; Z.land (Z.shiftr dpi 8) 255; Z.land dpi 255]).
    split; [|split; [|lia]].
    - unfold _apply_pending_dpi, self1, set_dpi. fold dpi.
      cbn [_pending_dpi with_dpi _dpi_idx _dev]. rewrite Hidx, Hdev.
      rewrite (request_connected
                 (with_dpi (Some (PendingSet dpi)) ResultNone self)
                 io dpi_idx 3 _ handle Hdev Hok).
      pose proof (request_loop_writes
                    (with_dpi (Some (PendingSet dpi)) ResultNone self)
                    dpi_idx (reads io)) as Hw.
      destruct (_request_loop _ dpi_idx (reads io)) as [eff resp].
      cbn [fst snd] in *.
      destruct resp; cbn [snd]; rewrite !writes_app, Hw; done.
    - destruct (tx_buf_parses self1 dpi_idx 3
                  [0; Z.land (Z.shiftr dpi 8) 255; Z.land dpi 255])
        as [_ ->].
      destruct (byte_of_small dpi ltac:(lia)) as [Hhi Hlo].
      cbn [fmap list_fmap length]. rewrite Hhi, Hlo. done.
  Qed.

Lemma set_dpi_report_witness :
    exists buf,
      writes (_apply_pending_dpi (set_dpi Scenario.connected 100)
                (Scenario.replying [])).2 = [buf]
      /\ m_params <$> _parse buf = Some ([0; 0; 200] ++ replicate 13 0).
  Proof.
    destruct (set_dpi_report Scenario.connected (Scenario.replying [])
                100 7 1 eq_refl eq_refl eq_refl)
      as (buf & Hw & Hp & _).
    exists buf. split; [exact Hw|]. rewrite Hp. reflexivity.
  Defined.

Lemma on_report_pending self hook raw :
    _pending_dpi (_on_report self hook raw).1.1.1 = _pending_dpi self.
  Proof.
    unfold _on_report.
    destruct (_parse raw) as [msg|]; [|done].
    destruct (negb (bool_decide (Some (m_feat msg) = _feat_idx self))
              || negb (m_func msg =? 0)); [done|].
    destruct (bool_decide (CID_GESTURE ∈ cids (m_params msg)) && negb (_held self)).
    { by destruct (call_guarded _ hook _) as [[h e] r]. }
    destruct (negb (bool_decide (CID_GESTURE ∈ cids (m_params msg)))
              && _held self); [|done].
    by destruct (call_guarded _ hook _) as [[h e] r].
  Qed.

Lemma apply_pending_dpi_clears self io dpi :
    _pending_dpi self = Some (PendingSet dpi) ->
    _pending_dpi (_apply_pending_dpi self io).1 = None.
  Proof.
    intros Hp. unfold _apply_pending_dpi. rewrite Hp.
    destruct (_dpi_idx self) as [i|]; [|done].
    destruct (_dev self); [|done].
    destruct (_request self io i 3 _) as [eff [msg|]]; done.
  Qed.

Lemma apply_pending_read_clears self io :
    _pending_dpi (_apply_pending_read_dpi self io).1 = None.
  Proof.
    unfold _apply_pending_read_dpi.
    destruct (_dpi_idx self) as [i|]; [|done].
    destruct (_dev self); [|done].
    destruct (_request self io i 2 _) as [eff [msg|]]; done.
  Qed.

  (** X14. One turn of the listen loop always empties the DPI command
      slot: whether a set or a read was queued, whether the device
      answered, failed or was not there, and whatever report the turn
      then reads, [_pending_dpi] is [None] afterwards, which is what the
      callers of [set_dpi] and [read_dpi] wait for. *)
Theorem listen_turn_empties_dpi_slot
      (self : State) (hook : MouseHook.State) (io : RequestIo)
      (r : ReadResult) :
    _pending_dpi (listen_iteration self hook io r).1.1.1 = None.
  Proof.
    unfold listen_iteration.
    assert (Hserved :
      _pending_dpi
        (match _pending_dpi self with
         | None => (self, [])
         | Some PendingRead => _apply_pending_read_dpi self io
         | Some (PendingSet _) => _apply_pending_dpi self io
         end).1 = None).
    { destruct (_pending_dpi self) as [[dpi|]|] eqn:Hp; [| |done].
      - by apply (apply_pending_dpi_clears self io dpi).
      - apply apply_pending_read_clears. }
    destruct (match _pending_dpi self with
              | None => (self, [])
              | Some PendingRead => _apply_pending_read_dpi self io
              | Some (PendingSet _) => _apply_pending_dpi self io
              end) as [self1 eff]. cbn [fst] in Hserved.
    destruct (_rx self1 r) as [raw|]; [|done].
    pose proof (on_report_pending self1 hook raw) as Hrep.
    destruct (_on_report self1 hook raw) as [[[self2 hook2] eff'] res].
    cbn [fst] in *. congruence.
  Qed.

  (** X15. DPI commands served without a connection touch no device:
      when the DPI feature index was never discovered or the device is
      closed, a queued set is answered [False] and a queued read [None],
      the slot is emptied and nothing is written. *)
Theorem dpi_commands_fail_when_not_connected
      (self : State) (io : RequestIo) :
    _dpi_idx self = None \/ _dev self = None ->
    (forall dpi,
        _pending_dpi self = Some (PendingSet dpi) ->
        let out := _apply_pending_dpi self io in
        _dpi_result out.1 = ResultBool false
        /\ _pending_dpi out.1 = None /\ writes out.2 = [])
    /\ (let out := _apply_pending_read_dpi self io in
        _dpi_result out.1 = ResultNone
        /\ _pending_dpi out.1 = None /\ writes out.2 = []).
  Proof.
    intros Hnc. split.
    - intros dpi Hp. cbv zeta. unfold _apply_pending_dpi. rewrite Hp.
      destruct Hnc as [-> | ->]; [done|]. by destruct (_dpi_idx self).
    - cbv zeta. unfold _apply_pending_read_dpi.
      destruct Hnc as [-> | ->]; [done|]. by destruct (_dpi_idx self).
  Qed.

Lemma dpi_commands_fail_when_not_connected_witness :
    let self := set_dpi (_main_loop_cleanup Scenario.connected true).1 1600 in
    let out := _apply_pending_dpi self (Scenario.replying []) in
    (_dpi_idx self = None \/ _dev self = None)
    /\ _dpi_result out.1 = ResultBool false
    /\ writes out.2 = [].
  Proof.
    cbv zeta.
    assert (H : _dpi_idx (set_dpi (_main_loop_cleanup Scenario.connected true).1
                                  1600) = None
                \/ _dev (set_dpi (_main_loop_cleanup Scenario.connected true).1
                                 1600) = None) by (by right).
    split; [exact H|].
    destruct (dpi_commands_fail_when_not_connected _ (Scenario.replying []) H)
      as [Hset _].
    destruct (Hset 1600 eq_refl) as (Hr & _ & Hw).
    split; [exact Hr|exact Hw].
  Defined.

  (** X16. Reading the DPI back.  When the device is connected and its
      first matching answer to "get sensor DPI" (function 2 on the DPI
      feature) carries the parameter bytes [sensor, hi, lo, ...], the
      value handed to the caller of [read_dpi] is [256 * hi + lo]; an
      answer with fewer than three parameter bytes yields [None]. *)
Theorem read_dpi_decodes_reply
      (self : State) (io : RequestIo) (dpi_idx handle : Z)
      (pre post : list ReadResult) (r : ReadResult)
      (raw : list Z) (msg : Msg) :
    _dev self = Some handle ->
    _dpi_idx self = Some dpi_idx ->
    write_ok io = true ->
    reads io = pre ++ r :: post ->
    Forall (passed_over self dpi_idx) pre ->
    _rx self r = Some raw ->
    _parse raw = Some msg ->
    m_feat msg = dpi_idx -> dpi_idx <> 0xFF -> m_sw msg = MY_SW ->
    let out := _apply_pending_read_dpi self io in
    _pending_dpi out.1 = None
    /\ (forall sensor hi lo rest,
          m_params msg = sensor :: hi :: lo :: rest ->
          Spec.is_byte lo ->
          _dpi_result out.1 = ResultInt (256 * hi + lo))
    /\ ((length (m_params msg) < 3)%nat -> _dpi_result out.1 = ResultNone).
  Proof.
    intros Hdev Hidx Hok Hreads Hpre Hrx Hp Hf Hne Hsw. cbv zeta.
    unfold _apply_pending_read_dpi. rewrite Hidx, Hdev.
    rewrite (first_match_resolves_request_aux self io dpi_idx 2 [0] handle
               pre post r raw msg) by assumption.
    cbn [fst snd _pending_dpi _dpi_result with_dpi].
    split; [done|]. split.
    - intros sensor hi lo rest Hparams Hlo. rewrite Hparams. cbn.
      by rewrite byte_pair_value.
    - intros Hshort. destruct (Nat.leb_spec 3 (length (m_params msg))); [lia|done].
  Qed.

Lemma read_dpi_decodes_reply_witness :
    _dpi_result
      (_apply_pending_read_dpi (read_dpi Scenario.connected)
         (Scenario.replying [Scenario.dpi_8100_reply])).1
    = ResultInt 8100.
  Proof.
    assert (Hp : _parse Scenario.dpi_8100_reply
                 = Some (mkMsg 0xFF 7 3 MY_SW
                               ([0; 0x1F; 0xA4] ++ replicate 13 0)))
      by reflexivity.
    assert (Hpre : Forall (passed_over (read_dpi Scenario.connected) 7) [])
      by apply Forall_nil_2.
    pose proof (read_dpi_decodes_reply (read_dpi Scenario.connected)
                  (Scenario.replying [Scenario.dpi_8100_reply]) 7 1
                  [] [] (ReadData Scenario.dpi_8100_reply)
                  Scenario.dpi_8100_reply _
                  eq_refl eq_refl eq_refl eq_refl Hpre eq_refl Hp
                  eq_refl ltac:(discriminate) eq_refl)
      as (_ & Hval & _).
    apply (Hval 0 0x1F 0xA4 (replicate 13 0) eq_refl).
    unfold Spec.is_byte. lia.
  Defined.

  (** ** Feature discovery and diversion *)

  (** X17. Feature discovery.  An index returned by [_find_feature] is
      never 0 and is the first parameter byte of the reply that resolved
      the request; without a device the lookup fails without writing;
      and on a writable device the request it sends is function 0 of the
      root feature (index 0) with the 16-bit feature id big-endian in the
      first two parameter bytes. *)
Theorem find_feature_index
      (self : State) (io : RequestIo) (feature_id : Z) :
    let request :=
      _request self io 0x00 0
               [Z.land (Z.shiftr feature_id 8) 0xFF; Z.land feature_id 0xFF; 0] in
    (forall i,
        (_find_feature self io feature_id).2 = Some i ->
        i <> 0 /\ exists msg,
                    request.2 = Some msg /\ head (m_params msg) = Some i)
    /\ (_dev self = None -> _find_feature self io feature_id = ([], None))
    /\ (forall handle,
          0 <= feature_id < 2^16 ->
          _dev self = Some handle -> write_ok io = true ->
          exists buf,
            writes (_find_feature self io feature_id).1 = [buf]
            /\ _parse buf
               = Some (mkMsg (_dev_idx self) 0 0 MY_SW
                             ([feature_id / 256; feature_id mod 256; 0]
                              ++ replicate 13 0))).
  Proof.
    cbv zeta. unfold _find_feature. cbv zeta.
    set (params := [Z.land (Z.shiftr feature_id 8) 255;
                    Z.land feature_id 255; 0]).
    split; [|split].
    - intros i.
      destruct (_request self io 0 0 params) as [eff [msg|]]; [|done].
      destruct (m_params msg) as [|p0 ps] eqn:Hparams; [done|].
      destruct (Z.eqb_spec p0 0) as [|Hnz]; [done|].
      cbn. intros [= <-]. split; [done|]. exists msg. by rewrite Hparams.
    - intros Hdev.
      by rewrite (request_needs_device_and_write_aux self io 0 0 params
                    (or_introl Hdev)).
    - intros handle Hfid Hdev Hok.
      exists (_tx_buf self 0 0 params). split.
      + rewrite (request_connected self io 0 0 params handle Hdev Hok).
        pose proof (request_loop_writes self 0 (reads io)) as Hw.
        destruct (_request_loop self 0 (reads io)) as [eff [msg|]];
          cbn [fst snd] in *.
        * destruct (m_params msg) as [|p0 ps]; [|destruct (negb (p0 =? 0))];
            cbn [fst]; by rewrite writes_app, Hw.
        * cbn [fst]. by rewrite writes_app, Hw.
      + destruct (tx_buf_parses self 0 0 params) as [_ ->].
        destruct (byte_of_small feature_id Hfid) as [Hhi Hlo].
        unfold params. cbn [fmap list_fmap length]. rewrite Hhi, Hlo. done.
  Qed.

  (** X18. Diverting and restoring the gesture button.  On a writable
      device with the control feature discovered, [_divert] and
      [_undivert] each write one report: function 3 of that feature for
      control id 0x00C3, with flags 0x03 (divert) and 0x02 (restore), so
      the restore report is the divert report with the flag byte
      replaced; [_divert] reports success exactly when its request was
      resolved. *)
Theorem divert_and_undivert_reports
      (self : State) (io : RequestIo) (feat_idx handle : Z) :
    _feat_idx self = Some feat_idx ->
    _dev self = Some handle ->
    write_ok io = true ->
    exists d u,
      writes (_divert self io).1 = [d]
      /\ writes (_undivert self true) = [u]
      /\ _parse d = Some (mkMsg (_dev_idx self) feat_idx 3 MY_SW
                            ([0x00; 0xC3; 0x03] ++ replicate 13 0))
      /\ _parse u = Some (mkMsg (_dev_idx self) feat_idx 3 MY_SW
                            ([0x00; 0xC3; 0x02] ++ replicate 13 0))
      /\ u = <[6%nat := 0x02]> d
      /\ ((_divert self io).2 = true
          <-> is_Some (_request_loop self feat_idx (reads io)).2).
  Proof.
    intros Hfeat Hdev Hok.
    exists (_tx_buf self feat_idx 3 [0x00; 0xC3; 0x03]),
           (_tx_buf self feat_idx 3 [0x00; 0xC3; 0x02]).
    split; [|split; [|split; [|split; [|split]]]].
    - unfold _divert. rewrite Hfeat.
      change (Z.land (Z.shiftr CID_GESTURE 8) 255) with 0.
      change (Z.land CID_GESTURE 255) with 0xC3.
      rewrite (request_connected self io feat_idx 3 _ handle Hdev Hok).
      pose proof (request_loop_writes self feat_idx (reads io)) as Hw.
      destruct (_request_loop self feat_idx (reads io)) as [eff resp].
      cbn [fst snd] in *. by rewrite !writes_app, Hw.
    - unfold _undivert, _tx. by rewrite Hfeat, Hdev.
    - by destruct (tx_buf_parses self feat_idx 3 [0x00; 0xC3; 0x03]) as [_ ->].
    - by destruct (tx_buf_parses self feat_idx 3 [0x00; 0xC3; 0x02]) as [_ ->].
    - by rewrite !tx_buf_layout.
    - unfold _divert. rewrite Hfeat.
      change (Z.land (Z.shiftr CID_GESTURE 8) 255) with 0.
      change (Z.land CID_GESTURE 255) with 0xC3.
      rewrite (request_connected self io feat_idx 3 _ handle Hdev Hok).
      destruct (_request_loop self feat_idx (reads io)) as [eff [msg|]];
        cbn [fst snd]; split; try done.
  Qed.

Lemma divert_and_undivert_reports_witness :
    exists d u,
      writes (_divert Scenario.connected (Scenario.replying [])).1 = [d]
      /\ writes (_undivert Scenario.connected true) = [u]
      /\ u = <[6%nat := 0x02]> d
      /\ nth 6 d 0 = 0x03.
  Proof.
    destruct (divert_and_undivert_reports Scenario.connected
                (Scenario.replying []) 9 1 eq_refl eq_refl eq_refl)
      as (d & u & Hd & Hu & _ & _ & Heq & _).
    exists d, u. split; [exact Hd|]. split; [exact Hu|]. split; [exact Heq|].
    vm_compute in Hd. injection Hd as <-. reflexivity.
  Defined.

End HidFacts.


(* ===================================================================== *)
(** * Properties of the configuration lookups *)
(* ===================================================================== *)

Module ConfigFacts.
Import Config.

Lemma lower_empty s : Str.lower s = "" <-> s = "".
Proof. destruct s; simpl; split; congruence. Qed.









(** ** Dict updates *)

Lemma get_set_eq {V} (d : dict V) k v : get (set d k v) k = Some v.
Proof.
  induction d as [|[k' v'] rest IH]; simpl.
  - by rewrite String.eqb_refl.
  - destruct (String.eqb_spec k' k) as [->|Hne]; simpl.
    + by rewrite String.eqb_refl.
    + by rewrite (proj2 (String.eqb_neq _ _) Hne).
Qed.

Lemma get_set_ne {V} (d : dict V) k k' v :
  k' <> k -> get (set d k v) k' = get d k'.
Proof.
  intros Hne. induction d as [|[k0 v0] rest IH]; simpl.
  - by rewrite (proj2 (String.eqb_neq k k') (not_eq_sym Hne)).
  - destruct (String.eqb_spec k0 k) as [->|Hk]; simpl.
    + by rewrite (proj2 (String.eqb_neq k k') (not_eq_sym Hne)).
    + by rewrite IH.
Qed.

Lemma get_none_not_key {V} (d : dict V) k :
  get d k = None <-> k ∉ d.*1.
Proof.
  induction d as [|[k' v'] rest IH]; simpl.
  - split; [intros _; apply not_elem_of_nil|done].
  - rewrite not_elem_of_cons.
    destruct (String.eqb_spec k' k) as [->|Hne].
    + split; [done|]. by intros [? _].
    + rewrite IH. split; [by split|by intros [_ ?]].
Qed.

Lemma get_pop_ne {V} (d : dict V) k k' :
  k' <> k -> get (pop d k) k' = get d k'.
Proof.
  intros Hne. induction d as [|[k0 v0] rest IH]; simpl; [done|].
  destruct (String.eqb_spec k0 k) as [->|Hk]; simpl.
  - by rewrite (proj2 (String.eqb_neq k k') (not_eq_sym Hne)).
  - by rewrite IH.
Qed.

Lemma get_pop_eq {V} (d : dict V) k :
  well_formed d -> get (pop d k) k = None.
Proof.
  unfold well_formed.
  induction d as [|[k0 v0] rest IH]; simpl; intros Hnd; [done|].
  apply NoDup_cons in Hnd as [Hfresh Hnd].
  destruct (String.eqb_spec k0 k) as [->|Hk]; simpl.
  - by apply get_none_not_key.
  - rewrite (proj2 (String.eqb_neq _ _) Hk). by apply IH.
Qed.

(** ** Which mappings are active *)

(** X19. [get_active_mappings] never fails on a missing profile: when
    the active profile's name is not among the profiles, the mappings
    are those of the profile named "default", and when that one is
    missing too (or a profile has no mappings of its own) they are the
    built-in default mappings. *)
Theorem missing_profile_falls_back (cfg : Cfg) :
  get (profiles cfg) (active_profile cfg) = None ->
  get_active_mappings cfg
  = get_active_mappings
      {| active_profile := "default"; profiles := profiles cfg;
         settings := settings cfg |}
  /\ (get (profiles cfg) "default" = None ->
      get_active_mappings cfg = DEFAULT_MAPPINGS)
  /\ (forall p, get (profiles cfg) "default" = Some p ->
                mappings p = None ->
                get_active_mappings cfg = DEFAULT_MAPPINGS).
Proof.
  intros Hmissing. unfold get_active_mappings. cbn [active_profile profiles].
  rewrite Hmissing. cbn [default].
  split; [by destruct (get (profiles cfg) "default")|].
  split; [by intros ->|]. intros p -> Hm. simpl. by rewrite Hm.
Qed.

Lemma missing_profile_falls_back_witness :
  let cfg := mkCfg "games" (profiles Scenario.two_profiles)
                   (settings Scenario.two_profiles) in
  get (profiles cfg) (active_profile cfg) = None
  /\ get_active_mappings cfg = DEFAULT_MAPPINGS.
Proof.
  cbv zeta. split; [reflexivity|].
  destruct (missing_profile_falls_back
              (mkCfg "games" (profiles Scenario.two_profiles)
                     (settings Scenario.two_profiles)) eq_refl)
    as (_ & _ & Hdef).
  exact (Hdef _ eq_refl eq_refl).
Defined.



(** ** Editing the configuration *)

Lemma set_mapping_inl cfg button action_id profile cfg' :
  set_mapping cfg button action_id profile = inl cfg' ->
  let name := default (active_profile cfg) profile in
  exists lbl aps m,
    (get (profiles cfg) name = Some (mkProfile lbl aps (Some m))
     \/ (get (profiles cfg) name = None
         /\ lbl = name /\ aps = None /\ m = DEFAULT_MAPPINGS))
    /\ get (profiles cfg') name
       = Some (mkProfile lbl aps (Some (set m button action_id)))
    /\ (forall other, other <> name ->
                      get (profiles cfg') other = get (profiles cfg) other)
    /\ active_profile cfg' = active_profile cfg
    /\ settings cfg' = settings cfg.
Proof.
  unfold set_mapping. cbv zeta.
  set (name := default (active_profile cfg) profile).
  destruct (get (profiles cfg) name) as [[lbl aps [m|]]|] eqn:Hget.
  - rewrite Hget. cbn [mappings label apps]. intros [= <-].
    exists lbl, aps, m. cbn [profiles active_profile settings].
    split; [by left|]. split; [apply get_set_eq|].
    split; [|done]. intros other Hne. by apply get_set_ne.
  - rewrite Hget. done.
  - rewrite get_set_eq. cbn [mappings label apps]. intros [= <-].
    exists name, None, DEFAULT_MAPPINGS. cbn [profiles active_profile settings].
    split; [by right|]. split; [apply get_set_eq|].
    split; [|done]. intros other Hne. by rewrite !get_set_ne.
Qed.

(** X21. [set_mapping] followed by [get_active_mappings]: after a
    mapping of the active profile is set, the active mappings give that
    action for the button.  The other buttons keep their action when the
    active profile existed; when it did not, the profile is created from
    the built-in defaults, so the other buttons read as in
    [DEFAULT_MAPPINGS] whatever they fell back to before.  The call
    raises exactly when the profile exists without a mappings entry. *)
Theorem set_mapping_round_trip (cfg : Cfg) (button action_id : string) :
  (forall cfg',
      set_mapping cfg button action_id None = inl cfg' ->
      get (get_active_mappings cfg') button = Some action_id
      /\ (forall other, other <> button ->
            get (get_active_mappings cfg') other
            = if bool_decide (is_Some (get (profiles cfg) (active_profile cfg)))
              then get (get_active_mappings cfg) other
              else get DEFAULT_MAPPINGS other))
  /\ ((exists e, set_mapping cfg button action_id None = inr e)
      <-> exists p, get (profiles cfg) (active_profile cfg) = Some p
                    /\ mappings p = None).
Proof.
  split.
  - intros cfg' Hset.
    destruct (set_mapping_inl _ _ _ _ _ Hset)
      as (lbl & aps & m & Hbefore & Hafter & _ & Hact & _).
    cbn [default] in *. unfold get_active_mappings. rewrite Hact, Hafter.
    simpl. split; [apply get_set_eq|].
    intros other Hne. rewrite get_set_ne by done.
    destruct Hbefore as [Hb|(Hb & _ & _ & ->)]; rewrite Hb.
    + by rewrite bool_decide_eq_true_2 by by eexists.
    + rewrite bool_decide_eq_false_2; [done|]. by intros [? ?].
  - unfold set_mapping. cbn [default].
    destruct (get (profiles cfg) (active_profile cfg))
      as [[lbl aps [m|]]|] eqn:Hget.
    + rewrite Hget. cbn. split; [by intros [? ?]|].
      by intros (p & [= <-] & ?).
    + rewrite Hget. cbn. split; [by eexists|by eexists].
    + rewrite get_set_eq. cbn. split; [by intros [? ?]|by intros (? & ? & _)].
Qed.

(** X22. A profile created from another starts with a copy of that
    profile's mappings: after [create_profile], the new name holds the
    given label (its own name when none is given), the given
    applications (none when not given) and the source's mappings (those
    of "default" when the source does not exist, empty when neither has
    any), so activating it yields exactly those mappings; the other
    profiles and the active profile are untouched. *)
Theorem create_profile_copies_mappings
    (cfg : Cfg) (name : string) (label : option string) (copy_from : string)
    (apps : option (list string)) :
  let cfg' := create_profile cfg name label copy_from apps in
  let source :=
    default (default empty_profile (get (profiles cfg) "default"))
            (get (profiles cfg) copy_from) in
  get (profiles cfg') name
  = Some (mkProfile (default name label) (Some (default [] apps))
                    (Some (default [] (mappings source))))
  /\ get_active_mappings
       {| active_profile := name; profiles := profiles cfg';
          settings := settings cfg' |}
     = default [] (mappings source)
  /\ (forall other, other <> name ->
                    get (profiles cfg') other = get (profiles cfg) other)
  /\ active_profile cfg' = active_profile cfg.
Proof.
  cbv zeta. unfold create_profile. cbn [profiles active_profile settings].
  split; [apply get_set_eq|].
  split; [|split; [|done]].
  - unfold get_active_mappings. cbn [active_profile profiles].
    by rewrite get_set_eq.
  - intros other Hne. by apply get_set_ne.
Qed.

(** X23. Deleting a profile.  "default" cannot be deleted; any other
    name is gone afterwards, the other profiles are untouched, and the
    active profile is reset to "default" exactly when it was the one
    deleted, so the active profile is never left pointing at the deleted
    name. *)
Theorem delete_profile_keeps_active_valid (cfg : Cfg) (name : string) :
  well_formed (profiles cfg) ->
  let cfg' := delete_profile cfg name in
  (name = "default" -> cfg' = cfg)
  /\ (name <> "default" ->
      get (profiles cfg') name = None
      /\ active_profile cfg' <> name
      /\ active_profile cfg'
         = (if String.eqb (active_profile cfg) name
            then "default" else active_profile cfg))
  /\ (forall other, other <> name ->
                    get (profiles cfg') other = get (profiles cfg) other).
Proof.
  intros Hwf. cbv zeta. unfold delete_profile.
  destruct (String.eqb_spec name "default") as [->|Hne].
  - split; [done|]. split; [done|]. done.
  - cbn [profiles active_profile]. split; [done|]. split.
    + intros _. split; [by apply get_pop_eq|]. split; [|done].
      destruct (String.eqb_spec (active_profile cfg) name); congruence.
    + intros other Ho. by apply get_pop_ne.
Qed.

Lemma delete_profile_keeps_active_valid_witness :
  let cfg' := delete_profile Scenario.two_profiles "media" in
  well_formed (profiles Scenario.two_profiles)
  /\ active_profile Scenario.two_profiles = "media"
  /\ get (profiles cfg') "media" = None
  /\ active_profile cfg' = "default".
Proof.
  cbv zeta.
  assert (Hwf : well_formed (profiles Scenario.two_profiles)).
  { unfold well_formed. apply (bool_decide_unpack _). vm_compute. exact I. }
  split; [exact Hwf|]. split; [reflexivity|].
  destruct (delete_profile_keeps_active_valid Scenario.two_profiles "media" Hwf)
    as (_ & Hdel & _).
  destruct (Hdel ltac:(discriminate)) as (Hgone & _ & Hact).
  split; [exact Hgone|]. rewrite Hact. reflexivity.
Defined.

(** ** Icons *)

Lemma contains_append_dot icon :
  Str.contains "." (String.append icon ".png") = true.
Proof.
  induction icon as [|c rest IH]; [done|].
  change (Str.contains "." (String.append (String c rest) ".png"))
    with (String.prefix "." (String c (String.append rest ".png"))
          || Str.contains "." (String.append rest ".png")).
  rewrite IH. apply orb_true_r.
Qed.

(** X24. The icon file name of an application is either empty (an
    unknown executable, or a known one without an icon) or a name with
    an extension: a name from the table that already has a dot is kept
    and ".png" is appended to the others. *)
Theorem icon_is_empty_or_has_extension (exe_name : string) :
  get_icon_for_exe exe_name = ""
  \/ (Str.contains "." (get_icon_for_exe exe_name) = true
      /\ exists info, get KNOWN_APPS exe_name = Some info
                      /\ info.2 <> ""
                      /\ (get_icon_for_exe exe_name = info.2
                          \/ get_icon_for_exe exe_name
                             = String.append info.2 ".png")).
Proof.
  unfold get_icon_for_exe. cbv zeta.
  destruct (get KNOWN_APPS exe_name) as [info|]; [|by left].
  destruct (String.eqb_spec info.2 "") as [|Hne]; [by left|].
  right. destruct (Str.contains "." info.2) eqn:Hdot.
  - split; [done|]. exists info. auto.
  - split; [apply contains_append_dot|]. exists info. auto.
Qed.

End ConfigFacts.


(* ===================================================================== *)
(** * Properties of the engine's rewiring *)
(* ===================================================================== *)

Module EngineFacts.
Import Config Engine.

(** ** Dicts *)

Lemma get_elem_of {V} (d : dict V) k v : get d k = Some v -> (k, v) ∈ d.
Proof.
  induction d as [|[k' v'] rest IH]; simpl; [done|].
  destruct (String.eqb_spec k' k) as [->|Hne].
  - intros [= ->]. apply list_elem_of_here.
  - intros H. apply list_elem_of_further. by apply IH.
Qed.

Lemma elem_of_get {V} (d : dict V) k v :
  well_formed d -> (k, v) ∈ d -> get d k = Some v.
Proof.
  unfold well_formed.
  induction d as [|[k' v'] rest IH]; simpl; intros Hnd Hin.
  - by apply elem_of_nil in Hin.
  - apply NoDup_cons in Hnd as [Hfresh Hnd].
    apply elem_of_cons in Hin as [[= -> ->]|Hin].
    + by rewrite String.eqb_refl.
    + destruct (String.eqb_spec k' k) as [->|Hne]; [|by apply IH].
      exfalso. apply Hfresh. apply list_elem_of_fmap. by exists (k, v).
Qed.

(** ** The binding a rewiring adds for one event type *)

Lemma extend_extend entry l1 l2 :
  extend (extend entry l1) l2 = extend entry (l1 ++ l2).
Proof.
  destruct l1 as [|c1 l1]; [done|].
  destruct l2 as [|c2 l2]; simpl.
  - by rewrite app_nil_r.
  - by rewrite <- app_assoc.
Qed.

Lemma register_lookup ev cb h e :
  MouseHook._callbacks (MouseHook.register ev cb h) !! e
  = extend (MouseHook._callbacks h !! e)
           (if String.eqb ev e then [cb] else []).
Proof.
  unfold MouseHook.register. simpl.
  destruct (String.eqb_spec ev e) as [->|Hne].
  - by rewrite lookup_insert_eq.
  - by rewrite lookup_insert_ne.
Qed.

Lemma block_blocked ev h e :
  e ∈ MouseHook._blocked_events (MouseHook.block ev h)
  <-> e = ev \/ e ∈ MouseHook._blocked_events h.
Proof.
  unfold MouseHook.block. simpl.
  by rewrite elem_of_union, elem_of_singleton.
Qed.

Lemma register_blocked ev cb h :
  MouseHook._blocked_events (MouseHook.register ev cb h)
  = MouseHook._blocked_events h.
Proof. reflexivity. Qed.

Lemma block_callbacks ev h :
  MouseHook._callbacks (MouseHook.block ev h) = MouseHook._callbacks h.
Proof. reflexivity. Qed.

Lemma setup_events_blocked h a events e :
  e ∈ MouseHook._blocked_events (setup_events h a events)
  <-> e ∈ MouseHook._blocked_events h \/ (a <> "none" /\ e ∈ events).
Proof.
  revert h. induction events as [|ev rest IH]; intros h.
  - simpl. split; [by left|]. intros [H|[_ H]]; [done|].
    by apply elem_of_nil in H.
  - cbn [setup_events]. rewrite elem_of_cons.
    destruct (String.eqb_spec a "none") as [->|Hne]; cbn [negb].
    + destruct (Str.endswith ev "_up"); rewrite IH; tauto.
    + destruct (Str.endswith ev "_up"); [|cbv zeta; destruct (Str.contains "hscroll" ev)];
        rewrite IH, ?register_blocked, block_blocked; tauto.
Qed.

Lemma setup_events_callbacks h a events e :
  MouseHook._callbacks (setup_events h a events) !! e
  = extend (MouseHook._callbacks h !! e) (bound_by a events e).
Proof.
  revert h. induction events as [|ev rest IH]; intros h; simpl; [done|].
  unfold bound_by. simpl. fold (bound_by a rest e).
  destruct (Str.endswith ev "_up") eqn:Hup; simpl.
  - rewrite andb_false_r. simpl. rewrite IH.
    by destruct (negb (String.eqb a "none")).
  - destruct (String.eqb a "none") eqn:Hnone; simpl.
    + rewrite andb_false_r. simpl. apply IH.
    + rewrite andb_true_r, IH.
      assert (Hreg : forall cb,
        MouseHook._callbacks
          (MouseHook.register ev cb (MouseHook.block ev h)) !! e
        = extend (MouseHook._callbacks h !! e)
                 (if String.eqb ev e then [cb] else [])).
      { intros cb. by rewrite register_lookup. }
      unfold handler_for.
      destruct (Str.contains "hscroll" ev); rewrite Hreg, extend_extend;
        by destruct (String.eqb ev e).
Qed.

Lemma setup_mappings_blocked h fb items e :
  e ∈ MouseHook._blocked_events (setup_mappings h fb items)
  <-> e ∈ MouseHook._blocked_events h
      \/ exists k a, (k, a) ∈ items /\ a <> "none" /\ e ∈ events_of fb k.
Proof.
  revert h. induction items as [|[k a] rest IH]; intros h; simpl.
  - split; [by left|]. intros [H|(k & a & H & _)]; [done|].
    by apply elem_of_nil in H.
  - rewrite IH, setup_events_blocked. split.
    + intros [[H|[Ha He]]|(k' & a' & Hin & Ha & He)].
      * by left.
      * right. exists k, a. split; [apply list_elem_of_here|done].
      * right. exists k', a'. split; [by apply list_elem_of_further|done].
    + intros [H|(k' & a' & Hin & Ha & He)]; [by left; left|].
      apply elem_of_cons in Hin as [[= -> ->]|Hin].
      * left. right. done.
      * right. by exists k', a'.
Qed.

Lemma setup_mappings_callbacks h fb items e :
  MouseHook._callbacks (setup_mappings h fb items) !! e
  = extend (MouseHook._callbacks h !! e)
           (flat_map (fun '(k, a) => bound_by a (events_of fb k) e) items).
Proof.
  revert h. induction items as [|[k a] rest IH]; intros h; simpl; [done|].
  by rewrite IH, setup_events_callbacks, extend_extend.
Qed.

(** ** What one event ends up with after the loop over the mappings *)

Lemma bound_by_none events e : bound_by "none" events e = [].
Proof.
  unfold bound_by. induction events as [|ev rest IH]; simpl; [done|].
  by rewrite andb_false_r.
Qed.

Lemma bound_by_nonempty a events e :
  bound_by a events e <> [] ->
  a <> "none" /\ e ∈ events /\ Str.endswith e "_up" = false.
Proof.
  unfold bound_by. induction events as [|ev rest IH]; simpl; [done|].
  destruct (String.eqb_spec ev e) as [->|Hne]; simpl.
  - destruct (Str.endswith e "_up"); simpl.
    + intros H. destruct (IH H) as (? & ? & ?).
      split; [done|]. split; [by apply list_elem_of_further|done].
    + destruct (String.eqb_spec a "none") as [->|Ha]; simpl.
      * intros H. destruct (IH H) as (? & ? & ?). done.
      * intros _. split; [done|]. split; [apply list_elem_of_here|done].
  - intros H. destruct (IH H) as (? & ? & ?).
    split; [done|]. split; [by apply list_elem_of_further|done].
Qed.

Lemma flat_map_nil {A B} (f : A -> list B) (l : list A) :
  (forall x, x ∈ l -> f x = []) -> flat_map f l = [].
Proof.
  induction l as [|x l IH]; simpl; intros H; [done|].
  rewrite (H x) by apply list_elem_of_here. simpl.
  apply IH. intros y Hy. apply H. by apply list_elem_of_further.
Qed.

Lemma flat_map_nonempty {A B} (f : A -> list B) (l : list A) :
  flat_map f l <> [] -> exists x, x ∈ l /\ f x <> [].
Proof.
  induction l as [|x l IH]; simpl; [done|].
  destruct (f x) as [|b bs] eqn:Hfx; simpl.
  - intros H. destruct (IH H) as (y & Hy & Hfy).
    exists y. split; [by apply list_elem_of_further|done].
  - intros _. exists x. split; [apply list_elem_of_here|by rewrite Hfx].
Qed.

(** In a dict only the entry of [k0] contributes when all other keys
    contribute nothing. *)
Lemma flat_map_single {B} (f : string * string -> list B)
    (m : dict string) (k0 : string) :
  well_formed m ->
  (forall k a, (k, a) ∈ m -> k <> k0 -> f (k, a) = []) ->
  flat_map f m = match get m k0 with Some a => f (k0, a) | None => [] end.
Proof.
  unfold well_formed.
  induction m as [|[k a] rest IH]; simpl; intros Hnd Hother; [done|].
  apply NoDup_cons in Hnd as [Hfresh Hnd].
  destruct (String.eqb_spec k k0) as [->|Hne].
  - rewrite flat_map_nil; [by rewrite app_nil_r|].
    intros [k' a'] Hin. apply Hother; [by apply list_elem_of_further|].
    intros ->. apply Hfresh. apply list_elem_of_fmap. by exists (k0, a').
  - rewrite (Hother k a) by (apply list_elem_of_here || done). simpl.
    apply IH; [done|]. intros k' a' Hin. apply Hother.
    by apply list_elem_of_further.
Qed.

Lemma events_of_cases fb k :
  (k = "middle" /\ events_of fb k = ["middle_down"; "middle_up"])
  \/ (k = "gesture"
      /\ events_of fb k
         = ["gesture_down"; "gesture_up"]
           ++ (if fb then ["middle_down"; "middle_up"] else []))
  \/ (k = "xbutton1" /\ events_of fb k = ["xbutton1_down"; "xbutton1_up"])
  \/ (k = "xbutton2" /\ events_of fb k = ["xbutton2_down"; "xbutton2_up"])
  \/ (k = "hscroll_left" /\ events_of fb k = ["hscroll_left"])
  \/ (k = "hscroll_right" /\ events_of fb k = ["hscroll_right"])
  \/ events_of fb k = [].
Proof.
  unfold events_of.
  destruct (String.eqb_spec k "gesture") as [->|Hg]; [by right; left|].
  unfold BUTTON_TO_EVENTS. cbn [get].
  destruct (String.eqb_spec "middle" k) as [<-|?]; [by left|].
  destruct (String.eqb_spec "gesture" k) as [<-|?]; [done|].
  destruct (String.eqb_spec "xbutton1" k) as [<-|?]; [by right; right; left|].
  destruct (String.eqb_spec "xbutton2" k) as [<-|?];
    [by right; right; right; left|].
  destruct (String.eqb_spec "hscroll_left" k) as [<-|?];
    [by right; right; right; right; left|].
  destruct (String.eqb_spec "hscroll_right" k) as [<-|?];
    [by right; right; right; right; right; left|].
  by repeat right.
Qed.

Lemma eqb_none a : a <> "none" -> String.eqb a "none" = false.
Proof. intros H. by destruct (String.eqb_spec a "none"). Qed.

Lemma fallback_true m :
  gesture_uses_middle_fallback m = true ->
  default "none" (get m "gesture") <> "none"
  /\ default "none" (get m "middle") = "none".
Proof.
  unfold gesture_uses_middle_fallback. cbv zeta.
  destruct (String.eqb_spec (default "none" (get m "gesture")) "none");
    [done|].
  destruct (String.eqb_spec (default "none" (get m "middle")) "none"); done.
Qed.

Lemma fallback_false_middle m a :
  get m "middle" = Some a -> a <> "none" ->
  gesture_uses_middle_fallback m = false.
Proof.
  unfold gesture_uses_middle_fallback. cbv zeta.
  intros -> Ha. simpl. rewrite (eqb_none a Ha). apply andb_false_r.
Qed.

Lemma setup_hooks_callbacks self e :
  MouseHook._callbacks (hook (_setup_hooks self)) !! e
  = extend (MouseHook._callbacks (hook self) !! e)
           (wired (get_active_mappings (cfg self)) e).
Proof.
  unfold _setup_hooks. cbv zeta. cbn [hook with_hook].
  by rewrite setup_mappings_callbacks.
Qed.

Lemma setup_hooks_blocked self e :
  let m := get_active_mappings (cfg self) in
  e ∈ MouseHook._blocked_events (hook (_setup_hooks self))
  <-> e ∈ MouseHook._blocked_events (hook self)
      \/ exists k a, (k, a) ∈ m /\ a <> "none"
                      /\ e ∈ events_of (gesture_uses_middle_fallback m) k.
Proof.
  cbv zeta. unfold _setup_hooks. cbv zeta. cbn [hook with_hook].
  by rewrite setup_mappings_blocked.
Qed.

Lemma setup_hooks_cfg self : cfg (_setup_hooks self) = cfg self.
Proof. reflexivity. Qed.

(** The one owner of an event: every other key of the mappings
    contributes nothing to it. *)
Ltac other_keys fb :=
  let k := fresh "k" in let a' := fresh "a'" in
  let Hin := fresh "Hin" in let Hk := fresh "Hk" in
  intros k a' Hin Hk;
  destruct (events_of_cases fb k)
    as [[-> ->]|[[-> ->]|[[-> ->]|[[-> ->]|[[-> ->]|[[-> ->]| ->]]]]]];
  try done; try reflexivity.

Lemma wired_button m btn down up a :
  well_formed m ->
  get BUTTON_TO_EVENTS btn = Some [down; up] ->
  get m btn = Some a -> a <> "none" ->
  wired m down = [_make_handler a] /\ wired m up = [].
Proof.
  intros Hwf Hbtn Hget Ha. unfold wired.
  set (fb := gesture_uses_middle_fallback m).
  assert (Hcase : btn = "middle" \/ btn = "gesture"
                  \/ btn = "xbutton1" \/ btn = "xbutton2").
  { revert Hbtn. unfold BUTTON_TO_EVENTS. cbn [get].
    destruct (String.eqb_spec "middle" btn) as [<-|?]; [by left|].
    destruct (String.eqb_spec "gesture" btn) as [<-|?]; [by right; left|].
    destruct (String.eqb_spec "xbutton1" btn) as [<-|?];
      [by right; right; left|].
    destruct (String.eqb_spec "xbutton2" btn) as [<-|?];
      [by right; right; right|].
    destruct (String.eqb_spec "hscroll_left" btn) as [<-|?]; [done|].
    destruct (String.eqb_spec "hscroll_right" btn) as [<-|?]; done. }
  assert (Hmid : btn = "middle" -> fb = false).
  { intros ->. by apply (fallback_false_middle m a). }
  assert (Hgest : fb = true ->
                  forall a', ("middle", a') ∈ m -> a' = "none").
  { intros Hfb a' Hin. apply fallback_true in Hfb as [_ Hm].
    by rewrite (elem_of_get m "middle" a' Hwf Hin) in Hm. }
  destruct Hcase as [->|[->|[->| ->]]]; injection Hbtn as <- <-.
  - rewrite (Hmid eq_refl). split.
    + rewrite (flat_map_single _ m "middle" Hwf).
      * rewrite Hget. unfold bound_by. simpl. by rewrite (eqb_none a Ha).
      * other_keys false.
    + rewrite (flat_map_single _ m "middle" Hwf).
      * rewrite Hget. unfold bound_by. simpl. done.
      * other_keys false.
  - split.
    + rewrite (flat_map_single _ m "gesture" Hwf).
      * rewrite Hget. unfold bound_by. destruct fb; simpl;
          by rewrite (eqb_none a Ha).
      * other_keys fb.
    + rewrite (flat_map_single _ m "gesture" Hwf).
      * rewrite Hget. unfold bound_by. by destruct fb.
      * other_keys fb.
  - split.
    + rewrite (flat_map_single _ m "xbutton1" Hwf).
      * rewrite Hget. unfold bound_by. simpl. by rewrite (eqb_none a Ha).
      * other_keys fb. by destruct fb.
    + rewrite (flat_map_single _ m "xbutton1" Hwf).
      * rewrite Hget. unfold bound_by. simpl. done.
      * other_keys fb. by destruct fb.
  - split.
    + rewrite (flat_map_single _ m "xbutton2" Hwf).
      * rewrite Hget. unfold bound_by. simpl. by rewrite (eqb_none a Ha).
      * other_keys fb. by destruct fb.
    + rewrite (flat_map_single _ m "xbutton2" Hwf).
      * rewrite Hget. unfold bound_by. simpl. done.
      * other_keys fb. by destruct fb.
Qed.

Lemma wired_fallback m g :
  well_formed m ->
  gesture_uses_middle_fallback m = true ->
  get m "gesture" = Some g ->
  wired m "middle_down" = [_make_handler g] /\ wired m "middle_up" = [].
Proof.
  intros Hwf Hfb Hget. unfold wired. rewrite Hfb.
  destruct (fallback_true m Hfb) as [Hg Hm]. rewrite Hget in Hg. simpl in Hg.
  assert (Hmid : forall a', ("middle", a') ∈ m -> a' = "none").
  { intros a' Hin. by rewrite (elem_of_get m "middle" a' Hwf Hin) in Hm. }
  split.
  - rewrite (flat_map_single _ m "gesture" Hwf).
    + rewrite Hget. unfold bound_by. simpl. by rewrite (eqb_none g Hg).
    + other_keys true. rewrite (Hmid a' Hin). apply bound_by_none.
  - rewrite (flat_map_single _ m "gesture" Hwf).
    + rewrite Hget. unfold bound_by. simpl. done.
    + other_keys true.
Qed.

Lemma wired_hscroll m key e a :
  well_formed m ->
  get BUTTON_TO_EVENTS key = Some [e] ->
  get m key = Some a -> a <> "none" ->
  wired m e = [_make_hscroll_handler a].
Proof.
  intros Hwf Hkey Hget Ha. unfold wired.
  set (fb := gesture_uses_middle_fallback m).
  assert (Hcase : key = "hscroll_left" \/ key = "hscroll_right").
  { revert Hkey. unfold BUTTON_TO_EVENTS. cbn [get].
    destruct (String.eqb_spec "middle" key) as [<-|?]; [done|].
    destruct (String.eqb_spec "gesture" key) as [<-|?]; [done|].
    destruct (String.eqb_spec "xbutton1" key) as [<-|?]; [done|].
    destruct (String.eqb_spec "xbutton2" key) as [<-|?]; [done|].
    destruct (String.eqb_spec "hscroll_left" key) as [<-|?]; [by left|].
    destruct (String.eqb_spec "hscroll_right" key) as [<-|?];
      [by right|done]. }
  destruct Hcase as [->| ->]; injection Hkey as <-.
  - rewrite (flat_map_single _ m "hscroll_left" Hwf).
    + rewrite Hget. unfold bound_by. simpl. by rewrite (eqb_none a Ha).
    + other_keys fb. by destruct fb.
  - rewrite (flat_map_single _ m "hscroll_right" Hwf).
    + rewrite Hget. unfold bound_by. simpl. by rewrite (eqb_none a Ha).
    + other_keys fb. by destruct fb.
Qed.

(** ** The rewiring as a whole *)

(** What [_setup_hooks] leaves in a hook whose bindings were cleared. *)
Lemma setup_hooks_from_cleared self :
  let self' := _setup_hooks self in
  let m := get_active_mappings (cfg self) in
  let blocked e := e ∈ MouseHook._blocked_events (hook self') in
  let handlers e := MouseHook._callbacks (hook self') !! e in
  MouseHook._callbacks (hook self) = ∅ ->
  MouseHook._blocked_events (hook self) = ∅ ->
  well_formed m ->
  (forall btn down up a,
      get BUTTON_TO_EVENTS btn = Some [down; up] ->
      get m btn = Some a -> a <> "none" ->
      blocked down /\ blocked up
      /\ handlers down = Some [_make_handler a] /\ handlers up = None)
  /\ (forall g,
      get m "gesture" = Some g -> g <> "none" ->
      default "none" (get m "middle") = "none" ->
      blocked "middle_down" /\ blocked "middle_up"
      /\ handlers "middle_down" = Some [_make_handler g]
      /\ handlers "middle_up" = None)
  /\ (forall key e a,
      get BUTTON_TO_EVENTS key = Some [e] ->
      get m key = Some a -> a <> "none" ->
      blocked e /\ handlers e = Some [_make_hscroll_handler a])
  /\ (forall e,
      blocked e \/ is_Some (handlers e) ->
      exists btn a,
        get m btn = Some a /\ a <> "none"
        /\ e ∈ events_of (gesture_uses_middle_fallback m) btn).
Proof.
  cbv zeta. intros Hcb Hbl Hwf.
  set (m := get_active_mappings (cfg self)) in *.
  assert (Hblocked : forall e k a,
            get m k = Some a -> a <> "none" ->
            e ∈ events_of (gesture_uses_middle_fallback m) k ->
            e ∈ MouseHook._blocked_events (hook (_setup_hooks self))).
  { intros e k a Hget Ha He. apply setup_hooks_blocked. right.
    exists k, a. split; [by apply get_elem_of|done]. }
  assert (Hhandlers : forall e,
            MouseHook._callbacks (hook (_setup_hooks self)) !! e
            = extend None (wired m e)).
  { intros e. by rewrite setup_hooks_callbacks, Hcb, lookup_empty. }
  split; [|split; [|split]].
  - intros btn down up a Hbtn Hget Ha.
    destruct (wired_button m btn down up a Hwf Hbtn Hget Ha) as [Hd Hu].
    assert (Hev : forall e, e ∈ [down; up] ->
              e ∈ events_of (gesture_uses_middle_fallback m) btn).
    { intros e He. unfold events_of.
      destruct (String.eqb_spec btn "gesture") as [->|_];
        rewrite Hbtn; cbn [default]; [|done].
      apply elem_of_app. by left. }
    split; [apply (Hblocked _ btn a Hget Ha), Hev, list_elem_of_here|].
    split; [apply (Hblocked _ btn a Hget Ha), Hev, list_elem_of_further,
            list_elem_of_here|].
    by rewrite !Hhandlers, Hd, Hu.
  - intros g Hget Hg Hmid.
    assert (Hfb : gesture_uses_middle_fallback m = true).
    { unfold gesture_uses_middle_fallback. cbv zeta. rewrite Hget, Hmid.
      simpl. by rewrite (eqb_none g Hg). }
    destruct (wired_fallback m g Hwf Hfb Hget) as [Hd Hu].
    assert (Hev : forall e, e ∈ ["middle_down"; "middle_up"] ->
              e ∈ events_of (gesture_uses_middle_fallback m) "gesture").
    { intros e He. rewrite Hfb. unfold events_of. simpl.
      by do 2 apply list_elem_of_further. }
    split; [apply (Hblocked _ "gesture" g Hget Hg), Hev, list_elem_of_here|].
    split; [apply (Hblocked _ "gesture" g Hget Hg), Hev,
            list_elem_of_further, list_elem_of_here|].
    by rewrite !Hhandlers, Hd, Hu.
  - intros key e a Hkey Hget Ha.
    split.
    + apply (Hblocked _ key a Hget Ha). unfold events_of.
      destruct (String.eqb_spec key "gesture") as [->|_];
        rewrite Hkey; cbn [default]; [apply elem_of_app; left|];
        apply list_elem_of_here.
    + by rewrite Hhandlers, (wired_hscroll m key e a Hwf Hkey Hget Ha).
  - intros e [He|[cbs He]].
    + apply setup_hooks_blocked in He as [He|(k & a & Hin & Ha & He)].
      * rewrite Hbl in He. by apply not_elem_of_empty in He.
      * exists k, a. split; [by apply elem_of_get|done].
    + rewrite Hhandlers in He.
      assert (Hne : wired m e <> []) by (intros Hnil; by rewrite Hnil in He).
      apply flat_map_nonempty in Hne as ([k a] & Hin & Hne).
      apply bound_by_nonempty in Hne as (Ha & Hev & _).
      exists k, a. split; [by apply elem_of_get|done].
Qed.

(** C7: a profile switch rewires the hook from scratch.  Whatever the
    hook was bound to before, afterwards every button mapped to an
    action other than "none" has its down and its up event blocked and
    exactly one handler, on the down event, running that action; when the
    gesture button has an action and the middle button has none, the two
    middle events are blocked too and [middle_down] runs the gesture
    action; and no event is blocked or bound unless the active mappings
    wire it. *)
Theorem rewiring_blocks_and_binds (self : State) (profile_name : string)
    (Hwf : well_formed
             (get_active_mappings (cfg (_switch_profile self profile_name)))) :
  let self' := _switch_profile self profile_name in
  let m := get_active_mappings (cfg self') in
  let blocked e := e ∈ MouseHook._blocked_events (hook self') in
  let handlers e := MouseHook._callbacks (hook self') !! e in
  (forall btn down up a,
      get BUTTON_TO_EVENTS btn = Some [down; up] ->
      get m btn = Some a -> a <> "none" ->
      blocked down /\ blocked up
      /\ handlers down = Some [_make_handler a] /\ handlers up = None)
  /\ (forall g,
      get m "gesture" = Some g -> g <> "none" ->
      default "none" (get m "middle") = "none" ->
      blocked "middle_down" /\ blocked "middle_up"
      /\ handlers "middle_down" = Some [_make_handler g]
      /\ handlers "middle_up" = None)
  /\ (forall e,
      blocked e \/ is_Some (handlers e) ->
      exists btn a,
        get m btn = Some a /\ a <> "none"
        /\ e ∈ events_of (gesture_uses_middle_fallback m) btn).
Proof.
  cbv zeta. unfold _switch_profile in *. cbv zeta in *.
  rewrite setup_hooks_cfg in *.
  match goal with
  | |- context [_setup_hooks ?s] =>
      destruct (setup_hooks_from_cleared s eq_refl eq_refl Hwf)
        as (Hbtn & Hfallback & _ & Honly)
  end.
  split; [exact Hbtn|]. split; [exact Hfallback|exact Honly].
Qed.

Lemma rewiring_blocks_and_binds_witness :
  let self' := _switch_profile Scenario.stale_engine "media" in
  MouseHook._callbacks (hook Scenario.stale_engine) !! "middle_down"
  = Some [_make_handler "alt_tab"]
  /\ MouseHook._callbacks (hook self') !! "middle_down"
     = Some [_make_handler "play_pause"]
  /\ MouseHook._callbacks (hook self') !! "xbutton1_down"
     = Some [_make_handler "volume_down"]
  /\ MouseHook._callbacks (hook self') !! "xbutton1_up" = None
  /\ "xbutton1_up" ∈ MouseHook._blocked_events (hook self').
Proof.
  assert (Hwf : well_formed
            (get_active_mappings
               (cfg (_switch_profile Scenario.stale_engine "media")))).
  { unfold well_formed. apply (bool_decide_unpack _). vm_compute. exact I. }
  destruct (rewiring_blocks_and_binds Scenario.stale_engine "media" Hwf)
    as (Hbtn & Hfallback & _).
  destruct (Hbtn "xbutton1" "xbutton1_down" "xbutton1_up" "volume_down"
              eq_refl eq_refl ltac:(discriminate))
    as (_ & Hup & Hd & Hu).
  destruct (Hfallback "play_pause" eq_refl ltac:(discriminate) eq_refl)
    as (_ & _ & Hmd & _).
  cbv zeta. split; [reflexivity|]. split; [exact Hmd|].
  split; [exact Hd|]. split; [exact Hu|exact Hup].
Defined.


(** ** Rewiring from a reloaded configuration *)

Lemma reload_callbacks self loaded e :
  MouseHook._callbacks (hook (reload_mappings self loaded)) !! e
  = extend None (wired (get_active_mappings loaded) e).
Proof.
  unfold reload_mappings. cbv zeta. rewrite setup_hooks_callbacks.
  cbn [hook cfg MouseHook.reset_bindings MouseHook.with_bindings
       MouseHook._callbacks].
  by rewrite lookup_empty.
Qed.

Lemma reload_blocked self loaded e :
  let m := get_active_mappings loaded in
  e ∈ MouseHook._blocked_events (hook (reload_mappings self loaded))
  <-> exists k a, (k, a) ∈ m /\ a <> "none"
                  /\ e ∈ events_of (gesture_uses_middle_fallback m) k.
Proof.
  cbv zeta. unfold reload_mappings. cbv zeta. rewrite setup_hooks_blocked.
  cbn [hook cfg MouseHook.reset_bindings MouseHook.with_bindings
       MouseHook._blocked_events].
  split; [|by right]. intros [H|H]; [|done]. by apply not_elem_of_empty in H.
Qed.

(** X25. The bindings a reload leaves depend on the loaded
    configuration alone: two engines, whatever their hooks were bound to
    and whatever profile they were on, end up with the same handler
    table and the same blocked set after [reload_mappings] with the same
    configuration, and a profile switch leaves the bindings of a reload
    of the configuration with that profile made active. *)
Theorem rewiring_depends_only_on_config
    (self1 self2 : State) (loaded : Cfg) :
  MouseHook._callbacks (hook (reload_mappings self1 loaded))
  = MouseHook._callbacks (hook (reload_mappings self2 loaded))
  /\ MouseHook._blocked_events (hook (reload_mappings self1 loaded))
     = MouseHook._blocked_events (hook (reload_mappings self2 loaded))
  /\ (cfg self1 = loaded ->
      forall profile_name,
        let switched := _switch_profile self1 profile_name in
        let reloaded :=
          reload_mappings self2
            {| active_profile := profile_name; profiles := profiles loaded;
               settings := settings loaded |} in
        MouseHook._callbacks (hook switched)
        = MouseHook._callbacks (hook reloaded)
        /\ MouseHook._blocked_events (hook switched)
           = MouseHook._blocked_events (hook reloaded)).
Proof.
  split; [|split].
  - apply map_eq. intros e. by rewrite !reload_callbacks.
  - apply set_eq. intros e. by rewrite !reload_blocked.
  - intros <- profile_name. cbv zeta. split.
    + apply map_eq. intros e. rewrite reload_callbacks.
      unfold _switch_profile. cbv zeta. rewrite setup_hooks_callbacks.
      cbn [hook cfg MouseHook.reset_bindings MouseHook.with_bindings
           MouseHook._callbacks].
      by rewrite lookup_empty.
    + apply set_eq. intros e. rewrite reload_blocked.
      unfold _switch_profile. cbv zeta. rewrite setup_hooks_blocked.
      cbn [hook cfg MouseHook.reset_bindings MouseHook.with_bindings
           MouseHook._blocked_events].
      split; [|by right]. intros [H|H]; [|done].
      by apply not_elem_of_empty in H.
Qed.

(** X26. After [reload_mappings], each horizontal-scroll direction
    mapped to an action other than "none" has its single event blocked
    and exactly one handler, the horizontal-scroll handler of that
    action; the engine's current profile is the loaded active profile. *)
Theorem reload_wires_tilt (self : State) (loaded : Cfg) :
  well_formed (get_active_mappings loaded) ->
  let self' := reload_mappings self loaded in
  _current_profile self' = active_profile loaded
  /\ cfg self' = loaded
  /\ forall key e a,
       get BUTTON_TO_EVENTS key = Some [e] ->
       get (get_active_mappings loaded) key = Some a -> a <> "none" ->
       e ∈ MouseHook._blocked_events (hook self')
       /\ MouseHook._callbacks (hook self') !! e
          = Some [_make_hscroll_handler a].
Proof.
  intros Hwf. cbv zeta. split; [done|]. split; [done|].
  intros key e a Hkey Hget Ha.
  unfold reload_mappings. cbv zeta.
  match goal with
  | |- context [_setup_hooks ?s] =>
      destruct (setup_hooks_from_cleared s eq_refl eq_refl Hwf)
        as (_ & _ & Htilt & _)
  end.
  exact (Htilt key e a Hkey Hget Ha).
Qed.

Lemma reload_wires_tilt_witness :
  let self' := reload_mappings Scenario.stale_engine Scenario.two_profiles in
  well_formed (get_active_mappings Scenario.two_profiles)
  /\ MouseHook._callbacks (hook self') !! "hscroll_left"
     = Some [_make_hscroll_handler "prev_track"]
  /\ "hscroll_left" ∈ MouseHook._blocked_events (hook self').
Proof.
  cbv zeta.
  assert (Hwf : well_formed (get_active_mappings Scenario.two_profiles)).
  { unfold well_formed. apply (bool_decide_unpack _). vm_compute. exact I. }
  split; [exact Hwf|].
  destruct (reload_wires_tilt Scenario.stale_engine Scenario.two_profiles Hwf)
    as (_ & _ & Htilt).
  destruct (Htilt "hscroll_left" "hscroll_left" "prev_track" eq_refl eq_refl
              ltac:(discriminate)) as [Hb Hc].
  split; [exact Hc|exact Hb].
Defined.

(** ** From the configuration to the key press *)

Lemma dispatch_single enabled h ev cb :
  MouseHook._callbacks h !! MouseHook.event_type ev = Some [cb] ->
  MouseHook._dispatch enabled h ev
  = (MouseHook.Dispatch ev
       :: (let '(eff, r) := MouseHook.call enabled cb ev in
           match r with
           | Returned => MouseHook.Call cb ev :: eff ++ []
           | Raised e =>
               if isinstance_Exception e
               then MouseHook.Call cb ev
                      :: eff ++ [MouseHook.Print "[MouseHook] callback error"]
               else MouseHook.Call cb ev :: eff
           end),
     let '(eff, r) := MouseHook.call enabled cb ev in
     match r with
     | Returned => Returned
     | Raised e => if isinstance_Exception e then Returned else Raised e
     end).
Proof.
  intros Hcb. unfold MouseHook._dispatch. rewrite Hcb. cbn.
  destruct (MouseHook.call enabled cb ev) as [eff [|e]]; [done|].
  by destruct (isinstance_Exception e).
Qed.

(** X27. From mapping to key press.  After a switch to a profile that
    maps a side button (xbutton1 or xbutton2) to an action other than
    "none", with the engine enabled, pressing that button runs the
    action exactly once and the press is swallowed; releasing it runs
    nothing and is swallowed as well. *)
Theorem mapped_side_button_runs_action
    (self : State) (profile_name btn a : string) (x d flags : Z) :
  let self' := _switch_profile self profile_name in
  well_formed (get_active_mappings (cfg self')) ->
  (btn, x) ∈ [("xbutton1", MouseHook.XBUTTON1);
              ("xbutton2", MouseHook.XBUTTON2)] ->
  get (get_active_mappings (cfg self')) btn = Some a ->
  a <> "none" ->
  MouseHook.hiword d = x ->
  Z.land flags MouseHook.INJECTED_FLAG = 0 ->
  let press :=
    MouseHook._low_level_handler true (hook self') MouseHook.HC_ACTION
                                 MouseHook.WM_XBUTTONDOWN d flags in
  let release :=
    MouseHook._low_level_handler true (hook self') MouseHook.HC_ACTION
                                 MouseHook.WM_XBUTTONUP d flags in
  MouseHook.executed press.1.2 = [a] /\ press.2 = MouseHook.Return1
  /\ MouseHook.executed release.1.2 = []
  /\ release.2 = MouseHook.Return1.
Proof.
  cbv zeta. intros Hwf Hbtn Hget Ha Hx Hflags.
  set (self' := _switch_profile self profile_name) in *.
  assert (Hwired : forall down up,
            get BUTTON_TO_EVENTS btn = Some [down; up] ->
            down ∈ MouseHook._blocked_events (hook self')
            /\ up ∈ MouseHook._blocked_events (hook self')
            /\ MouseHook._callbacks (hook self') !! down
               = Some [_make_handler a]
            /\ MouseHook._callbacks (hook self') !! up = None).
  { intros down up Hev. unfold self', _switch_profile in *. cbv zeta in *.
    rewrite setup_hooks_cfg in *.
    match goal with
    | |- context [_setup_hooks ?s] =>
        destruct (setup_hooks_from_cleared s eq_refl eq_refl Hwf)
          as (Hbuttons & _)
    end.
    exact (Hbuttons btn down up a Hev Hget Ha). }
  rewrite (HookFacts.handler_xbutton_down true (hook self') d flags Hflags).
  rewrite (HookFacts.handler_xbutton_up true (hook self') d flags Hflags).
  cbv zeta. rewrite Hx.
  pose proof (HookFacts.debug_report_quiet (hook self')
                MouseHook.WM_XBUTTONDOWN d flags) as [_ Hed].
  pose proof (HookFacts.debug_report_quiet (hook self')
                MouseHook.WM_XBUTTONUP d flags) as [_ Heu].
  assert (Hrun : forall dbg down up,
            MouseHook.executed dbg = [] ->
            get BUTTON_TO_EVENTS btn = Some [down; up] ->
            let press :=
              MouseHook.dispatch_and_block true (hook self') dbg
                (Some (MouseHook.mkMouseEvent down None))
                (MouseHook.blocked down (hook self')) in
            let release :=
              MouseHook.dispatch_and_block true (hook self') dbg
                (Some (MouseHook.mkMouseEvent up None))
                (MouseHook.blocked up (hook self')) in
            (MouseHook.executed press.1.2 = [a]
             /\ press.2 = MouseHook.Return1)
            /\ (MouseHook.executed release.1.2 = []
                /\ release.2 = MouseHook.Return1)).
  { intros dbg down up Hdbg Hev. cbv zeta.
    destruct (Hwired down up Hev) as (Hbd & Hbu & Hcd & Hcu).
    unfold MouseHook.dispatch_and_block, MouseHook.blocked.
    rewrite !bool_decide_eq_true_2 by done.
    rewrite (dispatch_single true (hook self')
               (MouseHook.mkMouseEvent down None) (_make_handler a) Hcd).
    unfold MouseHook._dispatch. cbn [MouseHook.event_type]. rewrite Hcu.
    cbn. rewrite !HookFacts.executed_app, Hdbg. done. }
  apply list_elem_of_In in Hbtn. cbn in Hbtn.
  destruct Hbtn as [[= <- <-]|[[= <- <-]|[]]].
  - destruct (Hrun (MouseHook.debug_report (hook self')
                      MouseHook.WM_XBUTTONDOWN d flags)
                   "xbutton1_down" "xbutton1_up" Hed eq_refl) as [[H1 H2] _].
    destruct (Hrun (MouseHook.debug_report (hook self')
                      MouseHook.WM_XBUTTONUP d flags)
                   "xbutton1_down" "xbutton1_up" Heu eq_refl) as [_ [H3 H4]].
    done.
  - destruct (Hrun (MouseHook.debug_report (hook self')
                      MouseHook.WM_XBUTTONDOWN d flags)
                   "xbutton2_down" "xbutton2_up" Hed eq_refl) as [[H1 H2] _].
    destruct (Hrun (MouseHook.debug_report (hook self')
                      MouseHook.WM_XBUTTONUP d flags)
                   "xbutton2_down" "xbutton2_up" Heu eq_refl) as [_ [H3 H4]].
    done.
Qed.

Lemma mapped_side_button_runs_action_witness :
  let self' := _switch_profile Scenario.stale_engine "media" in
  let press :=
    MouseHook._low_level_handler true (hook self') MouseHook.HC_ACTION
                                 MouseHook.WM_XBUTTONDOWN 0x00010000 0 in
  well_formed (get_active_mappings (cfg self'))
  /\ MouseHook.executed press.1.2 = ["volume_down"]
  /\ press.2 = MouseHook.Return1.
Proof.
  cbv zeta.
  assert (Hwf : well_formed
            (get_active_mappings
               (cfg (_switch_profile Scenario.stale_engine "media")))).
  { unfold well_formed. apply (bool_decide_unpack _). vm_compute. exact I. }
  split; [exact Hwf|].
  destruct (mapped_side_button_runs_action Scenario.stale_engine "media"
              "xbutton1" "volume_down" MouseHook.XBUTTON1 0x00010000 0 Hwf)
    as (Hrun & Hret & _).
  - apply list_elem_of_here.
  - reflexivity.
  - discriminate.
  - reflexivity.
  - reflexivity.
  - split; [exact Hrun|exact Hret].
Defined.

(** ** Following the foreground application *)

Lemma switch_profile_fields self p :
  _current_profile (_switch_profile self p) = p
  /\ active_profile (cfg (_switch_profile self p)) = p
  /\ profiles (cfg (_switch_profile self p)) = profiles (cfg self)
  /\ settings (cfg (_switch_profile self p)) = settings (cfg self)
  /\ _enabled (_switch_profile self p) = _enabled self.
Proof. done. Qed.

Lemma on_app_change_fields self exe :
  _current_profile (_on_app_change self exe)
  = get_profile_for_app (cfg self) exe
  /\ profiles (cfg (_on_app_change self exe)) = profiles (cfg self).
Proof.
  unfold _on_app_change. cbv zeta.
  destruct (String.eqb_spec (get_profile_for_app (cfg self) exe)
                            (_current_profile self)) as [Heq|Hne]; [done|].
  split; [apply switch_profile_fields|apply switch_profile_fields].
Qed.

(** X28. A foreground change settles the engine on the profile
    selected for the application: after [_on_app_change] the current
    profile is the one [get_profile_for_app] gives for the executable,
    the set of profiles is unchanged, and a second notification for the
    same executable changes nothing (no second rewiring). *)
Theorem app_change_settles (self : State) (exe_name : string) :
  let self' := _on_app_change self exe_name in
  _current_profile self' = get_profile_for_app (cfg self) exe_name
  /\ profiles (cfg self') = profiles (cfg self)
  /\ _on_app_change self' exe_name = self'.
Proof.
  cbv zeta. destruct (on_app_change_fields self exe_name) as [Hcur Hprof].
  split; [exact Hcur|]. split; [exact Hprof|].
  unfold _on_app_change at 1. cbv zeta.
  unfold get_profile_for_app in *. rewrite Hprof, Hcur.
  by rewrite String.eqb_refl.
Qed.

End EngineFacts.

(* ===================================================================== *)
(** * Properties of the key simulator *)
(* ===================================================================== *)

Module KeySimulatorFacts.
Import KeySimulator.




End KeySimulatorFacts.

(* ===================================================================== *)
(** * Properties of the foreground application detector *)
(* ===================================================================== *)

Module AppDetectorFacts.
Import AppDetector.

Lemma poll_turn_cases self engine exe :
  (poll_turn self engine exe = (self, engine)
   /\ (forall name, exe = Some name -> name = "" \/ _last_exe self = Some name))
  \/ exists name,
       exe = Some name /\ name <> ""
       /\ poll_turn self engine exe
          = (mkState (Some name), Engine._on_app_change engine name).
Proof.
  unfold poll_turn. destruct exe as [name|]; [|left; split; [done|done]].
  destruct (String.eqb_spec name "") as [->|Hne]; cbn [negb andb].
  - left. split; [done|]. intros ? [= <-]. by left.
  - destruct (bool_decide_reflect (Some name = _last_exe self)) as [Heq|Hneq];
      cbn [negb].
    + left. split; [done|]. intros ? [= <-]. by right.
    + right. by exists name.
Qed.

Lemma poll_general self engine observed :
  in_step self engine ->
  let out := _poll self engine observed in
  in_step out.1 out.2
  /\ Config.profiles (Engine.cfg out.2) = Config.profiles (Engine.cfg engine)
  /\ _last_exe out.1 = match last_seen observed with
                       | Some name => Some name
                       | None => _last_exe self
                       end
  /\ (last_seen observed = None -> out.2 = engine).
Proof.
  revert self engine. induction observed as [|exe rest IH];
    intros self engine Hinv; cbv zeta; [done|].
  cbn [_poll].
  assert (Hlast : forall name,
            exe = Some name -> name <> "" ->
            last_seen (exe :: rest)
            = Some (default name (last_seen rest))).
  { intros name -> Hne. unfold last_seen. cbn [omap list_omap].
    rewrite (proj2 (String.eqb_neq _ _) Hne). cbn.
    set (l := omap _ rest). by destruct l using rev_ind;
      [|rewrite app_comm_cons, !last_snoc]. }
  assert (Hskip : (forall name, exe = Some name -> name = "") ->
                  last_seen (exe :: rest) = last_seen rest).
  { intros Hempty. unfold last_seen. cbn [omap list_omap].
    destruct exe as [name|]; [|done].
    by rewrite (Hempty name eq_refl). }
  destruct (poll_turn_cases self engine exe)
    as [[Hsame Hwhy]|(name & -> & Hne & Hturn)].
  - rewrite Hsame. destruct (IH self engine Hinv) as (Hi & Hp & Hl & He).
    split; [done|]. split; [done|].
    destruct exe as [name|]; [|by rewrite Hskip].
    destruct (Hwhy name eq_refl) as [->|Hseen].
    + rewrite Hskip by (by intros ? [= <-]). done.
    + destruct (String.eqb_spec name "") as [->|Hne].
      * rewrite Hskip by (by intros ? [= <-]). done.
      * rewrite (Hlast name eq_refl Hne). split.
        -- rewrite Hl. by destruct (last_seen rest).
        -- done.
  - rewrite Hturn.
    destruct (EngineFacts.on_app_change_fields engine name) as [Hcur Hprof].
    assert (Hinv' : in_step (mkState (Some name))
                            (Engine._on_app_change engine name)).
    { intros name' [= <-]. rewrite Hcur. unfold Config.get_profile_for_app.
      by rewrite Hprof. }
    destruct (IH _ _ Hinv') as (Hi & Hp & Hl & He).
    split; [done|]. split; [by rewrite Hp|].
    rewrite (Hlast name eq_refl Hne). split; [|done].
    rewrite Hl. by destruct (last_seen rest).
Qed.

(** X30. The engine's profile follows the foreground application.
    Starting from a fresh detector, after any run of polling turns the
    engine is on the profile selected for the last non-empty executable
    name the turns reported, and the detector remembers that name; when
    no turn reported a name the engine is untouched.  The set of
    profiles never changes. *)
Theorem profile_follows_foreground_app
    (engine : Engine.State) (observed : list (option string)) :
  let out := _poll __init__ engine observed in
  _last_exe out.1 = last_seen observed
  /\ Config.profiles (Engine.cfg out.2) = Config.profiles (Engine.cfg engine)
  /\ (forall name,
        last_seen observed = Some name ->
        Engine._current_profile out.2
        = Config.get_profile_for_app (Engine.cfg engine) name)
  /\ (last_seen observed = None -> out.2 = engine).
Proof.
  cbv zeta.
  assert (Hinv : in_step __init__ engine) by (by intros name).
  destruct (poll_general __init__ engine observed Hinv)
    as (Hi & Hp & Hl & He).
  split; [rewrite Hl; by destruct (last_seen observed)|].
  split; [done|]. split; [|done].
  intros name Hseen. rewrite Hseen in Hl.
  rewrite (Hi name Hl). unfold Config.get_profile_for_app. by rewrite Hp.
Qed.

End AppDetectorFacts.
